(** * dev_tfd_search: catalog search, stat projection and cache-or-fetch

    A shallow embedding of [src/dev-tfd-search/tfd_search.py] and the
    properties of its specification.

    Conventions of the embedding.
    - A Python [str] is carried by the bytes of its UTF-8 encoding, on which
      equality, concatenation and the substring test are the ones of the
      text.  [lower] and [strip] are computed where the text is ASCII; for
      other text they are the interpreter's, taken as given ([Py.Unicode]).
    - What [rich] makes of a text it prints is computed where the text is
      plain, and taken as given otherwise ([Rich]).
    - A JSON object read through its schema is a record whose fields carry
      the keys' names; a JSON number is an [Int] or a [Float], the latter
      carried by the text Python prints for it, since the program only ever
      applies [str] to it.
    - A [dict] keyed by strings is a [gmap string _].
    - A [for] loop that mutates a table or a list is a [foldl] over the
      iterated list; [rows.append r] is [rows ++ [r]].
    - Code with effects threads its state explicitly: the operator's answers
      and the console for the prompts, the files and directories for the
      cache. *)

From Stdlib Require Import ZArith String Ascii DecimalString.
From stdpp Require Import gmap strings list fin_maps.

Open Scope string_scope.
Open Scope list_scope.
Open Scope Z_scope.

(** ** Python primitives *)

Module Py.

(** [str(n)] for an [int]. *)
Definition str_int (n : Z) : string := NilZero.string_of_int (Z.to_int n).

(** [int(s)] on a plain decimal numeral; [None] stands for [ValueError]. *)
Definition int (s : string) : option Z := Z.of_int <$> NilZero.int_of_string s.

(** The text has no character beyond ASCII. *)
Fixpoint is_ascii (s : string) : bool :=
  match s with
  | EmptyString => true
  | String c r => (nat_of_ascii c <? 128)%nat && is_ascii r
  end.

Definition lower_char (c : ascii) : ascii :=
  let n := nat_of_ascii c in
  if (65 <=? n)%nat && (n <=? 90)%nat then ascii_of_nat (n + 32) else c.

(** [s.lower()] on ASCII text. *)
Fixpoint lower_ascii (s : string) : string :=
  match s with
  | EmptyString => EmptyString
  | String c r => String (lower_char c) (lower_ascii r)
  end.

(** [needle in hay] for two strings. *)
Fixpoint contains (needle hay : string) : bool :=
  String.prefix needle hay ||
  match hay with
  | EmptyString => false
  | String _ r => contains needle r
  end.

(** The characters [str.strip()] removes, in the ASCII range. *)
Definition is_space (c : ascii) : bool :=
  let n := nat_of_ascii c in
  ((9 <=? n)%nat && (n <=? 13)%nat) || ((28 <=? n)%nat && (n <=? 32)%nat).

Fixpoint lstrip (s : string) : string :=
  match s with
  | EmptyString => EmptyString
  | String c r => if is_space c then lstrip r else s
  end.

(** [rstrip] keeps a character when it is not a space or when something
    remains after it. *)
Fixpoint rstrip (s : string) : string :=
  match s with
  | EmptyString => EmptyString
  | String c r =>
      match rstrip r with
      | EmptyString => if is_space c then EmptyString else String c EmptyString
      | r' => String c r'
      end
  end.

(** [s.strip()] on ASCII text. *)
Definition strip_ascii (s : string) : string := rstrip (lstrip s).

(** [str.lower] and [str.strip] on text that is not ASCII: Unicode's case
    mapping (every cased code point, the final sigma by its context) and
    Unicode's white space (U+0085, U+00A0 and the others).  Their tables are
    the interpreter's; two facts about them are used.  Lowering text that is
    lowered already changes nothing, and lowered text that is not ASCII is
    never the word [exit], since each code point beyond ASCII lowers to text
    with a character outside of it. *)
Class Unicode := {
  unicode_lower : string → string;
  unicode_strip : string → string;
  unicode_lower_lowered s :
    is_ascii s = false →
    (if is_ascii (unicode_lower s) then lower_ascii (unicode_lower s)
     else unicode_lower (unicode_lower s)) = unicode_lower s;
  unicode_lower_not_exit s :
    is_ascii s = false → unicode_lower s ≠ "exit"
}.

(** [s.lower()] *)
Definition lower {U : Unicode} (s : string) : string :=
  if is_ascii s then lower_ascii s else unicode_lower s.

(** [s.strip()] *)
Definition strip {U : Unicode} (s : string) : string :=
  if is_ascii s then strip_ascii s else unicode_strip s.

(** Truth value of a string: [if s] / [not s]. *)
Definition truthy (s : string) : bool :=
  match s with EmptyString => false | _ => true end.

(** [s.split(sep)] for a one-character separator. *)
Fixpoint split (sep : ascii) (s : string) : list string :=
  match s with
  | EmptyString => [EmptyString]
  | String c r =>
      if Ascii.eqb c sep then EmptyString :: split sep r
      else match split sep r with
           | [] => [String c EmptyString]
           | w :: ws => String c w :: ws
           end
  end.

(** [d.get(k, default)] *)
Definition get (d : gmap string string) (k default : string) : string :=
  match d !! k with
  | Some v => v
  | None => default
  end.

(** [os.path.join(a, b)], POSIX flavour. *)
Definition path_join (a b : string) : string :=
  if String.prefix "/" b then b
  else if negb (truthy a) || String.prefix "/" (String.rev a) then a +:+ b
  else a +:+ "/" +:+ b.

(** [p[:p.rfind("/") + 1]]: the longest prefix of [p] that ends in a
    slash. *)
Fixpoint upto_last_slash (p : string) : string :=
  match p with
  | EmptyString => EmptyString
  | String c r =>
      match upto_last_slash r with
      | EmptyString => if Ascii.eqb c "/" then "/" else EmptyString
      | h => String c h
      end
  end.

Fixpoint all_slashes (s : string) : bool :=
  match s with
  | EmptyString => true
  | String c r => Ascii.eqb c "/" && all_slashes r
  end.

(** [s.rstrip("/")] *)
Fixpoint rstrip_slashes (s : string) : string :=
  match s with
  | EmptyString => EmptyString
  | String c r =>
      match rstrip_slashes r with
      | EmptyString => if Ascii.eqb c "/" then EmptyString else String c EmptyString
      | r' => String c r'
      end
  end.

(** [os.path.dirname(p)], POSIX flavour. *)
Definition dirname (p : string) : string :=
  let head := upto_last_slash p in
  if truthy head && negb (all_slashes head) then rstrip_slashes head else head.

End Py.

(** ** Catalog records *)

(** A JSON number. *)
Inductive number :=
| Int (n : Z)
| Float (shown : string).

(** [str(x)] for a number. *)
Definition str (x : number) : string :=
  match x with
  | Int n => Py.str_int n
  | Float shown => shown
  end.

Record base_stat_entry := {
  stat_id : string;
  stat_value : number
}.

Record firearm_entry := {
  firearm_atk_type : string;
  firearm_atk_value : number
}.

Record level_info := {
  level : Z;
  firearm : list firearm_entry
}.

Record weapon := {
  weapon_name : string;
  weapon_id : string;
  weapon_type : string;
  weapon_tier : string;
  weapon_rounds_type : string;
  base_stat : list base_stat_entry;
  firearm_atk : list level_info
}.

Module ModuleStat.
Record t := {
  level : Z;
  module_capacity : number;
  value : string
}.
End ModuleStat.

Record module_record := {
  module_name : string;
  module_stat : list ModuleStat.t
}.

Module StatItem.
(** One entry of the stat dataset. *)
Record t := {
  stat_id : string;
  stat_name : string
}.
End StatItem.

(** What [prepare_csv_rows] and [export_json_to_csv] receive as [data]: a
    weapon record is the one that has the key [weapon_id]. *)
Inductive item :=
| WeaponItem (w : weapon)
| ModuleItem (m : module_record).

(** ** Tables (the part of [rich.table.Table] the program drives) *)

Record Table := {
  title : string;
  columns : list (string * string);
  rows : list (list string)
}.

Definition new_table (title : string) : Table :=
  {| title := title; columns := []; rows := [] |}.

Definition add_column (t : Table) (header style : string) : Table :=
  {| title := title t; columns := columns t ++ [(header, style)]; rows := rows t |}.

Definition add_row (t : Table) (cells : list string) : Table :=
  {| title := title t; columns := columns t; rows := rows t ++ [cells] |}.

(** ** Stat projection *)

(** The expression [stat_map.get(id, f"Unknown Stat ({id})")], which the
    source writes out at each of its four uses. *)
Definition stat_name (stat_map : gmap string string) (id : string) : string :=
  Py.get stat_map id ("Unknown Stat (" +:+ id +:+ ")").

Definition create_base_stats_table (weapon : weapon) (stat_map : gmap string string)
  : Table :=
  let base_stats_table := new_table (weapon_name weapon +:+ " - Base Stats") in
  let base_stats_table := add_column base_stats_table "Attribute" "bold" in
  let base_stats_table := add_column base_stats_table "Value" "bold" in
  let base_stats_table := add_row base_stats_table ["Weapon ID"; weapon_id weapon] in
  let base_stats_table := add_row base_stats_table ["Weapon Type"; weapon_type weapon] in
  let base_stats_table := add_row base_stats_table ["Weapon Tier"; weapon_tier weapon] in
  let base_stats_table :=
    add_row base_stats_table ["Rounds Type"; weapon_rounds_type weapon] in
  foldl (fun table stat =>
           add_row table [stat_name stat_map (stat_id stat); str (stat_value stat)])
        base_stats_table (base_stat weapon).

Definition create_firearm_attack_table (weapon : weapon) (stat_map : gmap string string)
    (start_level end_level : Z) : Table :=
  let firearm_attack_table :=
    new_table (weapon_name weapon +:+ " - Firearm Attack (" +:+ Py.str_int start_level
               +:+ "-" +:+ Py.str_int end_level +:+ ")") in
  let firearm_attack_table := add_column firearm_attack_table "Level" "bold" in
  let firearm_attack_table := add_column firearm_attack_table "Type" "bold" in
  let firearm_attack_table := add_column firearm_attack_table "Value" "bold" in
  foldl (fun table level_info =>
           let level := level level_info in
           if (start_level <=? level) && (level <=? end_level) then
             foldl (fun table firearm =>
                      add_row table [Py.str_int level;
                                     stat_name stat_map (firearm_atk_type firearm);
                                     str (firearm_atk_value firearm)])
                   table (firearm level_info)
           else table)
        firearm_attack_table (firearm_atk weapon).

Definition create_module_stats_table (module : module_record) : Table :=
  let module_stats_table := new_table (module_name module +:+ " - Stats") in
  let module_stats_table := add_column module_stats_table "Level" "bold" in
  let module_stats_table := add_column module_stats_table "Capacity" "bold" in
  let module_stats_table := add_column module_stats_table "Value" "bold" in
  foldl (fun table stat =>
           let table :=
             add_row table [Py.str_int (ModuleStat.level stat);
                            str (ModuleStat.module_capacity stat);
                            ModuleStat.value stat] in
           add_row table [""; ""; ""])
        module_stats_table (module_stat module).

(** ** CSV rows *)

Definition prepare_csv_rows (data : item) (stat_map : option (gmap string string))
  : list (list string) :=
  let rows : list (list string) := [] in
  match data with
  | WeaponItem data =>
      let rows := rows ++ [["Weapon ID"; weapon_id data]] in
      let rows := rows ++ [["Weapon Type"; weapon_type data]] in
      let rows := rows ++ [["Weapon Tier"; weapon_tier data]] in
      let rows := rows ++ [["Rounds Type"; weapon_rounds_type data]] in
      let rows := rows ++ [[]] in
      match stat_map with
      | Some stat_map =>
          (* [if stat_map:] an empty dict is as false as [None] *)
          if decide (stat_map = ∅) then rows
          else
            let rows := rows ++ [["Base Stats"]] in
            let rows :=
              foldl (fun rows stat =>
                       rows ++ [[stat_name stat_map (stat_id stat);
                                 str (stat_value stat)]])
                    rows (base_stat data) in
            let rows := rows ++ [[]] in
            let rows := rows ++ [["Firearm Attack (1-160)"]] in
            let rows := rows ++ [["Level"; "Type"; "Value"]] in
            foldl (fun rows level_info =>
                     let level := level level_info in
                     foldl (fun rows firearm =>
                              rows ++ [[Py.str_int level;
                                        stat_name stat_map (firearm_atk_type firearm);
                                        str (firearm_atk_value firearm)]])
                           rows (firearm level_info))
                  rows (firearm_atk data)
      | None => rows
      end
  | ModuleItem data =>
      let rows := rows ++ [["Module Name"; module_name data]] in
      let rows := rows ++ [[]] in
      let rows := rows ++ [["Level"; "Capacity"; "Value"]] in
      foldl (fun rows stat =>
               rows ++ [[Py.str_int (ModuleStat.level stat);
                         str (ModuleStat.module_capacity stat);
                         ModuleStat.value stat]])
            rows (module_stat data)
  end.


(** ** Search *)

(** [item[key]] for a key that holds a string; [None] stands for the
    exception Python raises when the key is missing ([KeyError]) or holds
    something without [lower] ([AttributeError]). *)
Class Subscript (A : Type) := getitem : A → string → option string.

#[global] Instance weapon_subscript : Subscript weapon := fun w key =>
  if decide (key = "weapon_name") then Some (weapon_name w)
  else if decide (key = "weapon_id") then Some (weapon_id w)
  else if decide (key = "weapon_type") then Some (weapon_type w)
  else if decide (key = "weapon_tier") then Some (weapon_tier w)
  else if decide (key = "weapon_rounds_type") then Some (weapon_rounds_type w)
  else None.

#[global] Instance module_subscript : Subscript module_record := fun m key =>
  if decide (key = "module_name") then Some (module_name m) else None.

(** A plain [dict] of strings. *)
#[global] Instance dict_subscript : Subscript (gmap string string) := fun d key => d !! key.

(** The list comprehension evaluates its condition item by item, so the
    first item without the key ends it. *)
Fixpoint search_items {U : Py.Unicode} {A} `{Subscript A} (items : list A)
    (search_term key : string) : option (list A) :=
  match items with
  | [] => Some []
  | item :: items =>
      match getitem item key with
      | None => None
      | Some name =>
          match search_items items search_term key with
          | None => None
          | Some found =>
              Some (if Py.contains (Py.lower search_term) (Py.lower name)
                    then item :: found else found)
          end
      end
  end.

(** ** The session: prompts, console and exported files *)

Inductive exn :=
| KeyError
| StopIteration
| ValueError
| ConnectionError
| HTTPError (status : Z)
| JSONDecodeError
| FileNotFoundError
| FileExistsError
| NotADirectoryError
| IsADirectoryError
| MarkupError.

Inductive result (A : Type) :=
| Ok (a : A)
| Raise (e : exn).
Arguments Ok {A} a.
Arguments Raise {A} e.

(** What reaches the screen: a line of text, or tables with their title,
    headers and cells; text and tables as they are before the terminal's
    width lays them out. *)
Inductive output :=
| Printed (line : string)
| Shown (tables : list Table).

(** [answers] is what the operator will answer to the prompts to come, [None]
    for a prompt that is cancelled; [refused] gives the paths the operating
    system will not open for writing, with the error's text. *)
Record session := {
  answers : list (option string);
  console : list output;
  csv_files : gmap string (list (list string));
  refused : gmap string string
}.

Definition M (A : Type) : Type := session → result A * session.

#[global] Instance session_ret : MRet M := fun A a s => (Ok a, s).

Definition raise {A} (e : exn) : M A := fun s => (Raise e, s).

#[global] Instance session_bind : MBind M := fun A B k m s =>
  match m s with
  | (Ok a, s) => k a s
  | (Raise e, s) => (Raise e, s)
  end.

(** [….ask()]: the operator's next answer; a prompt nobody answers is
    cancelled. *)
Definition ask : M (option string) := fun s =>
  match answers s with
  | [] => (Ok None, s)
  | a :: rest =>
      (Ok a, {| answers := rest; console := console s;
                csv_files := csv_files s; refused := refused s |})
  end.

(** [questionary.select(…, choices).ask()]: only an offered choice can come
    back. *)
Definition select (choices : list string) : M (option string) :=
  a ← ask ;
  mret (match a with
       | Some c => if decide (c ∈ choices) then Some c else None
       | None => None
       end).

Definition emit (o : output) : M unit := fun s =>
  (Ok tt, {| answers := answers s; console := console s ++ [o];
             csv_files := csv_files s; refused := refused s |}).

(** The builtin [print(line)]. *)
Definition print (line : string) : M unit := emit (Printed line).

(** ** The rich console *)

(** [console.print] reads the text it is given as markup: a tag in square
    brackets is a style and leaves the text, a closing tag that closes
    nothing is an error ([MarkupError], with a message), an emoji code
    between two colons is replaced, and tabs and some control characters are
    expanded or removed. *)
Inductive markup :=
| Rendered (text : string)
| Refused (message : string).

(** What rich makes of a text that is not plain. *)
Class Rich := rich_markup : string → markup.

(** A character that rich passes on as it is: a line feed, or anything from
    the space on, the opening square bracket apart. *)
Definition plain_char (c : ascii) : bool :=
  let n := nat_of_ascii c in
  ((n =? 10)%nat || (32 <=? n)%nat) && negb (n =? 91)%nat.

Fixpoint plain_chars (s : string) : bool :=
  match s with
  | EmptyString => true
  | String c r => plain_char c && plain_chars r
  end.

Fixpoint colons (s : string) : nat :=
  match s with
  | EmptyString => O
  | String c r => ((if Ascii.eqb c ":" then 1 else 0) + colons r)%nat
  end.

(** Plain text has no tag, no emoji code and nothing to expand: rich shows
    it unchanged. *)
Definition plain (s : string) : bool := plain_chars s && (colons s <=? 1)%nat.

Definition render {R : Rich} (text : string) : markup :=
  if plain text then Rendered text else rich_markup text.

Definition render_text {R : Rich} (text : string) : option string :=
  match render text with
  | Rendered shown => Some shown
  | Refused _ => None
  end.

(** The title, the headers and the cells of a table as rich shows them;
    [None] when one of them is refused. *)
Definition render_table {R : Rich} (t : Table) : option Table :=
  shown_title ← render_text (title t) ;
  shown_columns ← mapM (fun '(header, style) =>
                          shown ← render_text header ; Some (shown, style))
                       (columns t) ;
  shown_rows ← mapM (mapM render_text) (rows t) ;
  Some {| title := shown_title; columns := shown_columns; rows := shown_rows |}.

(** [console.print(line)] *)
Definition console_print {R : Rich} (line : string) : M unit :=
  match render line with
  | Rendered shown => emit (Printed shown)
  | Refused _ => raise MarkupError
  end.

(** [console.print(line)] inside a [try] whose handler takes the error's
    text. *)
Definition console_print_or_message {R : Rich} (line : string) : M (option string) :=
  match render line with
  | Rendered shown => emit (Printed shown) ;; mret None
  | Refused message => mret (Some message)
  end.

(** [console.print] of one table, or of [Columns] of several. *)
Definition show {R : Rich} (tables : list Table) : M unit :=
  match mapM render_table tables with
  | Some shown => emit (Shown shown)
  | None => raise MarkupError
  end.

(** [with open(path, "w", newline="") as csvfile: … writerow(row) …] *)
Definition write_csv (path : string) (rows : list (list string)) : M (option string) :=
  fun s =>
    match refused s !! path with
    | Some e => (Ok (Some e), s)
    | None =>
        (Ok None, {| answers := answers s; console := console s;
                     csv_files := <[path := rows]> (csv_files s);
                     refused := refused s |})
    end.

Definition newline : string := String (ascii_of_nat 10) EmptyString.

Definition get_output_directory {R : Rich} : M (option string) :=
  output_dir ← ask ;
  match output_dir with
  | Some dir =>
      if Py.truthy dir then mret (Some dir)
      else (console_print "Invalid directory. Returning to main menu." ;; mret None)
  | None => console_print "Invalid directory. Returning to main menu." ;; mret None
  end.

Definition get_csv_file_path {R : Rich} (output_dir : string) : M (option string) :=
  csv_file_name ← ask ;
  match csv_file_name with
  | Some name =>
      if Py.truthy name then mret (Some (Py.path_join output_dir (name +:+ ".csv")))
      else (console_print "Invalid file name. Returning to main menu." ;; mret None)
  | None => console_print "Invalid file name. Returning to main menu." ;; mret None
  end.

(** The [try] of lines 273-280 covers the writing and the line that reports
    it; its handler prints the text of whatever went wrong in either. *)
Definition export_json_to_csv {R : Rich} (data : item)
    (stat_map : option (gmap string string)) : M unit :=
  output_dir ← get_output_directory ;
  match output_dir with
  | None => mret tt
  | Some output_dir =>
      if negb (Py.truthy output_dir) then mret tt else
      csv_file_path ← get_csv_file_path output_dir ;
      match csv_file_path with
      | None => mret tt
      | Some csv_file_path =>
          if negb (Py.truthy csv_file_path) then mret tt else
          let rows := prepare_csv_rows data stat_map in
          failure ← write_csv csv_file_path rows ;
          failure ←
            match failure with
            | None =>
                console_print_or_message
                  ("Data successfully exported to " +:+ csv_file_path +:+ "."
                   +:+ newline)
            | Some e => mret (Some e)
            end ;
          match failure with
          | None => mret tt
          | Some e => console_print ("Failed to export data to CSV: " +:+ e)
          end ;;
          ask ;;
          mret tt
      end
  end.

Definition attack_ranges : list (Z * Z) :=
  [(1, 30); (31, 60); (61, 90); (91, 120); (121, 160)].

(** [start, end = map(int, choice.split("-"))] *)
Definition parse_range (choice : string) : M (Z * Z) :=
  match Py.int <$> Py.split "-" choice with
  | [Some start; Some end_] => mret (start, end_)
  | _ => raise ValueError
  end.

Definition display_weapon_info {R : Rich} (weapon : weapon)
    (stat_map : gmap string string) : M unit :=
  let options :=
    (fun '(start, end_) => Py.str_int start +:+ "-" +:+ Py.str_int end_)
      <$> attack_ranges in
  choice ← select (options ++ ["Back"]) ;
  match choice with
  | None => mret tt
  | Some choice =>
      if decide (choice = "Back") then mret tt else
      '(start, end_) ← parse_range choice ;
      let base_stats_table := create_base_stats_table weapon stat_map in
      let firearm_attack_table :=
        create_firearm_attack_table weapon stat_map start end_ in
      show [base_stats_table; firearm_attack_table] ;;
      next_action ← select ["Return to main menu"; "Output to CSV"] ;
      if decide (next_action = Some "Output to CSV")
      then export_json_to_csv (WeaponItem weapon) (Some stat_map)
      else mret tt
  end.

Definition display_module_info {R : Rich} (module : module_record) : M unit :=
  let module_stats_table := create_module_stats_table module in
  show [module_stats_table] ;;
  next_action ← select ["Return to main menu"; "Output to CSV"] ;
  if decide (next_action = Some "Output to CSV")
  then export_json_to_csv (ModuleItem module) None
  else mret tt.

(** [next(x for x in results if name(x) == selected)] *)
Definition next_named {A} (name : A → string) (selected : option string)
    (results : list A) : M A :=
  match filter (fun x => Some (name x) = selected) results with
  | x :: _ => mret x
  | [] => raise StopIteration
  end.

Definition lift_search {A} (found : option (list A)) : M (list A) :=
  match found with
  | Some l => mret l
  | None => raise KeyError
  end.

Definition handle_search_weapons {U : Py.Unicode} {R : Rich} (weapons : list weapon)
    (stat_map : gmap string string) (weapon_names : list string) : M unit :=
  search_term ← ask ;
  match search_term with
  | None => print "Exiting."
  | Some search_term =>
      if decide (Py.lower search_term = "exit") then print "Exiting."
      else if negb (Py.truthy (Py.strip search_term))
      then print "Search term cannot be empty. Please try again."
      else
        results ← lift_search (search_items weapons search_term "weapon_name") ;
        match results with
        | [] => print ("No weapons found matching '" +:+ search_term +:+ "'.")
        | first :: others =>
            weapon ←
              match others with
              | _ :: _ =>
                  selected_weapon ← select (weapon_name <$> results) ;
                  next_named weapon_name selected_weapon results
              | [] => mret first
              end ;
            display_weapon_info weapon stat_map
        end
  end.

Definition handle_search_modules {U : Py.Unicode} {R : Rich}
    (modules : list module_record) (module_names : list string) : M unit :=
  search_term ← ask ;
  match search_term with
  | None => print "Exiting."
  | Some search_term =>
      if decide (Py.lower search_term = "exit") then print "Exiting."
      else if negb (Py.truthy (Py.strip search_term))
      then print "Search term cannot be empty. Please try again."
      else
        results ← lift_search (search_items modules search_term "module_name") ;
        match results with
        | [] => print ("No modules found matching '" +:+ search_term +:+ "'.")
        | first :: others =>
            module ←
              match others with
              | _ :: _ =>
                  selected_module ← select (module_name <$> results) ;
                  next_named module_name selected_module results
              | [] => mret first
              end ;
            display_module_info module
        end
  end.

(** ** The cache files and the remote endpoint *)

(** Python's [json] for a dataset of type [A], a document of the schema:
    [json_iterencode] gives the pieces [json.dump] writes one after the
    other, [json_loads] what [json.load] and [response.json()] read, [None]
    when they raise.  An empty text is no JSON document.  The program checks
    no schema; what it does with a document of another shape is not followed
    here. *)
Class Json (A : Type) := {
  json_iterencode : A → list string;
  json_loads : string → option A;
  json_loads_empty : json_loads "" = None
}.

(** [json.dumps(data)]: the pieces, joined. *)
Definition json_dumps {A} `{Json A} (data : A) : string :=
  foldr String.append "" (json_iterencode data).

Record response := {
  status_code : Z;
  body : string
}.

(** The files and directories of the machine, by their paths.  Paths are
    taken literally (no links, no dots); permissions and a full disk are
    outside this model. *)
Record store := {
  files : gmap string string;
  dirs : gset string
}.

(** The single steps of a cache write. *)
Inductive op :=
| Makedirs (name : string)
| OpenW (path : string)
| Dump (path piece : string)
| Rename (src dst : string).

(** [name] and the directories above it, nearest first. *)
Fixpoint ancestors (fuel : nat) (name : string) : list string :=
  match fuel with
  | O => []
  | S fuel =>
      if Py.truthy name
      then name :: (if decide (Py.dirname name = name) then []
                    else ancestors fuel (Py.dirname name))
      else []
  end.

Definition is_file (st : store) (path : string) : bool :=
  bool_decide (is_Some (files st !! path)).

Definition is_dir (st : store) (path : string) : bool :=
  bool_decide (path ∈ dirs st).

(** [os.makedirs(name, exist_ok=True)]: no directory of the empty name, none
    where a regular file stands, none below a regular file. *)
Definition makedirs (name : string) (st : store) : result unit * store :=
  if negb (Py.truthy name) then (Raise FileNotFoundError, st)
  else if is_file st name then (Raise FileExistsError, st)
  else if existsb (is_file st) (ancestors (S (String.length name)) name)
  then (Raise NotADirectoryError, st)
  else (Ok tt, {| files := files st;
                  dirs := list_to_set (ancestors (S (String.length name)) name)
                          ∪ dirs st |}).

(** [open(path, "w")]: a directory cannot be opened for writing, and the
    file's directory has to be there; an existing file is truncated. *)
Definition open_w (path : string) (st : store) : result unit * store :=
  if is_dir st path then (Raise IsADirectoryError, st)
  else if negb (Py.truthy path) then (Raise FileNotFoundError, st)
  else if Py.truthy (Py.dirname path) && is_file st (Py.dirname path)
  then (Raise NotADirectoryError, st)
  else if Py.truthy (Py.dirname path) && negb (is_dir st (Py.dirname path))
  then (Raise FileNotFoundError, st)
  else (Ok tt, {| files := <[path := ""]> (files st); dirs := dirs st |}).

Definition run_op (o : op) (st : store) : result unit * store :=
  match o with
  | Makedirs name => makedirs name st
  | OpenW path => open_w path st
  | Dump path piece =>
      (* [file.write(piece)] on the open file *)
      (Ok tt, {| files := <[path := default "" (files st !! path) +:+ piece]> (files st);
                 dirs := dirs st |})
  | Rename src dst =>
      match files st !! src with
      | Some text =>
          (Ok tt, {| files := <[dst := text]> (delete src (files st)); dirs := dirs st |})
      | None => (Raise FileNotFoundError, st)
      end
  end.

(** The steps one after the other, up to the first that fails. *)
Fixpoint run_ops (ops : list op) (st : store) : result unit * store :=
  match ops with
  | [] => (Ok tt, st)
  | o :: ops =>
      match run_op o st with
      | (Ok _, st) => run_ops ops st
      | (Raise e, st) => (Raise e, st)
      end
  end.

(** The state an interruption leaves behind when it comes after the first
    [n] steps. *)
Definition interrupted (n : nat) (ops : list op) (st : store) : store :=
  (run_ops (take n ops) st).2.

(** [os.path.exists(path)] *)
Definition os_path_exists (path : string) (st : store) : bool :=
  bool_decide (is_Some (files st !! path)) || bool_decide (path ∈ dirs st).

(** [{item["stat_id"]: item["stat_name"] for item in data}]: the entries are
    entered one after the other, a later one replacing an earlier one with
    the same key. *)
Definition stat_dict (data : list StatItem.t) : gmap string string :=
  foldl (fun d item => <[StatItem.stat_id item := StatItem.stat_name item]> d) ∅ data.

Section Loader.
(** Where [get_cache_dir] points to on this machine. *)
Variable CACHE_DIR : string.
(** [requests.get]: what the endpoint answers, [None] when the transfer
    fails. *)
Variable remote : string → option response.

Definition CACHE_FILE : string := Py.path_join CACHE_DIR "weapon.json".
Definition STAT_CACHE_FILE : string := Py.path_join CACHE_DIR "stat.json".
Definition MODULE_CACHE_FILE : string := Py.path_join CACHE_DIR "module.json".
Definition WEAPON_JSON_URL : string :=
  "https://open.api.nexon.com/static/tfd/meta/en/weapon.json".
Definition STAT_JSON_URL : string :=
  "https://open.api.nexon.com/static/tfd/meta/en/stat.json".
Definition MODULE_JSON_URL : string :=
  "https://open.api.nexon.com/static/tfd/meta/en/module.json".

(** Lines 40-42 of the source, step by step: [json.dump] writes the
    document piece by piece. *)
Definition cache_write_ops (cache_file : string) (pieces : list string) : list op :=
  [Makedirs (Py.dirname cache_file); OpenW cache_file] ++ (Dump cache_file <$> pieces).

Definition fetch_and_cache_json {A} `{Json A} (url cache_file : string)
    (st : store) : result A * store :=
  match remote url with
  | None => (Raise ConnectionError, st)
  | Some response =>
      (* [response.raise_for_status()] *)
      if (400 <=? status_code response) && (status_code response <? 600)
      then (Raise (HTTPError (status_code response)), st)
      else
        match json_loads (body response) with
        | None => (Raise JSONDecodeError, st)
        | Some data =>
            match run_ops (cache_write_ops cache_file (json_iterencode data)) st with
            | (Ok _, st) => (Ok data, st)
            | (Raise e, st) => (Raise e, st)
            end
        end
  end.

Definition load_json_from_cache {A} `{Json A} (cache_file : string) (st : store)
  : result A * store :=
  match files st !! cache_file with
  | None =>
      (Raise (if bool_decide (cache_file ∈ dirs st)
              then IsADirectoryError else FileNotFoundError), st)
  | Some text =>
      match json_loads text with
      | None => (Raise JSONDecodeError, st)
      | Some data => (Ok data, st)
      end
  end.

Context `{Json (list weapon)} `{Json (list StatItem.t)} `{Json (list module_record)}.

Definition load_weapon_data (st : store) : result (list weapon) * store :=
  if negb (os_path_exists CACHE_FILE st)
  then fetch_and_cache_json WEAPON_JSON_URL CACHE_FILE st
  else load_json_from_cache CACHE_FILE st.

Definition load_stat_data (st : store) : result (gmap string string) * store :=
  let '(data, st) :=
    if negb (os_path_exists STAT_CACHE_FILE st)
    then fetch_and_cache_json STAT_JSON_URL STAT_CACHE_FILE st
    else load_json_from_cache STAT_CACHE_FILE st in
  match data with
  | Ok data => (Ok (stat_dict data), st)
  | Raise e => (Raise e, st)
  end.

Definition load_module_data (st : store) : result (list module_record) * store :=
  if negb (os_path_exists MODULE_CACHE_FILE st)
  then fetch_and_cache_json MODULE_JSON_URL MODULE_CACHE_FILE st
  else load_json_from_cache MODULE_CACHE_FILE st.

End Loader.

(** The endpoint answers [url] with a success status and a body that is the
    JSON text of [data]. *)
Definition fetched {A} `{Json A} (remote : string → option response) (url : string)
    (data : A) : Prop :=
  ∃ response,
    remote url = Some response
    ∧ ¬ (400 ≤ status_code response < 600)
    ∧ json_loads (body response) = Some data.

(** The file at [path] holds the JSON text of [data]. *)
Definition cached {A} `{Json A} (st : store) (path : string) (data : A) : Prop :=
  ∃ text, files st !! path = Some text ∧ json_loads text = Some data.

Definition is_rename (o : op) : bool :=
  match o with
  | Rename _ _ => true
  | _ => false
  end.

(** The cache file at [cache_file] can be written: its directory has a
    name, no regular file stands at that directory or above it, and
    [cache_file] is not a directory, neither one that is there nor one that
    the write is to make. *)
Definition writable (st : store) (cache_file : string) : bool :=
  Py.truthy (Py.dirname cache_file)
  && negb (existsb (is_file st)
             (ancestors (S (String.length (Py.dirname cache_file)))
                (Py.dirname cache_file)))
  && negb (is_dir st cache_file)
  && negb (bool_decide
             (cache_file ∈ ancestors (S (String.length (Py.dirname cache_file)))
                                     (Py.dirname cache_file))).

(** Python's [json] on the one document whose text does not depend on keys
    the records leave out: the empty array. *)
Definition empty_array_json (A : Type) : Json (list A) :=
  {| json_iterencode := fun _ => ["[]"];
     json_loads := fun text => if decide (text = "[]") then Some [] else None;
     json_loads_empty := eq_refl |}.

(** ** The rows the projections are specified to give *)

Definition identity_rows (w : weapon) : list (list string) :=
  [ ["Weapon ID"; weapon_id w];
    ["Weapon Type"; weapon_type w];
    ["Weapon Tier"; weapon_tier w];
    ["Rounds Type"; weapon_rounds_type w] ].

Definition base_stat_row (stat_map : gmap string string) (stat : base_stat_entry)
  : list string :=
  [stat_name stat_map (stat_id stat); str (stat_value stat)].

(** One row per attack type of one level, in the level's own order. *)
Definition firearm_rows (stat_map : gmap string string) (li : level_info)
  : list (list string) :=
  (fun fa => [Py.str_int (level li);
              stat_name stat_map (firearm_atk_type fa);
              str (firearm_atk_value fa)]) <$> firearm li.

Definition in_window (start_level end_level : Z) (li : level_info) : Prop :=
  start_level ≤ level li ≤ end_level.

#[global] Instance in_window_dec s e li : Decision (in_window s e li) :=
  and_dec (Z.le_dec s (level li)) (Z.le_dec (level li) e).

(** The firearm-attack rows of every level, no window applied. *)
Definition full_range_rows (stat_map : gmap string string) (w : weapon)
  : list (list string) :=
  concat (firearm_rows stat_map <$> firearm_atk w).

Definition module_stat_row (stat : ModuleStat.t) : list string :=
  [Py.str_int (ModuleStat.level stat);
   str (ModuleStat.module_capacity stat);
   ModuleStat.value stat].

(** The weapon report of the specification's [buildCSVRows]. *)
Definition weapon_report (stat_map : gmap string string) (w : weapon)
  : list (list string) :=
  identity_rows w
  ++ [[]]
  ++ [["Base Stats"]]
  ++ (base_stat_row stat_map <$> base_stat w)
  ++ [[]]
  ++ [["Firearm Attack (1-160)"]]
  ++ [["Level"; "Type"; "Value"]]
  ++ full_range_rows stat_map w.

(** The substring test of the search, on one record. *)
Definition name_matches {U : Py.Unicode} {A} `{Subscript A} (search_term key : string)
    (item : A) : Prop :=
  match getitem item key with
  | Some name => Is_true (Py.contains (Py.lower search_term) (Py.lower name))
  | None => False
  end.

#[global] Instance name_matches_dec {U : Py.Unicode} {A} `{Subscript A} search_term key
    (item : A) : Decision (name_matches search_term key item) :=
  match getitem item key as o
    return Decision (match o with
                     | Some name =>
                         Is_true (Py.contains (Py.lower search_term) (Py.lower name))
                     | None => False
                     end)
  with
  | Some name => Is_true_dec _
  | None => False_dec
  end.

(** ** Sample data *)

Module Sample.

(** The samples are ASCII text, for which [lower] and [strip] are computed:
    [ascii] is never called on them and leaves other text as it is.
    [terminal] refuses every text that is not plain, as rich refuses a
    closing tag that closes nothing; the samples are plain but for such a
    tag. *)
Definition ascii : Py.Unicode.
Proof.
  refine {| Py.unicode_lower := fun s => s; Py.unicode_strip := fun s => s |}.
  - intros s Hs. by rewrite Hs.
  - intros s Hs Hexit. by rewrite Hexit in Hs.
Defined.

Definition terminal : Rich := fun text => Refused text.

Definition stat_map : gmap string string := {[ "501" := "Critical Hit Rate" ]}.

Definition thunder_cage : weapon :=
  {| weapon_name := "Thunder Cage";
     weapon_id := "11";
     weapon_type := "Submachine Gun";
     weapon_tier := "Ultimate";
     weapon_rounds_type := "General Rounds";
     base_stat := [ {| stat_id := "501"; stat_value := Float "0.25" |};
                    {| stat_id := "999"; stat_value := Int 7 |} ];
     firearm_atk :=
       [ {| level := 1;
            firearm := [ {| firearm_atk_type := "501"; firearm_atk_value := Int 10 |} ] |};
         {| level := 31;
            firearm := [ {| firearm_atk_type := "501"; firearm_atk_value := Int 20 |} ] |};
         {| level := 91;
            firearm := [ {| firearm_atk_type := "7"; firearm_atk_value := Int 30 |};
                         {| firearm_atk_type := "501"; firearm_atk_value := Int 31 |} ] |};
         {| level := 121;
            firearm := [ {| firearm_atk_type := "501"; firearm_atk_value := Int 40 |} ] |} ]
  |}.

Definition sharp_precision : module_record :=
  {| module_name := "Sharp Precision Shot";
     module_stat :=
       [ {| ModuleStat.level := 0; ModuleStat.module_capacity := Int 6;
            ModuleStat.value := "Fire rate +1%" |};
         {| ModuleStat.level := 1; ModuleStat.module_capacity := Int 7;
            ModuleStat.value := "Fire rate +2%" |} ] |}.

Definition cache_dir : string := "/home/operator/.config/dev_tfd_search".

(** An endpoint that serves an empty catalog. *)
Definition empty_catalog (url : string) : option response :=
  Some {| status_code := 200; body := "[]" |}.

Definition fresh_machine : store := {| files := ∅; dirs := ∅ |}.

(** A machine whose weapon cache holds an empty catalog. *)
Definition cached_machine : store :=
  {| files := {[ CACHE_FILE cache_dir := "[]" ]};
     dirs := {[ cache_dir ]} |}.

Definition blank_session (answers : list (option string)) : session :=
  {| answers := answers; console := []; csv_files := ∅; refused := ∅ |}.

End Sample.

(** ** The program around the handlers: loading, refreshing, the menu *)

(** What [load_data] returns, field by key. *)
Module Catalog.
Record t := {
  weapons : list weapon;
  stat_map : gmap string string;
  modules : list module_record;
  weapon_names : list string;
  module_names : list string
}.
End Catalog.

(** The whole machine: the operator's session, the files, and the commands
    handed to [os.system]. *)
Record machine := {
  session_of : session;
  store_of : store;
  commands : list string
}.

Definition Prog (A : Type) : Type := machine → result A * machine.

#[global] Instance prog_ret : MRet Prog := fun A a st => (Ok a, st).

#[global] Instance prog_bind : MBind Prog := fun A B k m st =>
  match m st with
  | (Ok a, st) => k a st
  | (Raise e, st) => (Raise e, st)
  end.

(** A step that only talks to the operator. *)
Definition in_session {A} (m : M A) : Prog A := fun st =>
  let '(r, s) := m (session_of st) in
  (r, {| session_of := s; store_of := store_of st; commands := commands st |}).

(** A step that only touches the files. *)
Definition in_store {A} (f : store → result A * store) : Prog A := fun st =>
  let '(r, d) := f (store_of st) in
  (r, {| session_of := session_of st; store_of := d; commands := commands st |}).

(** [os.system(command)] *)
Definition os_system (command : string) : Prog unit := fun st =>
  (Ok tt, {| session_of := session_of st; store_of := store_of st;
             commands := commands st ++ [command] |}).

(** [len(l)] *)
Definition len {A} (l : list A) : Z := Z.of_nat (length l).

Section Program.
Variable CACHE_DIR : string.
Variable remote : string → option response.
(** [os.name] *)
Variable os_name : string.
Context `{Json (list weapon)} `{Json (list StatItem.t)} `{Json (list module_record)}.
Context {U : Py.Unicode} {R : Rich}.

Definition clear_screen : Prog unit :=
  os_system (if decide (os_name = "nt") then "cls" else "clear").

Definition refresh_cache : Prog unit :=
  in_session (print "Refreshing cache...") ;;
  in_store (fetch_and_cache_json (A := list weapon) remote
              WEAPON_JSON_URL (CACHE_FILE CACHE_DIR)) ;;
  in_store (fetch_and_cache_json (A := list StatItem.t) remote
              STAT_JSON_URL (STAT_CACHE_FILE CACHE_DIR)) ;;
  in_store (fetch_and_cache_json (A := list module_record) remote
              MODULE_JSON_URL (MODULE_CACHE_FILE CACHE_DIR)) ;;
  in_session (print ("Cache refreshed." +:+ newline)) ;;
  in_session ask ;;
  mret tt.

Definition load_data : Prog Catalog.t :=
  in_session (print "Loading data...") ;;
  weapons ← in_store (load_weapon_data CACHE_DIR remote) ;
  stat_map ← in_store (load_stat_data CACHE_DIR remote) ;
  modules ← in_store (load_module_data CACHE_DIR remote) ;
  in_session (print ("Loaded " +:+ Py.str_int (len weapons) +:+ " weapons and "
                     +:+ Py.str_int (len modules) +:+ " modules.")) ;;
  mret {| Catalog.weapons := weapons;
          Catalog.stat_map := stat_map;
          Catalog.modules := modules;
          Catalog.weapon_names := weapon_name <$> weapons;
          Catalog.module_names := module_name <$> modules |}.

Definition handle_refresh_cache : Prog Catalog.t :=
  refresh_cache ;;
  load_data.

(** The [while True] of [main], unrolled at most [fuel] times; [false] when
    the fuel is used up before the loop is left.  A prompt answers [None] to
    an interrupt of its own, so the [KeyboardInterrupt] handler has nothing
    to catch here. *)
Fixpoint main_loop (fuel : nat) (data : Catalog.t) : Prog bool :=
  match fuel with
  | O => mret false
  | S fuel =>
      clear_screen ;;
      choice ← in_session
                 (select ["Search Weapons"; "Search Modules"; "Refresh Cache"; "Exit"]) ;
      match choice with
      | None => in_session (print "Exiting.") ;; mret true
      | Some choice =>
          if decide (choice = "Exit") then in_session (print "Exiting.") ;; mret true
          else if decide (choice = "Refresh Cache") then
            data ← handle_refresh_cache ;
            main_loop fuel data
          else if decide (choice = "Search Weapons") then
            in_session (handle_search_weapons (Catalog.weapons data)
                          (Catalog.stat_map data) (Catalog.weapon_names data)) ;;
            main_loop fuel data
          else if decide (choice = "Search Modules") then
            in_session (handle_search_modules (Catalog.modules data)
                          (Catalog.module_names data)) ;;
            main_loop fuel data
          else main_loop fuel data
      end
  end.

Definition main (fuel : nat) : Prog bool :=
  data ← load_data ;
  main_loop fuel data.

End Program.

(** ** What a session step may do to the session *)

(** The step only uses up answers, only adds to the console and leaves the
    operating system's refusals alone. *)
Definition tame {A} (m : M A) : Prop :=
  ∀ s, answers (m s).2 `suffix_of` answers s
       ∧ console s `prefix_of` console (m s).2
       ∧ refused (m s).2 = refused s.

(** The program step only uses up answers. *)
Definition frugal {A} (p : Prog A) : Prop :=
  ∀ st, answers (session_of (p st).2) `suffix_of` answers (session_of st).

(** The five windows of [display_weapon_info], one table each. *)
Definition window_tables (w : weapon) (stat_map : gmap string string) : list Table :=
  (fun '(start, end_) => create_firearm_attack_table w stat_map start end_)
    <$> attack_ranges.

(** The rows of the five windows, one window after the other. *)
Definition windows_rows (stat_map : gmap string string) (l : list level_info)
  : list (list string) :=
  concat ((fun '(start, end_) =>
             concat (firearm_rows stat_map <$> filter (in_window start end_) l))
            <$> attack_ranges).

(** ** More sample data *)

Module Scenario.

(** An endpoint that answers every request with 404. *)
Definition not_found (url : string) : option response :=
  Some {| status_code := 404; body := "Not Found" |}.

(** An endpoint that cannot be reached. *)
Definition offline (url : string) : option response := None.

(** An endpoint that serves the weapon catalog and fails on the rest. *)
Definition weapons_only (url : string) : option response :=
  if decide (url = WEAPON_JSON_URL) then Some {| status_code := 200; body := "[]" |}
  else None.

(** A machine whose three caches hold empty catalogs. *)
Definition warm_machine : store :=
  {| files := {[ CACHE_FILE Sample.cache_dir := "[]";
                 STAT_CACHE_FILE Sample.cache_dir := "[]";
                 MODULE_CACHE_FILE Sample.cache_dir := "[]" ]};
     dirs := {[ Sample.cache_dir ]} |}.

Definition boot (st : store) (answers : list (option string)) : machine :=
  {| session_of := Sample.blank_session answers; store_of := st; commands := [] |}.

End Scenario.

(** * Properties *)

(** ** Loops as list functions *)

Section Loops.
Context {A : Type}.

Lemma foldl_append (f : A → list string) (l : list A) (acc : list (list string)) :
  foldl (fun acc x => acc ++ [f x]) acc l = acc ++ (f <$> l).
Proof.
  revert acc. induction l as [|x l IH]; intros acc; simpl.
  - by rewrite app_nil_r.
  - rewrite IH. by rewrite <- app_assoc.
Qed.

Lemma foldl_add_row (f : A → list string) (l : list A) (t : Table) :
  foldl (fun t x => add_row t (f x)) t l
  = {| title := title t; columns := columns t; rows := rows t ++ (f <$> l) |}.
Proof.
  revert t. induction l as [|x l IH]; intros t; simpl.
  - rewrite app_nil_r. by destruct t.
  - rewrite IH. simpl. by rewrite <- app_assoc.
Qed.

Lemma foldl_append_many (f : A → list (list string)) (l : list A)
    (acc : list (list string)) :
  foldl (fun acc x => acc ++ f x) acc l = acc ++ concat (f <$> l).
Proof.
  revert acc. induction l as [|x l IH]; intros acc; simpl.
  - by rewrite app_nil_r.
  - rewrite IH. by rewrite <- app_assoc.
Qed.
End Loops.

Lemma foldl_ext {A B} (f g : A → B → A) (l : list B) (a : A) :
  (∀ a b, f a b = g a b) → foldl f a l = foldl g a l.
Proof.
  intros Hfg. revert a. induction l as [|b l IH]; intros a; simpl; [done|].
  by rewrite Hfg, IH.
Qed.


Lemma elem_of_concat {A} (x : A) (l : list A) (ls : list (list A)) :
  x ∈ l → l ∈ ls → x ∈ concat ls.
Proof.
  intros Hx. induction 1 as [l ls|k l ls _ IH]; simpl; apply elem_of_app; auto.
Qed.

Lemma string_app_assoc (a b c : string) : (a +:+ b) +:+ c = a +:+ (b +:+ c).
Proof.
  induction a as [|ch a IH]; [reflexivity|].
  change (String ch ((a +:+ b) +:+ c) = String ch (a +:+ (b +:+ c))). by rewrite IH.
Qed.

Lemma string_app_nil_r (a : string) : a +:+ "" = a.
Proof.
  induction a as [|ch a IH]; [reflexivity|].
  change (String ch (a +:+ "") = String ch a). by rewrite IH.
Qed.

Lemma csv_firearm_loop (stat_map : gmap string string) (l : list level_info)
    (acc : list (list string)) :
  foldl (fun rows level_info =>
           let level := level level_info in
           foldl (fun rows firearm =>
                    rows ++ [[Py.str_int level;
                              stat_name stat_map (firearm_atk_type firearm);
                              str (firearm_atk_value firearm)]])
                 rows (firearm level_info))
        acc l
  = acc ++ concat (firearm_rows stat_map <$> l).
Proof.
  rewrite <- foldl_append_many. apply foldl_ext. intros rows li. simpl.
  by rewrite foldl_append.
Qed.

Lemma prepare_csv_rows_weapon (w : weapon) (stat_map : gmap string string) :
  stat_map ≠ ∅ →
  prepare_csv_rows (WeaponItem w) (Some stat_map) = weapon_report stat_map w.
Proof.
  intros Hne. unfold prepare_csv_rows, weapon_report, full_range_rows, identity_rows.
  destruct (decide (stat_map = ∅)) as [?|_]; [done|].
  rewrite csv_firearm_loop, foldl_append. simpl.
  rewrite <- !app_assoc. reflexivity.
Qed.

Lemma prepare_csv_rows_weapon_falsy (w : weapon) (stat_map : option (gmap string string)) :
  stat_map = None ∨ stat_map = Some ∅ →
  prepare_csv_rows (WeaponItem w) stat_map = identity_rows w ++ [[]].
Proof.
  intros [-> | ->]; [done|]. unfold prepare_csv_rows.
  by destruct (decide (∅ = ∅)).
Qed.

Lemma prepare_csv_rows_module (m : module_record) (stat_map : option (gmap string string)) :
  prepare_csv_rows (ModuleItem m) stat_map
  = [["Module Name"; module_name m]; []; ["Level"; "Capacity"; "Value"]]
    ++ (module_stat_row <$> module_stat m).
Proof. unfold prepare_csv_rows. by rewrite foldl_append. Qed.

(** ** C1: the weapon report *)

(** C1, as the code has it.  For every weapon record and every stat-name map
    that is not empty, [prepare_csv_rows] returns, in order, the four
    identity rows, a blank row, the "Base Stats" header, one name-resolved
    row per base-stat entry, a blank row, the "Firearm Attack (1-160)"
    header, the column headers, and the firearm-attack rows of every level.
    A map that misses identifiers (stale, partial) still gives the whole
    report. *)
Theorem csv_rows_weapon_report (w : weapon) (stat_map : gmap string string) :
  stat_map ≠ ∅ →
  prepare_csv_rows (WeaponItem w) (Some stat_map)
  = [ ["Weapon ID"; weapon_id w];
      ["Weapon Type"; weapon_type w];
      ["Weapon Tier"; weapon_tier w];
      ["Rounds Type"; weapon_rounds_type w];
      [];
      ["Base Stats"] ]
    ++ ((fun stat => [stat_name stat_map (stat_id stat); str (stat_value stat)])
          <$> base_stat w)
    ++ [ []; ["Firearm Attack (1-160)"]; ["Level"; "Type"; "Value"] ]
    ++ concat ((fun li =>
                  (fun fa => [Py.str_int (level li);
                              stat_name stat_map (firearm_atk_type fa);
                              str (firearm_atk_value fa)]) <$> firearm li)
                 <$> firearm_atk w).
Proof. intros Hne. by rewrite prepare_csv_rows_weapon. Qed.

Lemma csv_rows_weapon_report_witness :
  Sample.stat_map ≠ ∅
  ∧ prepare_csv_rows (WeaponItem Sample.thunder_cage) (Some Sample.stat_map)
  = [ ["Weapon ID"; "11"];
      ["Weapon Type"; "Submachine Gun"];
      ["Weapon Tier"; "Ultimate"];
      ["Rounds Type"; "General Rounds"];
      [];
      ["Base Stats"];
      ["Critical Hit Rate"; "0.25"];
      ["Unknown Stat (999)"; "7"];
      [];
      ["Firearm Attack (1-160)"];
      ["Level"; "Type"; "Value"];
      ["1"; "Critical Hit Rate"; "10"];
      ["31"; "Critical Hit Rate"; "20"];
      ["91"; "Unknown Stat (7)"; "30"];
      ["91"; "Critical Hit Rate"; "31"];
      ["121"; "Critical Hit Rate"; "40"] ].
Proof.
  assert (Hmap : Sample.stat_map ≠ ∅).
  { intros Hempty.
    assert (Hl : Sample.stat_map !! "501" = None) by (rewrite Hempty; apply lookup_empty).
    vm_compute in Hl. discriminate Hl. }
  split; [exact Hmap|].
  rewrite (csv_rows_weapon_report Sample.thunder_cage Sample.stat_map Hmap).
  reflexivity.
Defined.

(** C1 as the specification words it fails on the empty map: [if stat_map:]
    takes an empty map for an absent one, and the report stops after the
    identity rows and the blank row. *)
Lemma csv_rows_empty_map_counterexample :
  prepare_csv_rows (WeaponItem Sample.thunder_cage) (Some ∅)
  = [ ["Weapon ID"; "11"];
      ["Weapon Type"; "Submachine Gun"];
      ["Weapon Tier"; "Ultimate"];
      ["Rounds Type"; "General Rounds"];
      [] ]
  ∧ prepare_csv_rows (WeaponItem Sample.thunder_cage) (Some ∅)
    ≠ weapon_report ∅ Sample.thunder_cage.
Proof. split; [reflexivity | vm_compute; discriminate]. Qed.

(** ** C7: the level window *)

Lemma window_test (start_level end_level : Z) (li : level_info) :
  (start_level <=? level li) && (level li <=? end_level) = bool_decide (in_window start_level end_level li).
Proof.
  unfold in_window. destruct (bool_decide_reflect (start_level ≤ level li ≤ end_level)) as [[H1 H2]|Hn].
  - apply andb_true_iff. split; by apply Z.leb_le.
  - apply andb_false_iff.
    destruct (Z.leb_spec start_level (level li)); [|by left].
    destruct (Z.leb_spec (level li) end_level); [|by right].
    exfalso. apply Hn. done.
Qed.

Lemma firearm_loop (stat_map : gmap string string) (start_level end_level : Z)
    (l : list level_info) (t : Table) :
  foldl (fun table level_info =>
           let level := level level_info in
           if (start_level <=? level) && (level <=? end_level) then
             foldl (fun table firearm =>
                      add_row table [Py.str_int level;
                                     stat_name stat_map (firearm_atk_type firearm);
                                     str (firearm_atk_value firearm)])
                   table (firearm level_info)
           else table)
        t l
  = {| title := title t; columns := columns t;
       rows := rows t ++ concat (firearm_rows stat_map
                                   <$> filter (in_window start_level end_level) l) |}.
Proof.
  revert t. induction l as [|li l IH]; intros t.
  - simpl. rewrite app_nil_r. by destruct t.
  - cbn [foldl]. rewrite IH. cbv zeta. rewrite window_test, filter_cons.
    destruct (decide (in_window start_level end_level li)) as [Hin|Hout].
    + rewrite bool_decide_eq_true_2 by done.
      rewrite foldl_add_row. cbn [title columns rows fmap list_fmap concat].
      fold (firearm_rows stat_map li). by rewrite <- app_assoc.
    + by rewrite bool_decide_eq_false_2 by done.
Qed.

Lemma firearm_table_rows (w : weapon) (stat_map : gmap string string)
    (start_level end_level : Z) :
  rows (create_firearm_attack_table w stat_map start_level end_level)
  = concat (firearm_rows stat_map
              <$> filter (in_window start_level end_level) (firearm_atk w)).
Proof. unfold create_firearm_attack_table. cbv zeta. by rewrite firearm_loop. Qed.

Lemma concat_sublist {A} (ls ks : list (list A)) :
  sublist ls ks → sublist (concat ls) (concat ks).
Proof.
  induction 1 as [|x l1 l2 _ IH|x l1 l2 _ IH]; simpl.
  - constructor.
  - by apply sublist_app.
  - by apply sublist_inserts_l.
Qed.

(** C7.  For every weapon record, stat-name map and inclusive window, the
    rows of the firearm-attack table are exactly the rows of the levels with
    [start_level ≤ level ≤ end_level], level after level in the order of the
    progression and attack type after attack type in the order of the level:
    an order-preserving subsequence of the rows of all levels.  With levels
    1, 31, 91, 121 and the window (91, 120), the level-91 rows alone remain. *)
Theorem firearm_attack_window (w : weapon) (stat_map : gmap string string)
    (start_level end_level : Z) :
  rows (create_firearm_attack_table w stat_map start_level end_level)
  = concat ((fun li =>
               (fun fa => [Py.str_int (level li);
                           stat_name stat_map (firearm_atk_type fa);
                           str (firearm_atk_value fa)]) <$> firearm li)
              <$> filter (fun li => start_level ≤ level li ≤ end_level) (firearm_atk w))
  ∧ sublist (rows (create_firearm_attack_table w stat_map start_level end_level))
            (full_range_rows stat_map w)
  ∧ (∀ at1 at31 at91 at121 : list firearm_entry,
       rows (create_firearm_attack_table
               {| weapon_name := weapon_name w; weapon_id := weapon_id w;
                  weapon_type := weapon_type w; weapon_tier := weapon_tier w;
                  weapon_rounds_type := weapon_rounds_type w;
                  base_stat := base_stat w;
                  firearm_atk := [ {| level := 1; firearm := at1 |};
                                   {| level := 31; firearm := at31 |};
                                   {| level := 91; firearm := at91 |};
                                   {| level := 121; firearm := at121 |} ] |}
               stat_map 91 120)
       = (fun fa => ["91"; stat_name stat_map (firearm_atk_type fa);
                     str (firearm_atk_value fa)]) <$> at91).
Proof.
  split; [|split].
  - apply firearm_table_rows.
  - rewrite firearm_table_rows. unfold full_range_rows.
    apply concat_sublist, fmap_sublist, sublist_filter.
  - intros at1 at31 at91 at121. rewrite firearm_table_rows.
    cbn [firearm_atk]. rewrite !filter_cons, filter_nil.
    repeat (destruct (decide (in_window _ _ _)) as [Hw|Hw];
            unfold in_window in Hw; cbn in Hw; try lia; clear Hw).
    cbn. by rewrite app_nil_r.
Qed.

(** ** C8: stat-name resolution *)

Lemma base_table_rows (w : weapon) (stat_map : gmap string string) :
  rows (create_base_stats_table w stat_map)
  = identity_rows w ++ (base_stat_row stat_map <$> base_stat w).
Proof. unfold create_base_stats_table. cbv zeta. by rewrite foldl_add_row. Qed.

(** C8.  Resolution is a total function of the map and the identifier: the
    mapped name when the identifier is a key, and otherwise the placeholder
    "Unknown Stat (<id>)" around the raw identifier.  Under the map
    {"501": "Critical Hit Rate"}, "501" gives "Critical Hit Rate" and "999"
    gives "Unknown Stat (999)".  Both tables resolve each of their entries
    this way. *)
Theorem stat_name_total (stat_map : gmap string string) (id : string) :
  stat_name stat_map id
  = match stat_map !! id with
    | Some name => name
    | None => "Unknown Stat (" +:+ id +:+ ")"
    end
  ∧ stat_name {[ "501" := "Critical Hit Rate" ]} "501" = "Critical Hit Rate"
  ∧ stat_name {[ "501" := "Critical Hit Rate" ]} "999" = "Unknown Stat (999)"
  ∧ (∀ w : weapon,
       rows (create_base_stats_table w stat_map)
       = identity_rows w
         ++ ((fun stat =>
                [match stat_map !! stat_id stat with
                 | Some name => name
                 | None => "Unknown Stat (" +:+ stat_id stat +:+ ")"
                 end;
                 str (stat_value stat)]) <$> base_stat w))
  ∧ (∀ (w : weapon) (start_level end_level : Z),
       rows (create_firearm_attack_table w stat_map start_level end_level)
       = concat ((fun li =>
                    (fun fa =>
                       [Py.str_int (level li);
                        match stat_map !! firearm_atk_type fa with
                        | Some name => name
                        | None => "Unknown Stat (" +:+ firearm_atk_type fa +:+ ")"
                        end;
                        str (firearm_atk_value fa)]) <$> firearm li)
                   <$> filter (in_window start_level end_level) (firearm_atk w))).
Proof.
  repeat split.
  - intros w. apply base_table_rows.
  - intros w start_level end_level. apply firearm_table_rows.
Qed.

(** ** C9: module rows on screen and in the CSV *)

Lemma module_loop (l : list ModuleStat.t) (t : Table) :
  foldl (fun table stat =>
           let table :=
             add_row table [Py.str_int (ModuleStat.level stat);
                            str (ModuleStat.module_capacity stat);
                            ModuleStat.value stat] in
           add_row table [""; ""; ""])
        t l
  = {| title := title t; columns := columns t;
       rows := rows t ++ concat ((fun stat => [module_stat_row stat; [""; ""; ""]]) <$> l) |}.
Proof.
  revert t. induction l as [|stat l IH]; intros t.
  - simpl. rewrite app_nil_r. by destruct t.
  - cbn [foldl]. rewrite IH. cbn. f_equal. by rewrite <- !app_assoc.
Qed.

Lemma string_of_uint_nonempty (d : Decimal.uint) : NilZero.string_of_uint d ≠ "".
Proof. by destruct d. Qed.

Lemma str_int_nonempty (n : Z) : Py.str_int n ≠ "".
Proof.
  unfold Py.str_int, NilZero.string_of_int.
  destruct (Z.to_int n); [apply string_of_uint_nonempty | done].
Qed.

(** C9.  For every module record the on-screen table holds, for each
    (level, capacity, value) triple in order, its data row followed by a
    blank row, whereas the CSV rows are the name row, a blank row, the column
    headers and then the data rows alone, none of which is blank. *)
Theorem module_rows_screen_and_csv (m : module_record)
    (stat_map : option (gmap string string)) :
  rows (create_module_stats_table m)
  = concat ((fun stat => [ [Py.str_int (ModuleStat.level stat);
                            str (ModuleStat.module_capacity stat);
                            ModuleStat.value stat];
                           [""; ""; ""] ]) <$> module_stat m)
  ∧ prepare_csv_rows (ModuleItem m) stat_map
    = [ ["Module Name"; module_name m]; []; ["Level"; "Capacity"; "Value"] ]
      ++ ((fun stat => [Py.str_int (ModuleStat.level stat);
                        str (ModuleStat.module_capacity stat);
                        ModuleStat.value stat]) <$> module_stat m)
  ∧ Forall (fun row => row ≠ [] ∧ row ≠ [""; ""; ""])
           ((fun stat => [Py.str_int (ModuleStat.level stat);
                          str (ModuleStat.module_capacity stat);
                          ModuleStat.value stat]) <$> module_stat m).
Proof.
  split; [|split].
  - unfold create_module_stats_table. cbv zeta. by rewrite module_loop.
  - apply prepare_csv_rows_module.
  - apply Forall_fmap, Forall_forall. intros stat _. simpl. split; [done|].
    intros Heq. injection Heq as Hlevel _ _. by apply str_int_nonempty in Hlevel.
Qed.

Example sharp_precision_rows :
  rows (create_module_stats_table Sample.sharp_precision)
  = [ ["0"; "6"; "Fire rate +1%"]; [""; ""; ""];
      ["1"; "7"; "Fire rate +2%"]; [""; ""; ""] ]
  ∧ prepare_csv_rows (ModuleItem Sample.sharp_precision) None
    = [ ["Module Name"; "Sharp Precision Shot"]; [];
        ["Level"; "Capacity"; "Value"];
        ["0"; "6"; "Fire rate +1%"];
        ["1"; "7"; "Fire rate +2%"] ].
Proof. split; reflexivity. Qed.

(** ** C5: search *)

Lemma prefix_spec (a b : string) :
  String.prefix a b = true ↔ ∃ post, b = a +:+ post.
Proof.
  revert b. induction a as [|c a IH]; intros [|d b]; simpl.
  - split; [intros _; by exists "" | done].
  - split; [intros _; by exists (String d b) | done].
  - split; [done | intros [post Hpost]; discriminate Hpost].
  - destruct (ascii_dec c d) as [->|Hne].
    + rewrite IH. split; intros [post Hpost]; exists post.
      * by rewrite Hpost.
      * by injection Hpost.
    + split; [done | intros [post Hpost]; injection Hpost as Hcd _; by destruct Hne].
Qed.

(** [Py.contains] is the substring test. *)
Lemma contains_spec (needle hay : string) :
  Py.contains needle hay = true ↔ ∃ pre post, hay = pre +:+ needle +:+ post.
Proof.
  induction hay as [|c hay IH]; cbn [Py.contains].
  - rewrite orb_false_r, prefix_spec. split.
    + intros [post Hpost]. by exists "", post.
    + intros [pre [post Hpost]]. destruct pre; [by exists post | discriminate Hpost].
  - rewrite orb_true_iff, prefix_spec, IH. split.
    + intros [[post Hpost] | [pre [post Hpost]]].
      * by exists "", post.
      * exists (String c pre), post. simpl. by rewrite Hpost.
    + intros [pre [post Hpost]]. destruct pre as [|d pre].
      * left. by exists post.
      * right. injection Hpost as _ Hpost. by exists pre, post.
Qed.

Lemma search_items_filter {U : Py.Unicode} {A} `{Subscript A} (items : list A)
    (search_term key : string) :
  Forall (fun item => is_Some (getitem item key)) items →
  search_items items search_term key = Some (filter (name_matches search_term key) items).
Proof.
  induction 1 as [|item items [name Hname] _ IH]; [done|].
  cbn [search_items]. rewrite IH, filter_cons.
  destruct (decide (name_matches search_term key item)) as [Hm|Hm];
    unfold name_matches in Hm; unfold getitem in *; rewrite Hname in *; f_equal.
  - by apply Is_true_true in Hm as ->.
  - by apply Is_true_false in Hm as ->.
Qed.

(** C5, as the code has it.  On a list whose records all carry the name
    field, [search_items] returns exactly the records whose field value,
    lowered, has the lowered term as a substring, in the order of the input:
    an order-preserving subsequence.  Lowering is Python's, on any text.
    Searching [{"name": "Ironclad"}] for "iron" returns the record, and
    searching it for "iro n" returns nothing. *)
Theorem search_is_substring_filter {U : Py.Unicode} {A} `{Subscript A} (items : list A)
    (search_term key : string) :
  Forall (fun item => is_Some (getitem item key)) items →
  ∃ found,
    search_items items search_term key = Some found
    ∧ found = filter (name_matches search_term key) items
    ∧ (∀ item, name_matches search_term key item ↔
         ∃ name pre post,
           getitem item key = Some name
           ∧ Py.lower name = pre +:+ Py.lower search_term +:+ post)
    ∧ sublist found items
    ∧ (∀ item, item ∈ found ↔
         item ∈ items ∧ ∃ name pre post,
           getitem item key = Some name
           ∧ Py.lower name = pre +:+ Py.lower search_term +:+ post)
    ∧ search_items [ ({[ "name" := "Ironclad" ]} : gmap string string) ] "iron" "name"
      = Some [ {[ "name" := "Ironclad" ]} ]
    ∧ search_items [ ({[ "name" := "Ironclad" ]} : gmap string string) ] "iro n" "name"
      = Some [].
Proof.
  intros Hkey. exists (filter (name_matches search_term key) items).
  assert (Hext : ∀ item, name_matches search_term key item ↔
            ∃ name pre post, getitem item key = Some name
              ∧ Py.lower name = pre +:+ Py.lower search_term +:+ post).
  { intros item. unfold name_matches. destruct (getitem item key) as [name|].
    - rewrite Is_true_true, contains_spec. split.
      + intros [pre [post Hpp]]. by exists name, pre, post.
      + intros [name' [pre [post [Hn Hpp]]]]. injection Hn as <-. by exists pre, post.
    - split; [done | intros [name [pre [post [Hn _]]]]; discriminate Hn]. }
  split; [by apply search_items_filter|].
  split; [done|].
  split; [done|].
  split; [apply sublist_filter|].
  split; [|done].
  intros item. rewrite list_elem_of_filter, Hext. tauto.
Qed.

Lemma search_is_substring_filter_witness :
  Forall (fun item => is_Some (getitem item "weapon_name")) [Sample.thunder_cage]
  ∧ search_items (U := Sample.ascii) [Sample.thunder_cage] "CAGE" "weapon_name"
    = Some [Sample.thunder_cage].
Proof.
  assert (Hkey : Forall (fun item => is_Some (getitem item "weapon_name"))
                        [Sample.thunder_cage]).
  { repeat constructor. by eexists. }
  split; [exact Hkey|].
  destruct (search_is_substring_filter (U := Sample.ascii)
              [Sample.thunder_cage] "CAGE" "weapon_name" Hkey)
    as [found [Hsearch [Hfound _]]].
  rewrite Hsearch, Hfound. reflexivity.
Defined.

(** C5 as the specification words it fails on a list with a record that
    lacks the name field: [item[key]] raises [KeyError] inside the
    comprehension and the search returns nothing at all, not even the record
    that matches. *)
Lemma search_missing_key_counterexample :
  search_items (U := Sample.ascii)
    [ ({[ "name" := "Ironclad" ]} : gmap string string); {[ "title" := "Ironclad" ]} ]
    "iron" "name"
  = None
  ∧ search_items (U := Sample.ascii)
      [ ({[ "name" := "Ironclad" ]} : gmap string string) ] "iron" "name"
    = Some [ {[ "name" := "Ironclad" ]} ].
Proof. split; by vm_compute. Qed.

(** Left to itself, [search_items] takes the empty term for a substring of
    every name and returns the whole list. *)
Lemma search_items_empty_term {U : Py.Unicode} {A} `{Subscript A} (items : list A)
    (key : string) :
  Forall (fun item => is_Some (getitem item key)) items →
  search_items items "" key = Some items.
Proof.
  induction 1 as [|item items [name Hname] _ IH]; [done|].
  cbn [search_items]. rewrite IH. unfold getitem in *. rewrite Hname.
  by destruct (Py.lower name).
Qed.

(** ** Stepping through the prompts *)

Ltac run :=
  unfold mbind, session_bind, mret, session_ret, raise, ask, print, show, emit,
    console_print, console_print_or_message;
  cbn -[prepare_csv_rows Py.path_join Py.truthy Py.strip Py.lower
        create_base_stats_table create_firearm_attack_table create_module_stats_table
        search_items render render_table mapM].

(** Rich shows plain text as it is. *)
Lemma render_plain {R : Rich} (text : string) : plain text = true → render text = Rendered text.
Proof. intros Hplain. unfold render. by rewrite Hplain. Qed.

Lemma console_print_rendered {R : Rich} (line shown : string) (s : session) :
  render line = Rendered shown →
  console_print line s
  = (Ok tt, {| answers := answers s; console := console s ++ [Printed shown];
               csv_files := csv_files s; refused := refused s |}).
Proof. intros Hline. unfold console_print. by rewrite Hline. Qed.

Lemma show_rendered {R : Rich} (tables shown : list Table) (s : session) :
  mapM render_table tables = Some shown →
  show tables s
  = (Ok tt, {| answers := answers s; console := console s ++ [Shown shown];
               csv_files := csv_files s; refused := refused s |}).
Proof. intros Htables. unfold show. by rewrite Htables. Qed.

Lemma bind_ok {A B} (m : M A) (k : A → M B) (s s' : session) (a : A) :
  m s = (Ok a, s') → (m ≫= k) s = k a s'.
Proof. intros Hm. unfold mbind, session_bind. by rewrite Hm. Qed.

Lemma select_offered (choices : list string) (c : string) (rest : list (option string))
    (co : list output) (cf : gmap string (list (list string))) (rf : gmap string string) :
  c ∈ choices →
  select choices {| answers := Some c :: rest; console := co; csv_files := cf; refused := rf |}
  = (Ok (Some c), {| answers := rest; console := co; csv_files := cf; refused := rf |}).
Proof.
  intros Hin. unfold select. erewrite bind_ok by reflexivity.
  cbn [answers console csv_files refused]. by rewrite decide_True.
Qed.

Lemma truthy_nonempty (s : string) : s ≠ "" → Py.truthy s = true.
Proof. by destruct s. Qed.

Lemma truthy_append_r (a b : string) : Py.truthy b = true → Py.truthy (a +:+ b) = true.
Proof. by destruct a. Qed.

Lemma truthy_path_join (a b : string) : Py.truthy b = true → Py.truthy (Py.path_join a b) = true.
Proof.
  intros Hb. unfold Py.path_join.
  destruct (String.prefix "/" b); [done|].
  destruct (negb (Py.truthy a) || String.prefix "/" (String.rev a));
    by repeat apply truthy_append_r.
Qed.

(** With a directory and a file name the rows are written, whatever rich
    makes of the line that reports it: the line is printed, or the handler's
    line with the markup error's text is, or that line is refused in turn
    and the error leaves the function. *)
Lemma export_writes_rows {R : Rich} (data : item) (stat_map : option (gmap string string))
    (dir name : string) (rest : list (option string)) (co : list output)
    (cf : gmap string (list (list string))) (rf : gmap string string) :
  dir ≠ "" → name ≠ "" → rf !! Py.path_join dir (name +:+ ".csv") = None →
  ∃ r s',
    export_json_to_csv data stat_map
      {| answers := Some dir :: Some name :: rest; console := co;
         csv_files := cf; refused := rf |}
    = (r, s')
    ∧ csv_files s'
      = <[Py.path_join dir (name +:+ ".csv") := prepare_csv_rows data stat_map]> cf
    ∧ refused s' = rf
    ∧ (∃ later, console s' = co ++ later)
    ∧ (r = Ok tt ∨ r = Raise MarkupError)
    ∧ (∀ shown,
         render ("Data successfully exported to "
                 +:+ Py.path_join dir (name +:+ ".csv") +:+ "." +:+ newline)
         = Rendered shown →
         r = Ok tt ∧ console s' = co ++ [Printed shown] ∧ answers s' = tail rest).
Proof.
  intros Hdir Hname Hfree. unfold export_json_to_csv, get_output_directory, get_csv_file_path.
  assert (Hpath : Py.truthy (Py.path_join dir (name +:+ ".csv")) = true).
  { apply truthy_path_join, truthy_append_r. done. }
  apply truthy_nonempty in Hdir, Hname.
  run. rewrite Hdir. run. rewrite Hdir. run. rewrite Hname. run. rewrite Hpath. run.
  unfold write_csv. run. rewrite Hfree. run.
  destruct (render ("Data successfully exported to "
                    +:+ Py.path_join dir (name +:+ ".csv") +:+ "." +:+ newline))
    as [shown|message] eqn:Hline; run.
  - destruct rest as [|a rest]; run; do 2 eexists; (split; [reflexivity|]);
      cbn [csv_files refused console answers];
      (split; [done|]); (split; [done|]); (split; [by eexists|]); (split; [by left|]);
      intros shown' Hshown'; injection Hshown' as <-; done.
  - destruct (render ("Failed to export data to CSV: " +:+ message))
      as [shown|message'] eqn:Hfail; run.
    + destruct rest as [|a rest]; run; do 2 eexists; (split; [reflexivity|]);
        cbn [csv_files refused console answers];
        (split; [done|]); (split; [done|]); (split; [by eexists|]); (split; [by left|]);
        intros shown' Hshown'; discriminate Hshown'.
    + do 2 eexists. split; [reflexivity|]. cbn [csv_files refused console answers].
      split; [done|]. split; [done|]. split; [exists []; by rewrite app_nil_r|].
      split; [by right|]. intros shown' Hshown'. discriminate Hshown'.
Qed.

(** ** C6: the empty search term *)

Lemma space_not_lowered (c : ascii) : Py.is_space c = true → Py.lower_char c = c.
Proof. destruct c as [[] [] [] [] [] [] [] []]; vm_compute; congruence. Qed.

Lemma rstrip_empty (c : ascii) (r : string) :
  Py.rstrip (String c r) = "" → Py.is_space c = true.
Proof.
  cbn [Py.rstrip]. destruct (Py.rstrip r); [|done].
  by destruct (Py.is_space c).
Qed.

Lemma blank_ascii_is_not_exit (term : string) :
  Py.strip_ascii term = "" → Py.lower_ascii term ≠ "exit".
Proof.
  intros Hblank Hexit. destruct term as [|c r]; [done|].
  cbn [Py.lower_ascii] in Hexit. injection Hexit as Hc _.
  destruct (Py.is_space c) eqn:Hspace.
  - apply space_not_lowered in Hspace as Hsame. rewrite Hsame in Hc. by subst c.
  - unfold Py.strip_ascii in Hblank. cbn [Py.lstrip] in Hblank. rewrite Hspace in Hblank.
    apply rstrip_empty in Hblank. congruence.
Qed.

Lemma blank_is_not_exit {U : Py.Unicode} (term : string) :
  Py.strip term = "" → Py.lower term ≠ "exit".
Proof.
  unfold Py.strip, Py.lower. destruct (Py.is_ascii term) eqn:Hascii.
  - apply blank_ascii_is_not_exit.
  - intros _. by apply Py.unicode_lower_not_exit.
Qed.

(** A term of nothing but white space is turned away by both handlers before
    any search. *)
Lemma blank_term_rejected {U : Py.Unicode} {R : Rich} (term : string)
    (rest : list (option string))
    (co : list output) (cf : gmap string (list (list string))) (rf : gmap string string) :
  Py.strip term = "" →
  (∀ weapons stat_map weapon_names,
     handle_search_weapons weapons stat_map weapon_names
       {| answers := Some term :: rest; console := co; csv_files := cf; refused := rf |}
     = (Ok tt,
        {| answers := rest;
           console := co ++ [Printed "Search term cannot be empty. Please try again."];
           csv_files := cf; refused := rf |}))
  ∧ (∀ modules module_names,
       handle_search_modules modules module_names
         {| answers := Some term :: rest; console := co; csv_files := cf; refused := rf |}
       = (Ok tt,
          {| answers := rest;
             console := co ++ [Printed "Search term cannot be empty. Please try again."];
             csv_files := cf; refused := rf |})).
Proof.
  intros Hblank. pose proof (blank_is_not_exit term Hblank) as Hexit.
  split; intros; unfold handle_search_weapons, handle_search_modules; run;
    rewrite decide_False by done; by rewrite Hblank.
Qed.

(** C6.  For every record list, an empty search term is answered with the
    empty-search-term message and nothing else: the handler returns before
    [search_items] is reached, whatever the records are, so no record is
    found, shown or exported.  The same holds for modules. *)
Theorem empty_search_term_rejected {U : Py.Unicode} {R : Rich} (weapons : list weapon)
    (stat_map : gmap string string) (weapon_names : list string)
    (modules : list module_record) (module_names : list string)
    (rest : list (option string)) (co : list output)
    (cf : gmap string (list (list string))) (rf : gmap string string) :
  handle_search_weapons weapons stat_map weapon_names
    {| answers := Some "" :: rest; console := co; csv_files := cf; refused := rf |}
  = (Ok tt,
     {| answers := rest;
        console := co ++ [Printed "Search term cannot be empty. Please try again."];
        csv_files := cf; refused := rf |})
  ∧ handle_search_modules modules module_names
      {| answers := Some "" :: rest; console := co; csv_files := cf; refused := rf |}
    = (Ok tt,
       {| answers := rest;
          console := co ++ [Printed "Search term cannot be empty. Please try again."];
          csv_files := cf; refused := rf |}).
Proof.
  destruct (blank_term_rejected "" rest co cf rf eq_refl) as [Hw Hm].
  split; [apply Hw | apply Hm].
Qed.

(** ** C2: the export does not look at the window *)

Lemma parse_range_option (start end_ : Z) :
  (start, end_) ∈ attack_ranges →
  parse_range (Py.str_int start +:+ "-" +:+ Py.str_int end_) = mret (start, end_)
  ∧ Py.str_int start +:+ "-" +:+ Py.str_int end_
    ∈ ((fun '(start, end_) => Py.str_int start +:+ "-" +:+ Py.str_int end_)
         <$> attack_ranges) ++ ["Back"]
  ∧ Py.str_int start +:+ "-" +:+ Py.str_int end_ ≠ "Back".
Proof.
  intros Hwin. unfold attack_ranges in Hwin.
  repeat (apply elem_of_cons in Hwin as [Hwin|Hwin];
          [injection Hwin as -> ->;
           split; [reflexivity | split; [apply (bool_decide_unpack _); by vm_compute | done]]|]).
  by apply elem_of_nil in Hwin.
Qed.

(** Viewing a window and then choosing "Output to CSV": the two tables are
    shown, and the export goes on from there. *)
Lemma display_then_export {R : Rich} (w : weapon) (stat_map : gmap string string)
    (start end_ : Z) (shown : list Table) (rest : list (option string))
    (co : list output) (cf : gmap string (list (list string))) (rf : gmap string string) :
  (start, end_) ∈ attack_ranges →
  mapM render_table [create_base_stats_table w stat_map;
                     create_firearm_attack_table w stat_map start end_] = Some shown →
  display_weapon_info w stat_map
    {| answers := Some (Py.str_int start +:+ "-" +:+ Py.str_int end_)
                  :: Some "Output to CSV" :: rest;
       console := co; csv_files := cf; refused := rf |}
  = export_json_to_csv (WeaponItem w) (Some stat_map)
      {| answers := rest; console := co ++ [Shown shown]; csv_files := cf; refused := rf |}.
Proof.
  intros Hwin Hshown.
  destruct (parse_range_option start end_ Hwin) as [Hparse [Hoffered Hback]].
  unfold display_weapon_info.
  erewrite bind_ok by (by apply select_offered).
  cbv beta iota. rewrite decide_False by done. rewrite Hparse.
  erewrite bind_ok by reflexivity. cbv beta iota.
  erewrite bind_ok by (by apply show_rendered).
  cbn [answers console csv_files refused].
  erewrite bind_ok by (apply select_offered; apply (bool_decide_unpack _); by vm_compute).
  cbv beta iota. by rewrite decide_True by done.
Qed.

(** C2, as the code has it.  For every weapon and every stat-name map:
    whichever of the five windows the operator views before choosing "Output
    to CSV", the rows written are those of [prepare_csv_rows], which takes no
    window, while the screen shows the chosen window only.  Whenever the map
    is not empty, these rows end with the firearm-attack rows of every level
    of the progression, so that every row of every level entry is among
    them. *)
Theorem export_rows_ignore_window {R : Rich} (w : weapon) (stat_map : gmap string string) :
  (∀ (start end_ : Z) (shown : list Table) (dir name : string)
     (rest : list (option string)) (co : list output)
     (cf : gmap string (list (list string))) (rf : gmap string string),
     (start, end_) ∈ attack_ranges →
     mapM render_table [create_base_stats_table w stat_map;
                        create_firearm_attack_table w stat_map start end_] = Some shown →
     dir ≠ "" → name ≠ "" → rf !! Py.path_join dir (name +:+ ".csv") = None →
     ∃ r s',
       display_weapon_info w stat_map
         {| answers := Some (Py.str_int start +:+ "-" +:+ Py.str_int end_)
                       :: Some "Output to CSV" :: Some dir :: Some name :: rest;
            console := co; csv_files := cf; refused := rf |}
       = (r, s')
       ∧ (r = Ok tt ∨ r = Raise MarkupError)
       ∧ (∃ later, console s' = co ++ Shown shown :: later)
       ∧ csv_files s'
         = <[Py.path_join dir (name +:+ ".csv")
             := prepare_csv_rows (WeaponItem w) (Some stat_map)]> cf
       ∧ (∀ line,
            render ("Data successfully exported to "
                    +:+ Py.path_join dir (name +:+ ".csv") +:+ "." +:+ newline)
            = Rendered line →
            r = Ok tt ∧ console s' = co ++ [Shown shown; Printed line]))
  ∧ (stat_map ≠ ∅ →
     prepare_csv_rows (WeaponItem w) (Some stat_map)
     = identity_rows w
       ++ [ []; ["Base Stats"] ]
       ++ (base_stat_row stat_map <$> base_stat w)
       ++ [ []; ["Firearm Attack (1-160)"]; ["Level"; "Type"; "Value"] ]
       ++ concat ((fun li =>
                     (fun fa => [Py.str_int (level li);
                                 stat_name stat_map (firearm_atk_type fa);
                                 str (firearm_atk_value fa)]) <$> firearm li)
                    <$> firearm_atk w)
     ∧ (∀ li fa, li ∈ firearm_atk w → fa ∈ firearm li →
          [Py.str_int (level li); stat_name stat_map (firearm_atk_type fa);
           str (firearm_atk_value fa)]
          ∈ prepare_csv_rows (WeaponItem w) (Some stat_map))).
Proof.
  split.
  - intros start end_ shown dir name rest co cf rf Hwin Hshown Hdir Hname Hfree.
    rewrite (display_then_export w stat_map start end_ shown) by done.
    destruct (export_writes_rows (WeaponItem w) (Some stat_map) dir name rest
                (co ++ [Shown shown]) cf rf Hdir Hname Hfree)
      as [r [s' [Hrun [Hfiles [_ [[later Hlater] [Hr Hline]]]]]]].
    exists r, s'. split; [exact Hrun|]. split; [exact Hr|].
    split; [exists later; by rewrite Hlater, <- app_assoc|].
    split; [exact Hfiles|].
    intros line Hrendered. destruct (Hline line Hrendered) as [-> [-> _]].
    split; [done|]. by rewrite <- app_assoc.
  - intros Hmap. rewrite prepare_csv_rows_weapon by done.
    split; [reflexivity|].
    intros li fa Hli Hfa. unfold weapon_report, full_range_rows.
    rewrite !elem_of_app. do 7 right.
    apply (elem_of_concat _ (firearm_rows stat_map li)).
    + unfold firearm_rows. apply list_elem_of_fmap. by exists fa.
    + apply list_elem_of_fmap. by exists li.
Qed.

Lemma export_rows_ignore_window_witness :
  ∃ s',
    display_weapon_info (R := Sample.terminal) Sample.thunder_cage Sample.stat_map
      (Sample.blank_session
         [Some "1-30"; Some "Output to CSV"; Some "/tmp"; Some "thunder"; None])
    = (Ok tt, s')
    ∧ csv_files s' !! "/tmp/thunder.csv"
      = Some (prepare_csv_rows (WeaponItem Sample.thunder_cage) (Some Sample.stat_map))
    ∧ ["121"; "Critical Hit Rate"; "40"]
      ∈ prepare_csv_rows (WeaponItem Sample.thunder_cage) (Some Sample.stat_map).
Proof.
  assert (Hmap : Sample.stat_map ≠ ∅).
  { intros Hempty.
    assert (Hl : Sample.stat_map !! "501" = None) by (rewrite Hempty; apply lookup_empty).
    vm_compute in Hl. discriminate Hl. }
  destruct (export_rows_ignore_window (R := Sample.terminal)
              Sample.thunder_cage Sample.stat_map) as [Hexport Hrows].
  destruct (Hrows Hmap) as [_ Hall].
  destruct (Hexport 1 30
              [create_base_stats_table Sample.thunder_cage Sample.stat_map;
               create_firearm_attack_table Sample.thunder_cage Sample.stat_map 1 30]
              "/tmp" "thunder" [None] [] ∅ ∅)
    as [r [s' [Hrun [_ [_ [Hfile Hline]]]]]].
  - apply (bool_decide_unpack _). by vm_compute.
  - by vm_compute.
  - done.
  - done.
  - apply lookup_empty.
  - destruct (Hline _ eq_refl) as [-> _].
    exists s'. split; [exact Hrun|]. split; [by rewrite Hfile; apply lookup_insert_eq|].
    apply (Hall {| level := 121;
                   firearm := [ {| firearm_atk_type := "501";
                                   firearm_atk_value := Int 40 |} ] |}
                {| firearm_atk_type := "501"; firearm_atk_value := Int 40 |}).
    + cbn. do 3 apply list_elem_of_further. apply list_elem_of_here.
    + apply list_elem_of_singleton. reflexivity.
Defined.

(** C2 as the specification words it fails when the stat dataset, and with it
    the map, is empty: the window (1, 30) is viewed, the weapon is exported,
    and the file holds the identity rows and a blank row; the level-121 entry
    of the progression is not in it. *)
Lemma export_empty_map_counterexample :
  csv_files
    (display_weapon_info (R := Sample.terminal) Sample.thunder_cage ∅
       (Sample.blank_session
          [Some "1-30"; Some "Output to CSV"; Some "/tmp"; Some "thunder"; None])).2
    !! "/tmp/thunder.csv"
  = Some [ ["Weapon ID"; "11"];
           ["Weapon Type"; "Submachine Gun"];
           ["Weapon Tier"; "Ultimate"];
           ["Rounds Type"; "General Rounds"];
           [] ]
  ∧ ["121"; "Unknown Stat (501)"; "40"] ∈ full_range_rows ∅ Sample.thunder_cage
  ∧ ["121"; "Unknown Stat (501)"; "40"]
    ∉ [ ["Weapon ID"; "11"];
        ["Weapon Type"; "Submachine Gun"];
        ["Weapon Tier"; "Ultimate"];
        ["Rounds Type"; "General Rounds"];
        [] ].
Proof.
  split; [by vm_compute|]. split.
  - apply (bool_decide_unpack _). by vm_compute.
  - apply (bool_decide_unpack _). by vm_compute.
Qed.
(** ** The steps of a cache write *)

Lemma ancestors_self (name : string) :
  name ≠ "" → name ∈ ancestors (S (String.length name)) name.
Proof. destruct name; [done|]. intros _. cbn. apply list_elem_of_here. Qed.

Lemma dirname_named (path : string) : Py.truthy (Py.dirname path) = true → path ≠ "".
Proof. by intros Hdir ->. Qed.

(** What [os.makedirs] leaves behind. *)
Lemma makedirs_inv (name : string) (st st' : store) (r : result unit) :
  makedirs name st = (r, st') →
  (r = Ok tt
   ∧ existsb (is_file st) (ancestors (S (String.length name)) name) = false
   ∧ Py.truthy name = true
   ∧ st' = {| files := files st;
              dirs := list_to_set (ancestors (S (String.length name)) name) ∪ dirs st |})
  ∨ (∃ e, r = Raise e ∧ st' = st).
Proof.
  unfold makedirs. destruct (Py.truthy name) eqn:Hname; cbn [negb].
  - destruct (is_file st name) eqn:Hfile.
    + intros [= <- <-]. right. by eexists.
    + destruct (existsb (is_file st) (ancestors (S (String.length name)) name)) eqn:Hup.
      * intros [= <- <-]. right. by eexists.
      * intros [= <- <-]. by left.
  - intros [= <- <-]. right. by eexists.
Qed.

(** What [open(path, "w")] leaves behind. *)
Lemma open_w_inv (path : string) (st st' : store) (r : result unit) :
  open_w path st = (r, st') →
  (r = Ok tt
   ∧ is_dir st path = false
   ∧ st' = {| files := <[path := ""]> (files st); dirs := dirs st |})
  ∨ (∃ e, r = Raise e ∧ st' = st).
Proof.
  unfold open_w. destruct (is_dir st path) eqn:Hdir.
  - intros [= <- <-]. right. by eexists.
  - destruct (negb (Py.truthy path)).
    + intros [= <- <-]. right. by eexists.
    + destruct (Py.truthy (Py.dirname path) && is_file st (Py.dirname path)).
      * intros [= <- <-]. right. by eexists.
      * destruct (Py.truthy (Py.dirname path) && negb (is_dir st (Py.dirname path))).
        -- intros [= <- <-]. right. by eexists.
        -- intros [= <- <-]. by left.
Qed.

(** The pieces of the dump pile up in the file. *)
Lemma dump_pieces (path : string) (pieces : list string) (text : string)
    (fs : gmap string string) (ds : gset string) :
  run_ops (Dump path <$> pieces) {| files := <[path := text]> fs; dirs := ds |}
  = (Ok tt, {| files := <[path := text +:+ foldr String.append "" pieces]> fs;
               dirs := ds |}).
Proof.
  revert text. induction pieces as [|piece pieces IH]; intros text.
  - cbn [fmap list_fmap run_ops foldr]. by rewrite string_app_nil_r.
  - cbn [fmap list_fmap run_ops run_op foldr files dirs].
    rewrite lookup_insert_eq. cbn [default from_option id].
    rewrite insert_insert_eq.
    change (run_ops (Dump path <$> pieces)
              {| files := <[path := text +:+ piece]> fs; dirs := ds |}
            = (Ok tt, {| files := <[path := text
                                             +:+ (piece +:+ foldr String.append "" pieces)]> fs;
                         dirs := ds |})).
    by rewrite IH, string_app_assoc.
Qed.

(** A cache write either goes through, and then the file holds the pieces
    and the directories are made, or it stops at the directories or at the
    open with an error, and then no file has changed. *)
Lemma cache_write_inv (cache_file : string) (pieces : list string) (st st' : store)
    (r : result unit) :
  run_ops (cache_write_ops cache_file pieces) st = (r, st') →
  (r = Ok tt
   ∧ files st' = <[cache_file := foldr String.append "" pieces]> (files st)
   ∧ dirs st' = list_to_set (ancestors (S (String.length (Py.dirname cache_file)))
                                       (Py.dirname cache_file))
                ∪ dirs st)
  ∨ (∃ e, r = Raise e ∧ files st' = files st).
Proof.
  unfold cache_write_ops. cbn [app run_ops run_op].
  destruct (makedirs (Py.dirname cache_file) st) as [r1 st1] eqn:Hmk.
  apply makedirs_inv in Hmk as [[-> [_ [_ ->]]] | [e [-> ->]]].
  - destruct (open_w cache_file _) as [r2 st2] eqn:Hop.
    apply open_w_inv in Hop as [[-> [_ ->]] | [e [-> ->]]].
    + cbn [files dirs]. rewrite dump_pieces. intros [= <- <-]. left. by cbn.
    + intros [= <- <-]. right. by eexists.
  - intros [= <- <-]. right. by eexists.
Qed.

Lemma existsb_false_elem {A} (f : A → bool) (l : list A) (x : A) :
  existsb f l = false → x ∈ l → f x = false.
Proof.
  intros Hno Hin. destruct (f x) eqn:Hfx; [|done].
  assert (Hex : existsb f l = true).
  { apply existsb_exists. exists x. split; [by apply list_elem_of_In|done]. }
  congruence.
Qed.

(** On a store where the cache file can be written, the write goes
    through. *)
Lemma cache_write_done (cache_file : string) (pieces : list string) (st : store) :
  writable st cache_file = true →
  run_ops (cache_write_ops cache_file pieces) st
  = (Ok tt,
     {| files := <[cache_file := foldr String.append "" pieces]> (files st);
        dirs := list_to_set (ancestors (S (String.length (Py.dirname cache_file)))
                                       (Py.dirname cache_file))
                ∪ dirs st |}).
Proof.
  unfold writable. rewrite !andb_true_iff, !negb_true_iff.
  intros [[[Hname Hfree] Hdir] Hself].
  apply bool_decide_eq_false in Hself.
  assert (Hne : Py.dirname cache_file ≠ "") by (intros Hempty; by rewrite Hempty in Hname).
  pose proof (ancestors_self _ Hne) as Hin.
  unfold cache_write_ops. cbn [app run_ops run_op].
  unfold makedirs. rewrite Hname. cbn [negb].
  rewrite (existsb_false_elem _ _ _ Hfree Hin), Hfree.
  unfold open_w. cbn [files dirs].
  assert (Hnodir : is_dir {| files := files st;
                             dirs := list_to_set
                                       (ancestors (S (String.length (Py.dirname cache_file)))
                                          (Py.dirname cache_file)) ∪ dirs st |}
                     cache_file = false).
  { unfold is_dir. cbn [dirs]. apply bool_decide_eq_false.
    rewrite elem_of_union, elem_of_list_to_set. intros [Hup|Hin']; [done|].
    unfold is_dir in Hdir. by apply bool_decide_eq_false in Hdir. }
  rewrite Hnodir.
  rewrite (truthy_nonempty _ (dirname_named _ Hname)). cbn [negb].
  assert (Hparent_file : is_file {| files := files st;
                                    dirs := list_to_set
                                       (ancestors (S (String.length (Py.dirname cache_file)))
                                          (Py.dirname cache_file)) ∪ dirs st |}
                           (Py.dirname cache_file) = false).
  { exact (existsb_false_elem _ _ _ Hfree Hin). }
  rewrite Hparent_file, andb_false_r.
  assert (Hparent : is_dir {| files := files st;
                              dirs := list_to_set
                                        (ancestors (S (String.length (Py.dirname cache_file)))
                                           (Py.dirname cache_file)) ∪ dirs st |}
                      (Py.dirname cache_file) = true).
  { unfold is_dir. cbn [dirs]. apply bool_decide_eq_true.
    apply elem_of_union_l, elem_of_list_to_set, Hin. }
  rewrite Hparent. cbn [negb andb]. rewrite andb_false_r.
  cbn [files dirs]. rewrite dump_pieces. done.
Qed.

(** An interruption after the open and [n] pieces of the dump leaves these
    pieces in the cache file. *)
Lemma cache_write_cut (cache_file : string) (pieces : list string) (n : nat) (st : store) :
  writable st cache_file = true →
  files (interrupted (2 + n) (cache_write_ops cache_file pieces) st) !! cache_file
  = Some (foldr String.append "" (take n pieces)).
Proof.
  intros Hw. unfold interrupted.
  assert (Hcut : take (2 + n) (cache_write_ops cache_file pieces)
                 = cache_write_ops cache_file (take n pieces)).
  { unfold cache_write_ops. cbn [app take Nat.add]. by rewrite fmap_take. }
  rewrite Hcut, cache_write_done by done. cbn [snd files]. apply lookup_insert_eq.
Qed.

(** ** C3: how the cache file is written *)

Section StoreFacts.
Context {A : Type} `{Json A}.
Variable remote : string → option response.

Lemma fetch_success (url cache_file : string) (data : A) (st : store) :
  fetched remote url data →
  fetch_and_cache_json remote url cache_file st
  = match run_ops (cache_write_ops cache_file (json_iterencode data)) st with
    | (Ok _, st) => (Ok data, st)
    | (Raise e, st) => (Raise e, st)
    end.
Proof.
  intros [response [Hget [Hstatus Hjson]]]. unfold fetch_and_cache_json.
  rewrite Hget.
  destruct ((400 <=? status_code response) && (status_code response <? 600)) eqn:Hs.
  - apply andb_true_iff in Hs as [H1 H2]. apply Z.leb_le in H1. apply Z.ltb_lt in H2.
    by destruct Hstatus.
  - by rewrite Hjson.
Qed.

Lemma fetch_writes (url cache_file : string) (data : A) (st : store) :
  fetched remote url data →
  writable st cache_file = true →
  fetch_and_cache_json remote url cache_file st
  = (Ok data,
     {| files := <[cache_file := json_dumps data]> (files st);
        dirs := list_to_set (ancestors (S (String.length (Py.dirname cache_file)))
                                       (Py.dirname cache_file))
                ∪ dirs st |}).
Proof.
  intros Hfetched Hw. rewrite (fetch_success _ _ data) by done.
  by rewrite cache_write_done.
Qed.

(** Records that were fetched are returned with their text in the cache
    file, or not at all: the only other end is an error, with every file as
    it was. *)
Lemma fetch_caches (url cache_file : string) (data : A) (st st' : store)
    (r : result A) :
  fetched remote url data →
  fetch_and_cache_json remote url cache_file st = (r, st') →
  (r = Ok data ∧ files st' = <[cache_file := json_dumps data]> (files st))
  ∨ (∃ e, r = Raise e ∧ files st' = files st).
Proof.
  intros Hfetched. rewrite (fetch_success _ _ data) by done.
  destruct (run_ops _ st) as [r1 st1] eqn:Hrun.
  apply cache_write_inv in Hrun as [[-> [Hfiles _]] | [e [-> Hfiles]]].
  - intros [= <- <-]. by left.
  - intros [= <- <-]. right. by eexists.
Qed.

Lemma load_success (cache_file : string) (data : A) (st : store) :
  cached st cache_file data →
  load_json_from_cache cache_file st = (Ok data, st)
  ∧ os_path_exists cache_file st = true.
Proof.
  intros [text [Hfile Hjson]]. unfold load_json_from_cache, os_path_exists.
  rewrite Hfile, Hjson. split; [done|].
  by rewrite bool_decide_eq_true_2.
Qed.
End StoreFacts.

(** C3, as the code has it.  For every record list that a fetch delivers and
    every cache file that can be written, the write creates the parent
    directory (and the directories above it) and overwrites the cache file
    in place: it opens the cache file itself, which empties it, and dumps
    the records into it piece by piece.  Once the steps are done the file
    holds the records' text and no other file has changed.  No step is a
    rename and no other path is written; an interruption after the open
    leaves the pieces dumped so far in the cache file, none of them when it
    comes before the first, and the empty file is no JSON document. *)
Theorem cache_write_in_place {A} `{Json A} (remote : string → option response)
    (url cache_file : string) (data : A) (st : store) :
  fetched remote url data →
  writable st cache_file = true →
  ∃ st',
    fetch_and_cache_json remote url cache_file st = (Ok data, st')
    ∧ run_ops ([Makedirs (Py.dirname cache_file); OpenW cache_file]
               ++ (Dump cache_file <$> json_iterencode data)) st
      = (Ok tt, st')
    ∧ files st' = <[cache_file := json_dumps data]> (files st)
    ∧ dirs st'
      = list_to_set (ancestors (S (String.length (Py.dirname cache_file)))
                               (Py.dirname cache_file))
        ∪ dirs st
    ∧ existsb is_rename (cache_write_ops cache_file (json_iterencode data)) = false
    ∧ (∀ n,
         files (interrupted (2 + n) (cache_write_ops cache_file (json_iterencode data)) st)
           !! cache_file
         = Some (foldr String.append "" (take n (json_iterencode data))))
    ∧ files (interrupted 2 (cache_write_ops cache_file (json_iterencode data)) st)
        !! cache_file
      = Some ""
    ∧ json_loads "" = (None : option A).
Proof.
  intros Hfetched Hw. eexists. split; [by apply fetch_writes|].
  split; [by apply cache_write_done|]. cbn [files dirs].
  split; [done|]. split; [done|].
  split.
  { unfold cache_write_ops. cbn [app existsb is_rename orb].
    induction (json_iterencode data) as [|piece pieces IH]; [done|]. exact IH. }
  split; [intros n; by apply cache_write_cut|].
  split; [exact (cache_write_cut cache_file _ 0 st Hw) | apply json_loads_empty].
Qed.

Lemma cache_write_in_place_witness :
  @fetched (list weapon) (empty_array_json weapon) Sample.empty_catalog
     WEAPON_JSON_URL []
  ∧ writable Sample.fresh_machine (CACHE_FILE Sample.cache_dir) = true
  ∧ ∃ st',
      @fetch_and_cache_json Sample.empty_catalog (list weapon) (empty_array_json weapon)
        WEAPON_JSON_URL (CACHE_FILE Sample.cache_dir) Sample.fresh_machine
      = (Ok [], st')
      ∧ files st' !! CACHE_FILE Sample.cache_dir = Some "[]"
      ∧ Sample.cache_dir ∈ dirs st'.
Proof.
  assert (Hfetched : @fetched (list weapon) (empty_array_json weapon)
                       Sample.empty_catalog WEAPON_JSON_URL []).
  { eexists. split; [reflexivity|]. split; [cbn; lia | reflexivity]. }
  assert (Hw : writable Sample.fresh_machine (CACHE_FILE Sample.cache_dir) = true)
    by by vm_compute.
  split; [exact Hfetched|]. split; [exact Hw|].
  destruct (@cache_write_in_place (list weapon) (empty_array_json weapon)
              Sample.empty_catalog WEAPON_JSON_URL (CACHE_FILE Sample.cache_dir) []
              Sample.fresh_machine Hfetched Hw)
    as [st' [Hrun [_ [Hfiles [Hdirs _]]]]].
  exists st'. split; [exact Hrun|]. split.
  - rewrite Hfiles. apply lookup_insert_eq.
  - rewrite Hdirs. apply elem_of_union_l, elem_of_list_to_set.
    apply (bool_decide_unpack _). by vm_compute.
Defined.

(** C3 as the specification words it fails.  The write goes through no
    temporary path and no rename, and it is not atomic: on a machine whose
    weapon cache holds a parseable document, an interruption after the open
    leaves the cache file with a text that is neither the old one nor the
    new one, and that does not parse.  Nor is the write there for every
    machine: where a regular file stands at the cache directory's path the
    directories cannot be made, and for a cache file without a directory
    part [os.makedirs] is handed the empty name; the fetch then ends with
    the error and writes nothing. *)
Lemma cache_write_not_atomic_counterexample :
  files Sample.cached_machine !! CACHE_FILE Sample.cache_dir = Some "[]"
  ∧ @json_loads _ (empty_array_json weapon) "[]" = Some []
  ∧ files (interrupted 2
             (cache_write_ops (CACHE_FILE Sample.cache_dir)
                (@json_iterencode _ (empty_array_json weapon) []))
             Sample.cached_machine)
      !! CACHE_FILE Sample.cache_dir
    = Some ""
  ∧ @json_loads _ (empty_array_json weapon) "" = None
  ∧ existsb is_rename
      (cache_write_ops (CACHE_FILE Sample.cache_dir)
         (@json_iterencode _ (empty_array_json weapon) []))
    = false
  ∧ @fetch_and_cache_json Sample.empty_catalog (list weapon) (empty_array_json weapon)
      WEAPON_JSON_URL (CACHE_FILE Sample.cache_dir)
      {| files := {[ Sample.cache_dir := "" ]}; dirs := ∅ |}
    = (Raise FileExistsError, {| files := {[ Sample.cache_dir := "" ]}; dirs := ∅ |})
  ∧ @fetch_and_cache_json Sample.empty_catalog (list weapon) (empty_array_json weapon)
      WEAPON_JSON_URL "weapon.json" Sample.fresh_machine
    = (Raise FileNotFoundError, Sample.fresh_machine).
Proof. repeat split; by vm_compute. Qed.

(** ** C4: cache or fetch *)

Lemma stat_dict_snoc (data : list StatItem.t) (item : StatItem.t) :
  stat_dict (data ++ [item])
  = <[StatItem.stat_id item := StatItem.stat_name item]> (stat_dict data).
Proof. unfold stat_dict. by rewrite foldl_app. Qed.

(** Each identifier carries the name of the last entry that has it. *)
Lemma stat_dict_lookup (data : list StatItem.t) (id : string) :
  stat_dict data !! id
  = StatItem.stat_name <$> last (filter (fun item => StatItem.stat_id item = id) data).
Proof.
  induction data as [|item data IH] using rev_ind; [done|].
  rewrite stat_dict_snoc, filter_app, filter_cons, filter_nil.
  destruct (decide (StatItem.stat_id item = id)) as [<-|Hne].
  - by rewrite lookup_insert_eq, last_snoc.
  - by rewrite lookup_insert_ne, app_nil_r.
Qed.

Section LoaderFacts.
Variable CACHE_DIR : string.
Variable remote : string → option response.
Context `{Json (list weapon)} `{Json (list StatItem.t)} `{Json (list module_record)}.

(** C4, as the code has it.  For each of the three datasets: when the cache
    file holds a document, the load returns the records read from it and
    leaves the machine as it is, whatever the endpoint would answer; when no
    cache file exists, the fetch succeeds and the cache file can be written,
    the load returns the fetched records and the cache file holds their text
    afterwards.  For the stat dataset what is returned is the name map of
    the records: each identifier with the name of the last record that has
    it.  Any fetch that delivers records, also one on refresh, ends with
    the records returned and the cache file written, or else with an error
    and no file changed: records are never returned without being cached. *)
Theorem load_is_cache_or_fetch (st : store) :
  (∀ data, cached st (CACHE_FILE CACHE_DIR) data →
     load_weapon_data CACHE_DIR remote st = (Ok data, st))
  ∧ (∀ data, os_path_exists (CACHE_FILE CACHE_DIR) st = false →
       fetched remote WEAPON_JSON_URL data →
       writable st (CACHE_FILE CACHE_DIR) = true →
       ∃ st', load_weapon_data CACHE_DIR remote st = (Ok data, st')
              ∧ files st' = <[CACHE_FILE CACHE_DIR := json_dumps data]> (files st))
  ∧ (∀ data, cached st (STAT_CACHE_FILE CACHE_DIR) data →
       ∃ stat_map,
         load_stat_data CACHE_DIR remote st = (Ok stat_map, st)
         ∧ ∀ id, stat_map !! id
                 = StatItem.stat_name
                     <$> last (filter (fun item => StatItem.stat_id item = id) data))
  ∧ (∀ data, os_path_exists (STAT_CACHE_FILE CACHE_DIR) st = false →
       fetched remote STAT_JSON_URL data →
       writable st (STAT_CACHE_FILE CACHE_DIR) = true →
       ∃ stat_map st',
         load_stat_data CACHE_DIR remote st = (Ok stat_map, st')
         ∧ (∀ id, stat_map !! id
                  = StatItem.stat_name
                      <$> last (filter (fun item => StatItem.stat_id item = id) data))
         ∧ files st' = <[STAT_CACHE_FILE CACHE_DIR := json_dumps data]> (files st))
  ∧ (∀ data, cached st (MODULE_CACHE_FILE CACHE_DIR) data →
       load_module_data CACHE_DIR remote st = (Ok data, st))
  ∧ (∀ data, os_path_exists (MODULE_CACHE_FILE CACHE_DIR) st = false →
       fetched remote MODULE_JSON_URL data →
       writable st (MODULE_CACHE_FILE CACHE_DIR) = true →
       ∃ st', load_module_data CACHE_DIR remote st = (Ok data, st')
              ∧ files st' = <[MODULE_CACHE_FILE CACHE_DIR := json_dumps data]> (files st))
  ∧ (∀ (A : Type) (J : Json A) (url cache_file : string) (data : A),
       fetched remote url data →
       (writable st cache_file = true →
        ∃ st', fetch_and_cache_json remote url cache_file st = (Ok data, st')
               ∧ files st' !! cache_file = Some (json_dumps data))
       ∧ (∀ r st', fetch_and_cache_json remote url cache_file st = (r, st') →
            (r = Ok data ∧ files st' !! cache_file = Some (json_dumps data))
            ∨ (∃ e, r = Raise e ∧ files st' = files st))).
Proof.
  split; [|split; [|split; [|split; [|split; [|split]]]]].
  - intros data Hcached. apply load_success in Hcached as [Hload Hexists].
    unfold load_weapon_data. by rewrite Hexists.
  - intros data Hmissing Hfetched Hw. unfold load_weapon_data. rewrite Hmissing.
    cbn [negb]. rewrite (fetch_writes remote _ _ data) by done.
    eexists. by split.
  - intros data Hcached. apply load_success in Hcached as [Hload Hexists].
    exists (stat_dict data). split; [|apply stat_dict_lookup].
    unfold load_stat_data. rewrite Hexists. cbn [negb]. by rewrite Hload.
  - intros data Hmissing Hfetched Hw. exists (stat_dict data). eexists.
    split; [|split; [apply stat_dict_lookup|]].
    + unfold load_stat_data. rewrite Hmissing.
      cbn [negb]. by rewrite (fetch_writes remote _ _ data) by done.
    + done.
  - intros data Hcached. apply load_success in Hcached as [Hload Hexists].
    unfold load_module_data. by rewrite Hexists.
  - intros data Hmissing Hfetched Hw. unfold load_module_data. rewrite Hmissing.
    cbn [negb]. rewrite (fetch_writes remote _ _ data) by done.
    eexists. by split.
  - intros A J url cache_file data Hfetched. split.
    + intros Hw. rewrite (fetch_writes remote _ _ data) by done.
      eexists. split; [reflexivity|]. cbn [files]. apply lookup_insert_eq.
    + intros r st' Hrun.
      destruct (fetch_caches remote _ _ data _ _ _ Hfetched Hrun)
        as [[-> Hfiles] | Hfail]; [left | by right].
      split; [done|]. rewrite Hfiles. apply lookup_insert_eq.
Qed.
End LoaderFacts.

Lemma load_is_cache_or_fetch_witness :
  load_weapon_data (H := empty_array_json weapon) Sample.cache_dir Sample.empty_catalog
    Sample.cached_machine
  = (Ok [], Sample.cached_machine)
  ∧ ∃ st',
      load_weapon_data (H := empty_array_json weapon) Sample.cache_dir
        Sample.empty_catalog Sample.fresh_machine
      = (Ok [], st')
      ∧ files st' !! CACHE_FILE Sample.cache_dir = Some "[]".
Proof.
  pose proof (load_is_cache_or_fetch Sample.cache_dir Sample.empty_catalog
                (H := empty_array_json weapon) (H0 := empty_array_json StatItem.t)
                (H1 := empty_array_json module_record)) as Hload.
  split.
  - destruct (Hload Sample.cached_machine) as [Hread _]. apply Hread.
    exists "[]". split; [by vm_compute | reflexivity].
  - destruct (Hload Sample.fresh_machine) as [_ [Hfetch _]].
    destruct (Hfetch []) as [st' [Hrun Hfiles]].
    + by vm_compute.
    + eexists. split; [reflexivity|]. split; [cbn; lia | reflexivity].
    + by vm_compute.
    + exists st'. split; [exact Hrun|]. rewrite Hfiles. apply lookup_insert_eq.
Defined.

(** C4 as the specification words it fails on a machine where a regular
    file stands at the cache directory's path: no cache file exists, the
    endpoint delivers the records, and yet nothing is written and nothing is
    returned; the load ends with the error of [os.makedirs]. *)
Lemma fetch_without_cache_counterexample :
  os_path_exists (CACHE_FILE Sample.cache_dir)
    {| files := {[ Sample.cache_dir := "" ]}; dirs := ∅ |} = false
  ∧ @fetched (list weapon) (empty_array_json weapon) Sample.empty_catalog
      WEAPON_JSON_URL []
  ∧ load_weapon_data (H := empty_array_json weapon) Sample.cache_dir Sample.empty_catalog
      {| files := {[ Sample.cache_dir := "" ]}; dirs := ∅ |}
    = (Raise FileExistsError, {| files := {[ Sample.cache_dir := "" ]}; dirs := ∅ |}).
Proof.
  split; [by vm_compute|]. split; [|by vm_compute].
  eexists. split; [reflexivity|]. split; [cbn; lia | reflexivity].
Qed.

(** ** C10: the name map of the stat dataset *)


(** * Further properties *)

(** ** Search: errors, the empty term, narrowing *)

Lemma search_items_none {U : Py.Unicode} {A} `{Subscript A} (items : list A)
    (search_term key : string) :
  search_items items search_term key = None
  ↔ Exists (fun item => getitem item key = None) items.
Proof.
  induction items as [|item items IH].
  - split; [done | intros Hex; inversion Hex].
  - cbn [search_items]. rewrite Exists_cons. unfold getitem in *.
    destruct (H item key) as [name|].
    + destruct (search_items items search_term key) as [found|].
      * split; [done|]. intros [Hhere|Hlater]; [done|]. by apply IH in Hlater.
      * split; [|done]. intros _. right. by apply IH.
    + split; [by left | done].
Qed.

(** X1.  [search_items] fails, as Python does with [KeyError], exactly when
    some record of the list lacks the key, wherever it stands in the list and
    whatever the term; otherwise it returns a list. *)
Theorem search_items_key_error {U : Py.Unicode} {A} `{Subscript A} (items : list A)
    (search_term key : string) :
  (search_items items search_term key = None
   ↔ Exists (fun item => getitem item key = None) items)
  ∧ (is_Some (search_items items search_term key)
     ↔ Forall (fun item => is_Some (getitem item key)) items).
Proof.
  split; [apply search_items_none|].
  rewrite <- not_eq_None_Some, search_items_none, <- Forall_Exists_neg.
  apply Forall_proper; [|done]. intros item. by rewrite not_eq_None_Some.
Qed.

(** X2.  The empty term is a substring of every name: on a list whose
    records carry the key, [search_items] with the empty term returns the
    whole list, in order.  Only the handlers' check keeps an empty term away
    from it. *)
Theorem empty_term_matches_all {U : Py.Unicode} {A} `{Subscript A} (items : list A)
    (key : string) :
  Forall (fun item => is_Some (getitem item key)) items →
  search_items items "" key = Some items
  ∧ filter (name_matches "" key) items = items.
Proof.
  intros Hkey. pose proof (search_items_empty_term items key Hkey) as Hall.
  split; [exact Hall|].
  rewrite (search_items_filter items "" key Hkey) in Hall. by injection Hall.
Qed.

Lemma empty_term_matches_all_witness :
  Forall (fun item => is_Some (getitem item "weapon_name"))
         [Sample.thunder_cage; Sample.thunder_cage]
  ∧ search_items (U := Sample.ascii) [Sample.thunder_cage; Sample.thunder_cage] ""
      "weapon_name"
    = Some [Sample.thunder_cage; Sample.thunder_cage].
Proof.
  assert (Hkey : Forall (fun item => is_Some (getitem item "weapon_name"))
                        [Sample.thunder_cage; Sample.thunder_cage]).
  { repeat constructor; by eexists. }
  split; [exact Hkey|].
  by destruct (empty_term_matches_all (U := Sample.ascii)
                 [Sample.thunder_cage; Sample.thunder_cage] "weapon_name" Hkey).
Defined.

Lemma contains_trans (a b c : string) :
  Py.contains a b = true → Py.contains b c = true → Py.contains a c = true.
Proof.
  rewrite !contains_spec. intros [pre1 [post1 ->]] [pre2 [post2 ->]].
  exists (pre2 +:+ pre1), (post1 +:+ post2).
  by rewrite !string_app_assoc.
Qed.

Lemma filter_sublist_impl {A} (P Q : A → Prop) `{∀ x, Decision (P x)}
    `{∀ x, Decision (Q x)} (l : list A) :
  (∀ x, P x → Q x) → sublist (filter P l) (filter Q l).
Proof.
  intros HPQ. induction l as [|x l IH]; [done|].
  rewrite !filter_cons. destruct (decide (P x)) as [HP|HP].
  - rewrite decide_True by auto. by constructor.
  - destruct (decide (Q x)); [by constructor | done].
Qed.

(** X3.  A longer term narrows the search: when the first term, lowered as
    Python lowers it, is a substring of the lowered second term, both
    searches succeed on a list whose records carry the key, and what the
    second finds is a subsequence of what the first finds. *)
Theorem search_narrows {U : Py.Unicode} {A} `{Subscript A} (items : list A)
    (short long key : string) :
  Forall (fun item => is_Some (getitem item key)) items →
  Py.contains (Py.lower short) (Py.lower long) = true →
  ∃ found_short found_long,
    search_items items short key = Some found_short
    ∧ search_items items long key = Some found_long
    ∧ sublist found_long found_short.
Proof.
  intros Hkey Hsub.
  exists (filter (name_matches short key) items), (filter (name_matches long key) items).
  split; [by apply search_items_filter|]. split; [by apply search_items_filter|].
  apply filter_sublist_impl. intros item. unfold name_matches.
  destruct (getitem item key) as [name|]; [|done].
  rewrite !Is_true_true. by apply contains_trans.
Qed.

Lemma search_narrows_witness :
  ∃ found_short found_long,
    search_items (U := Sample.ascii) [Sample.thunder_cage] "cage" "weapon_name"
    = Some found_short
    ∧ search_items (U := Sample.ascii) [Sample.thunder_cage] "Thunder Cage X" "weapon_name"
      = Some found_long
    ∧ sublist found_long found_short.
Proof.
  apply (search_narrows (U := Sample.ascii)
           [Sample.thunder_cage] "cage" "Thunder Cage X" "weapon_name").
  - repeat constructor. by eexists.
  - reflexivity.
Defined.

Lemma lower_char_idemp (c : ascii) : Py.lower_char (Py.lower_char c) = Py.lower_char c.
Proof. by destruct c as [[] [] [] [] [] [] [] []]. Qed.

Lemma lower_ascii_idemp (s : string) : Py.lower_ascii (Py.lower_ascii s) = Py.lower_ascii s.
Proof. induction s as [|c s IH]; simpl; [done|]. by rewrite lower_char_idemp, IH. Qed.

Lemma lower_char_ascii (c : ascii) :
  (nat_of_ascii (Py.lower_char c) <? 128)%nat = (nat_of_ascii c <? 128)%nat.
Proof. by destruct c as [[] [] [] [] [] [] [] []]. Qed.

Lemma lower_ascii_is_ascii (s : string) : Py.is_ascii (Py.lower_ascii s) = Py.is_ascii s.
Proof.
  induction s as [|c s IH]; [done|].
  cbn [Py.lower_ascii Py.is_ascii]. by rewrite lower_char_ascii, IH.
Qed.

Lemma lower_idemp {U : Py.Unicode} (s : string) : Py.lower (Py.lower s) = Py.lower s.
Proof.
  unfold Py.lower at 2 3. destruct (Py.is_ascii s) eqn:Hascii.
  - unfold Py.lower. by rewrite lower_ascii_is_ascii, Hascii, lower_ascii_idemp.
  - unfold Py.lower. by apply Py.unicode_lower_lowered.
Qed.

(** X4.  The search does not see the case of the term: two terms that lower
    to the same text find the same records, and the lowered term finds what
    the term itself finds. *)
Theorem search_ignores_case {U : Py.Unicode} {A} `{Subscript A} (items : list A)
    (term term' key : string) :
  Py.lower term' = Py.lower term →
  search_items items term' key = search_items items term key
  ∧ search_items items (Py.lower term) key = search_items items term key.
Proof.
  assert (Hsame : ∀ t, Py.lower t = Py.lower term →
            search_items items t key = search_items items term key).
  { intros t Hlow. induction items as [|item items IH]; [done|].
    cbn [search_items]. by rewrite IH, Hlow. }
  intros Hlow. split; [by apply Hsame | apply Hsame, lower_idemp].
Qed.

Lemma search_ignores_case_witness :
  Py.lower (U := Sample.ascii) "THUNDER" = Py.lower (U := Sample.ascii) "thunder"
  ∧ search_items (U := Sample.ascii) [Sample.thunder_cage] "THUNDER" "weapon_name"
    = search_items (U := Sample.ascii) [Sample.thunder_cage] "thunder" "weapon_name".
Proof.
  split; [reflexivity|].
  apply (search_ignores_case (U := Sample.ascii)
           [Sample.thunder_cage] "thunder" "THUNDER" "weapon_name").
  reflexivity.
Defined.

(** ** The search handlers, case by case *)

Lemma strip_truthy {U : Py.Unicode}
    (term : string) : Py.strip term ≠ "" → Py.truthy (Py.strip term) = true.
Proof. apply truthy_nonempty. Qed.

(** What is left of a handler once the term has passed the three checks. *)
Lemma handle_search_weapons_found {U : Py.Unicode} {R : Rich}
    (weapons : list weapon) (stat_map : gmap string string)
    (weapon_names : list string) (term : string) (results : list weapon)
    (rest : list (option string)) (co : list output)
    (cf : gmap string (list (list string))) (rf : gmap string string) :
  Py.lower term ≠ "exit" → Py.strip term ≠ "" →
  search_items weapons term "weapon_name" = Some results →
  handle_search_weapons weapons stat_map weapon_names
    {| answers := Some term :: rest; console := co; csv_files := cf; refused := rf |}
  = match results with
    | [] => print ("No weapons found matching '" +:+ term +:+ "'.")
    | first :: others =>
        weapon ←
          match others with
          | _ :: _ =>
              selected_weapon ← select (weapon_name <$> results) ;
              next_named weapon_name selected_weapon results
          | [] => mret first
          end ;
        display_weapon_info weapon stat_map
    end {| answers := rest; console := co; csv_files := cf; refused := rf |}.
Proof.
  intros Hexit Hblank Hsearch. apply strip_truthy in Hblank.
  unfold handle_search_weapons. erewrite bind_ok by reflexivity. cbv beta iota.
  rewrite decide_False by done. rewrite Hblank. cbn [negb].
  rewrite Hsearch. by erewrite bind_ok by reflexivity.
Qed.

Lemma handle_search_modules_found {U : Py.Unicode} {R : Rich} (modules : list module_record)
    (module_names : list string) (term : string) (results : list module_record)
    (rest : list (option string)) (co : list output)
    (cf : gmap string (list (list string))) (rf : gmap string string) :
  Py.lower term ≠ "exit" → Py.strip term ≠ "" →
  search_items modules term "module_name" = Some results →
  handle_search_modules modules module_names
    {| answers := Some term :: rest; console := co; csv_files := cf; refused := rf |}
  = match results with
    | [] => print ("No modules found matching '" +:+ term +:+ "'.")
    | first :: others =>
        module ←
          match others with
          | _ :: _ =>
              selected_module ← select (module_name <$> results) ;
              next_named module_name selected_module results
          | [] => mret first
          end ;
        display_module_info module
    end {| answers := rest; console := co; csv_files := cf; refused := rf |}.
Proof.
  intros Hexit Hblank Hsearch. apply strip_truthy in Hblank.
  unfold handle_search_modules. erewrite bind_ok by reflexivity. cbv beta iota.
  rewrite decide_False by done. rewrite Hblank. cbn [negb].
  rewrite Hsearch. by erewrite bind_ok by reflexivity.
Qed.

(** X5.  A cancelled prompt, or the word "exit" in any casing, makes either
    handler print "Exiting." and return: nothing is searched, shown or
    written, whatever the catalog holds. *)
Theorem exit_keyword_leaves {U : Py.Unicode} {R : Rich}
    (answer : option string) (weapons : list weapon)
    (stat_map : gmap string string) (weapon_names : list string)
    (modules : list module_record) (module_names : list string)
    (rest : list (option string)) (co : list output)
    (cf : gmap string (list (list string))) (rf : gmap string string) :
  answer = None ∨ (∃ term, answer = Some term ∧ Py.lower term = "exit") →
  handle_search_weapons weapons stat_map weapon_names
    {| answers := answer :: rest; console := co; csv_files := cf; refused := rf |}
  = (Ok tt, {| answers := rest; console := co ++ [Printed "Exiting."];
               csv_files := cf; refused := rf |})
  ∧ handle_search_modules modules module_names
      {| answers := answer :: rest; console := co; csv_files := cf; refused := rf |}
    = (Ok tt, {| answers := rest; console := co ++ [Printed "Exiting."];
                 csv_files := cf; refused := rf |}).
Proof.
  intros [-> | [term [-> Hexit]]]; [by split|].
  split; unfold handle_search_weapons, handle_search_modules;
    (erewrite bind_ok by reflexivity); cbv beta iota; by rewrite decide_True.
Qed.

Lemma exit_keyword_leaves_witness :
  handle_search_weapons (U := Sample.ascii) (R := Sample.terminal)
      [Sample.thunder_cage] Sample.stat_map ["Thunder Cage"]
    (Sample.blank_session [Some "Exit"; Some "thunder"])
  = (Ok tt, {| answers := [Some "thunder"]; console := [Printed "Exiting."];
               csv_files := ∅; refused := ∅ |}).
Proof.
  apply (exit_keyword_leaves (U := Sample.ascii) (R := Sample.terminal)
      (Some "Exit") [Sample.thunder_cage] Sample.stat_map
           ["Thunder Cage"] [] [] [Some "thunder"] [] ∅ ∅).
  right. exists "Exit". split; reflexivity.
Defined.

(** X6.  A term made of white space only is turned away like the empty one,
    by both handlers and before any search. *)
Theorem blank_search_term_rejected {U : Py.Unicode} {R : Rich}
    (term : string) (weapons : list weapon)
    (stat_map : gmap string string) (weapon_names : list string)
    (modules : list module_record) (module_names : list string)
    (rest : list (option string)) (co : list output)
    (cf : gmap string (list (list string))) (rf : gmap string string) :
  Py.strip term = "" →
  handle_search_weapons weapons stat_map weapon_names
    {| answers := Some term :: rest; console := co; csv_files := cf; refused := rf |}
  = (Ok tt,
     {| answers := rest;
        console := co ++ [Printed "Search term cannot be empty. Please try again."];
        csv_files := cf; refused := rf |})
  ∧ handle_search_modules modules module_names
      {| answers := Some term :: rest; console := co; csv_files := cf; refused := rf |}
    = (Ok tt,
       {| answers := rest;
          console := co ++ [Printed "Search term cannot be empty. Please try again."];
          csv_files := cf; refused := rf |}).
Proof.
  intros Hblank. destruct (blank_term_rejected term rest co cf rf Hblank) as [Hw Hm].
  split; [apply Hw | apply Hm].
Qed.

Lemma blank_search_term_rejected_witness :
  Py.strip (U := Sample.ascii) "   " = ""
  ∧ handle_search_weapons (U := Sample.ascii) (R := Sample.terminal)
      [Sample.thunder_cage] Sample.stat_map ["Thunder Cage"]
      (Sample.blank_session [Some "   "])
    = (Ok tt,
       {| answers := [];
          console := [Printed "Search term cannot be empty. Please try again."];
          csv_files := ∅; refused := ∅ |}).
Proof.
  split; [reflexivity|].
  apply (blank_search_term_rejected (U := Sample.ascii) (R := Sample.terminal)
      "   " [Sample.thunder_cage] Sample.stat_map
           ["Thunder Cage"] [] [] [] [] ∅ ∅).
  reflexivity.
Defined.

(** X7.  A term that passes the checks and matches no name gives the
    no-results line, quoting the term as typed, and nothing else: no prompt
    is asked and no table is shown. *)
Theorem no_match_reported {U : Py.Unicode} {R : Rich} (term : string) (weapons : list weapon)
    (stat_map : gmap string string) (weapon_names : list string)
    (modules : list module_record) (module_names : list string)
    (rest : list (option string)) (co : list output)
    (cf : gmap string (list (list string))) (rf : gmap string string) :
  Py.lower term ≠ "exit" → Py.strip term ≠ "" →
  (search_items weapons term "weapon_name" = Some [] →
   handle_search_weapons weapons stat_map weapon_names
     {| answers := Some term :: rest; console := co; csv_files := cf; refused := rf |}
   = (Ok tt,
      {| answers := rest;
         console := co ++ [Printed ("No weapons found matching '" +:+ term +:+ "'.")];
         csv_files := cf; refused := rf |}))
  ∧ (search_items modules term "module_name" = Some [] →
     handle_search_modules modules module_names
       {| answers := Some term :: rest; console := co; csv_files := cf; refused := rf |}
     = (Ok tt,
        {| answers := rest;
           console := co ++ [Printed ("No modules found matching '" +:+ term +:+ "'.")];
           csv_files := cf; refused := rf |})).
Proof.
  intros Hexit Hblank. split; intros Hsearch.
  - by rewrite (handle_search_weapons_found _ _ _ _ [] _ _ _ _ Hexit Hblank Hsearch).
  - by rewrite (handle_search_modules_found _ _ _ [] _ _ _ _ Hexit Hblank Hsearch).
Qed.

Lemma no_match_reported_witness :
  handle_search_weapons (U := Sample.ascii) (R := Sample.terminal)
      [Sample.thunder_cage] Sample.stat_map ["Thunder Cage"]
    (Sample.blank_session [Some "python"])
  = (Ok tt,
     {| answers := [];
        console := [Printed "No weapons found matching 'python'."];
        csv_files := ∅; refused := ∅ |}).
Proof.
  destruct (no_match_reported (U := Sample.ascii) (R := Sample.terminal)
      "python" [Sample.thunder_cage] Sample.stat_map
              ["Thunder Cage"] [] [] [] [] ∅ ∅) as [Hw _]; [done | done |].
  apply Hw. reflexivity.
Defined.

(** X8.  A single match is selected without a prompt: the handler goes on as
    [display_weapon_info] (or [display_module_info]) of that record, with the
    operator's remaining answers. *)
Theorem single_match_auto_selected {U : Py.Unicode} {R : Rich}
    (term : string) (weapons : list weapon)
    (stat_map : gmap string string) (weapon_names : list string)
    (modules : list module_record) (module_names : list string)
    (rest : list (option string)) (co : list output)
    (cf : gmap string (list (list string))) (rf : gmap string string) :
  Py.lower term ≠ "exit" → Py.strip term ≠ "" →
  (∀ weapon, search_items weapons term "weapon_name" = Some [weapon] →
     handle_search_weapons weapons stat_map weapon_names
       {| answers := Some term :: rest; console := co; csv_files := cf; refused := rf |}
     = display_weapon_info weapon stat_map
         {| answers := rest; console := co; csv_files := cf; refused := rf |})
  ∧ (∀ module, search_items modules term "module_name" = Some [module] →
       handle_search_modules modules module_names
         {| answers := Some term :: rest; console := co; csv_files := cf; refused := rf |}
       = display_module_info module
           {| answers := rest; console := co; csv_files := cf; refused := rf |}).
Proof.
  intros Hexit Hblank. split.
  - intros weapon Hsearch.
    rewrite (handle_search_weapons_found _ _ _ _ _ _ _ _ _ Hexit Hblank Hsearch).
    by erewrite bind_ok by reflexivity.
  - intros module Hsearch.
    rewrite (handle_search_modules_found _ _ _ _ _ _ _ _ Hexit Hblank Hsearch).
    by erewrite bind_ok by reflexivity.
Qed.

Lemma single_match_auto_selected_witness :
  handle_search_weapons (U := Sample.ascii) (R := Sample.terminal)
      [Sample.thunder_cage] Sample.stat_map ["Thunder Cage"]
    (Sample.blank_session [Some "cage"; Some "Back"])
  = display_weapon_info (R := Sample.terminal) Sample.thunder_cage Sample.stat_map
      (Sample.blank_session [Some "Back"]).
Proof.
  destruct (single_match_auto_selected (U := Sample.ascii) (R := Sample.terminal)
      "cage" [Sample.thunder_cage] Sample.stat_map
              ["Thunder Cage"] [] [] [Some "Back"] [] ∅ ∅) as [Hw _]; [done | done |].
  apply Hw. reflexivity.
Defined.

Lemma next_named_cancelled {A} (name : A → string) (results : list A) (s : session) :
  next_named name None results s = (Raise StopIteration, s).
Proof.
  unfold next_named. set (found := filter _ results).
  assert (Hnone : ∀ x, x ∈ found → False).
  { intros x Hx. apply list_elem_of_filter in Hx as [Hx _]. discriminate Hx. }
  destruct found as [|x found]; [done|]. destruct (Hnone x). apply list_elem_of_here.
Qed.

Lemma next_named_first {A} (name : A → string) (pre post : list A) (x : A) (s : session) :
  Forall (fun y => name y ≠ name x) pre →
  next_named name (Some (name x)) (pre ++ x :: post) s = (Ok x, s).
Proof.
  intros Hpre. unfold next_named. rewrite filter_app, filter_cons.
  rewrite decide_True by done. set (found := filter _ pre).
  assert (Hnone : ∀ y, y ∈ found → False).
  { intros y Hy. apply list_elem_of_filter in Hy as [Hy Hin].
    rewrite Forall_forall in Hpre. apply Hpre in Hin. by injection Hy. }
  destruct found as [|y found]; [done|]. destruct (Hnone y). apply list_elem_of_here.
Qed.

(** X9.  With two matches or more, cancelling the selection prompt is not
    handled: [next] finds no record named [None] and the handler ends with
    [StopIteration], after the term and the cancelled prompt are used up and
    with nothing printed. *)
Theorem cancelled_selection_raises {U : Py.Unicode} {R : Rich}
    (term : string) (weapons : list weapon)
    (stat_map : gmap string string) (weapon_names : list string)
    (modules : list module_record) (module_names : list string)
    (rest : list (option string)) (co : list output)
    (cf : gmap string (list (list string))) (rf : gmap string string) :
  Py.lower term ≠ "exit" → Py.strip term ≠ "" →
  (∀ w1 w2 more, search_items weapons term "weapon_name" = Some (w1 :: w2 :: more) →
     handle_search_weapons weapons stat_map weapon_names
       {| answers := Some term :: None :: rest; console := co;
          csv_files := cf; refused := rf |}
     = (Raise StopIteration,
        {| answers := rest; console := co; csv_files := cf; refused := rf |}))
  ∧ (∀ m1 m2 more, search_items modules term "module_name" = Some (m1 :: m2 :: more) →
       handle_search_modules modules module_names
         {| answers := Some term :: None :: rest; console := co;
            csv_files := cf; refused := rf |}
       = (Raise StopIteration,
          {| answers := rest; console := co; csv_files := cf; refused := rf |})).
Proof.
  intros Hexit Hblank. split.
  - intros w1 w2 more Hsearch.
    rewrite (handle_search_weapons_found _ _ _ _ _ _ _ _ _ Hexit Hblank Hsearch).
    unfold mbind at 1, session_bind at 1.
    erewrite bind_ok by reflexivity. by rewrite next_named_cancelled.
  - intros m1 m2 more Hsearch.
    rewrite (handle_search_modules_found _ _ _ _ _ _ _ _ Hexit Hblank Hsearch).
    unfold mbind at 1, session_bind at 1.
    erewrite bind_ok by reflexivity. by rewrite next_named_cancelled.
Qed.

Lemma cancelled_selection_raises_witness :
  handle_search_weapons (U := Sample.ascii) (R := Sample.terminal)
      [Sample.thunder_cage; Sample.thunder_cage] Sample.stat_map
    ["Thunder Cage"; "Thunder Cage"]
    (Sample.blank_session [Some "cage"; None; Some "91-120"])
  = (Raise StopIteration, Sample.blank_session [Some "91-120"]).
Proof.
  destruct (cancelled_selection_raises (U := Sample.ascii) (R := Sample.terminal)
      "cage" [Sample.thunder_cage; Sample.thunder_cage]
              Sample.stat_map ["Thunder Cage"; "Thunder Cage"] [] []
              [Some "91-120"] [] ∅ ∅) as [Hw _]; [done | done |].
  apply (Hw Sample.thunder_cage Sample.thunder_cage []). reflexivity.
Defined.

(** X10.  With two matches or more, the record displayed is the first match
    that carries the picked name: a later match with the same name cannot be
    reached. *)
Theorem selection_takes_first_named {U : Py.Unicode} {R : Rich}
    (term : string) (weapons : list weapon)
    (stat_map : gmap string string) (weapon_names : list string)
    (pre post : list weapon) (weapon : weapon)
    (rest : list (option string)) (co : list output)
    (cf : gmap string (list (list string))) (rf : gmap string string) :
  Py.lower term ≠ "exit" → Py.strip term ≠ "" →
  search_items weapons term "weapon_name" = Some (pre ++ weapon :: post) →
  (1 < length (pre ++ weapon :: post))%nat →
  Forall (fun other => weapon_name other ≠ weapon_name weapon) pre →
  handle_search_weapons weapons stat_map weapon_names
    {| answers := Some term :: Some (weapon_name weapon) :: rest; console := co;
       csv_files := cf; refused := rf |}
  = display_weapon_info weapon stat_map
      {| answers := rest; console := co; csv_files := cf; refused := rf |}.
Proof.
  intros Hexit Hblank Hsearch Hmany Hpre.
  rewrite (handle_search_weapons_found _ _ _ _ _ _ _ _ _ Hexit Hblank Hsearch).
  assert (Hpick :
    (selected_weapon ← select (weapon_name <$> pre ++ weapon :: post) ;
     next_named weapon_name selected_weapon (pre ++ weapon :: post))
      {| answers := Some (weapon_name weapon) :: rest; console := co;
         csv_files := cf; refused := rf |}
    = (Ok weapon, {| answers := rest; console := co; csv_files := cf; refused := rf |})).
  { erewrite bind_ok.
    - by apply next_named_first.
    - apply select_offered. apply list_elem_of_fmap. exists weapon.
      split; [done|]. apply elem_of_app. right. apply list_elem_of_here. }
  destruct (pre ++ weapon :: post) as [|first [|second others]] eqn:Hresults.
  - by destruct pre.
  - cbn in Hmany. lia.
  - by erewrite bind_ok by exact Hpick.
Qed.

Lemma selection_takes_first_named_witness :
  handle_search_weapons (U := Sample.ascii) (R := Sample.terminal)
      [Sample.thunder_cage; Sample.thunder_cage] Sample.stat_map
    ["Thunder Cage"; "Thunder Cage"]
    (Sample.blank_session [Some "cage"; Some "Thunder Cage"; Some "Back"])
  = display_weapon_info (R := Sample.terminal) Sample.thunder_cage Sample.stat_map
      (Sample.blank_session [Some "Back"]).
Proof.
  apply (selection_takes_first_named (U := Sample.ascii) (R := Sample.terminal)
      "cage" [Sample.thunder_cage; Sample.thunder_cage]
           Sample.stat_map ["Thunder Cage"; "Thunder Cage"] []
           [Sample.thunder_cage] Sample.thunder_cage [Some "Back"] [] ∅ ∅).
  - done.
  - done.
  - reflexivity.
  - cbn. lia.
  - constructor.
Defined.

(** ** Showing and exporting, case by case *)

Lemma select_any (choices : list string) (a : option string) (rest : list (option string))
    (co : list output) (cf : gmap string (list (list string))) (rf : gmap string string) :
  ∃ picked,
    select choices {| answers := a :: rest; console := co; csv_files := cf; refused := rf |}
    = (Ok picked, {| answers := rest; console := co; csv_files := cf; refused := rf |})
    ∧ (picked = a ∨ picked = None).
Proof.
  unfold select. erewrite bind_ok by reflexivity. cbn [answers console csv_files refused].
  destruct a as [c|]; [|by exists None; split; [|left]].
  destruct (decide (c ∈ choices)); eexists; (split; [reflexivity|]); auto.
Qed.

(** X11.  Choosing "Back" at the window prompt, or cancelling it, leaves
    [display_weapon_info] at once: the prompt's answer is used up, nothing is
    printed and nothing is written. *)
Theorem display_back_shows_nothing {R : Rich} (answer : option string) (w : weapon)
    (stat_map : gmap string string) (rest : list (option string)) (co : list output)
    (cf : gmap string (list (list string))) (rf : gmap string string) :
  answer = None ∨ answer = Some "Back" →
  display_weapon_info w stat_map
    {| answers := answer :: rest; console := co; csv_files := cf; refused := rf |}
  = (Ok tt, {| answers := rest; console := co; csv_files := cf; refused := rf |}).
Proof.
  intros [-> | ->]; unfold display_weapon_info.
  - by erewrite bind_ok by reflexivity.
  - erewrite bind_ok by (apply select_offered; apply (bool_decide_unpack _); by vm_compute).
    done.
Qed.

Lemma display_back_shows_nothing_witness :
  display_weapon_info (R := Sample.terminal) Sample.thunder_cage Sample.stat_map
    (Sample.blank_session [Some "Back"; Some "Output to CSV"])
  = (Ok tt, Sample.blank_session [Some "Output to CSV"]).
Proof.
  apply (display_back_shows_nothing (R := Sample.terminal) (Some "Back")
           Sample.thunder_cage Sample.stat_map
           [Some "Output to CSV"] [] ∅ ∅).
  by right.
Defined.

(** X12.  After a window is viewed, any answer to the next prompt other than
    "Output to CSV", a cancelled prompt included, ends the display with the
    two tables shown, as rich renders them, and no file written.  Where rich
    refuses the markup of a title or a cell, nothing is shown and the
    display ends with [MarkupError] before that prompt. *)
Theorem view_without_export {R : Rich} (w : weapon) (stat_map : gmap string string)
    (start end_ : Z) (next : option string) (rest : list (option string))
    (co : list output) (cf : gmap string (list (list string)))
    (rf : gmap string string) :
  (start, end_) ∈ attack_ranges →
  next ≠ Some "Output to CSV" →
  (∀ shown,
     mapM render_table [create_base_stats_table w stat_map;
                        create_firearm_attack_table w stat_map start end_] = Some shown →
     display_weapon_info w stat_map
       {| answers := Some (Py.str_int start +:+ "-" +:+ Py.str_int end_) :: next :: rest;
          console := co; csv_files := cf; refused := rf |}
     = (Ok tt,
        {| answers := rest; console := co ++ [Shown shown];
           csv_files := cf; refused := rf |}))
  ∧ (mapM render_table [create_base_stats_table w stat_map;
                        create_firearm_attack_table w stat_map start end_] = None →
     display_weapon_info w stat_map
       {| answers := Some (Py.str_int start +:+ "-" +:+ Py.str_int end_) :: next :: rest;
          console := co; csv_files := cf; refused := rf |}
     = (Raise MarkupError,
        {| answers := next :: rest; console := co; csv_files := cf; refused := rf |})).
Proof.
  intros Hwin Hnext.
  destruct (parse_range_option start end_ Hwin) as [Hparse [Hoffered Hback]].
  split.
  - intros shown Hshown. unfold display_weapon_info.
    erewrite bind_ok by (by apply select_offered).
    cbv beta iota. rewrite decide_False by done. rewrite Hparse.
    erewrite bind_ok by reflexivity. cbv beta iota.
    erewrite bind_ok by (by apply show_rendered).
    cbn [answers console csv_files refused].
    destruct (select_any ["Return to main menu"; "Output to CSV"] next rest
                (co ++ [Shown shown]) cf rf) as [picked [Hselect Hpicked]].
    erewrite bind_ok by exact Hselect. cbv beta iota.
    rewrite decide_False; [done|]. by destruct Hpicked as [-> | ->].
  - intros Hrefused. unfold display_weapon_info.
    erewrite bind_ok by (by apply select_offered).
    cbv beta iota. rewrite decide_False by done. rewrite Hparse.
    erewrite bind_ok by reflexivity. cbv beta iota.
    unfold mbind, session_bind, show. by rewrite Hrefused.
Qed.

Lemma view_without_export_witness :
  display_weapon_info (R := Sample.terminal) Sample.thunder_cage Sample.stat_map
    (Sample.blank_session [Some "91-120"; Some "Return to main menu"])
  = (Ok tt,
     {| answers := [];
        console := [Shown [create_base_stats_table Sample.thunder_cage Sample.stat_map;
                           create_firearm_attack_table Sample.thunder_cage
                             Sample.stat_map 91 120]];
        csv_files := ∅; refused := ∅ |}).
Proof.
  destruct (view_without_export (R := Sample.terminal) Sample.thunder_cage
              Sample.stat_map 91 120 (Some "Return to main menu") [] [] ∅ ∅)
    as [Hshown _].
  - apply (bool_decide_unpack _). by vm_compute.
  - done.
  - apply Hshown. by vm_compute.
Defined.

(** X13.  An export with no usable directory (cancelled or empty) prints the
    invalid-directory line and stops; with a directory but no usable file
    name it prints the invalid-file-name line and stops.  Either way no file
    is written and the rows are not even computed into one. *)
Theorem export_needs_directory_and_name {R : Rich} (data : item)
    (stat_map : option (gmap string string)) (dir : string)
    (missing : option string) (rest : list (option string)) (co : list output)
    (cf : gmap string (list (list string))) (rf : gmap string string) :
  missing = None ∨ missing = Some "" →
  dir ≠ "" →
  export_json_to_csv data stat_map
    {| answers := missing :: rest; console := co; csv_files := cf; refused := rf |}
  = (Ok tt,
     {| answers := rest;
        console := co ++ [Printed "Invalid directory. Returning to main menu."];
        csv_files := cf; refused := rf |})
  ∧ export_json_to_csv data stat_map
      {| answers := Some dir :: missing :: rest; console := co;
         csv_files := cf; refused := rf |}
    = (Ok tt,
       {| answers := rest;
          console := co ++ [Printed "Invalid file name. Returning to main menu."];
          csv_files := cf; refused := rf |}).
Proof.
  intros Hmissing Hdir. apply truthy_nonempty in Hdir.
  unfold export_json_to_csv, get_output_directory, get_csv_file_path.
  split.
  - destruct Hmissing as [-> | ->]; run;
      by rewrite (render_plain "Invalid directory. Returning to main menu.").
  - destruct Hmissing as [-> | ->]; run; rewrite Hdir; run; rewrite Hdir; run;
      by rewrite (render_plain "Invalid file name. Returning to main menu.").
Qed.

Lemma export_needs_directory_and_name_witness :
  export_json_to_csv (R := Sample.terminal) (WeaponItem Sample.thunder_cage)
    (Some Sample.stat_map)
    (Sample.blank_session [Some "/tmp"; Some ""; Some "later"])
  = (Ok tt,
     {| answers := [Some "later"];
        console := [Printed "Invalid file name. Returning to main menu."];
        csv_files := ∅; refused := ∅ |}).
Proof.
  destruct (export_needs_directory_and_name (R := Sample.terminal)
              (WeaponItem Sample.thunder_cage) (Some Sample.stat_map) "/tmp" (Some "")
              [Some "later"] [] ∅ ∅)
    as [_ Hname]; [by right | done | exact Hname].
Defined.

(** X14.  When the operating system refuses the file, the handler of the
    [try] prints the failure line with the error's text, as rich renders it;
    nothing is written and the export still waits for the operator to press
    enter.  Where rich refuses that line in turn, its [MarkupError] leaves
    the handler and the export, with nothing printed and the prompt not
    asked. *)
Theorem export_failure_reported {R : Rich} (data : item)
    (stat_map : option (gmap string string)) (dir name error : string)
    (rest : list (option string)) (co : list output)
    (cf : gmap string (list (list string))) (rf : gmap string string) :
  dir ≠ "" → name ≠ "" → rf !! Py.path_join dir (name +:+ ".csv") = Some error →
  (∀ shown,
     render ("Failed to export data to CSV: " +:+ error) = Rendered shown →
     export_json_to_csv data stat_map
       {| answers := Some dir :: Some name :: rest; console := co;
          csv_files := cf; refused := rf |}
     = (Ok tt,
        {| answers := tail rest; console := co ++ [Printed shown];
           csv_files := cf; refused := rf |}))
  ∧ (∀ message,
       render ("Failed to export data to CSV: " +:+ error) = Refused message →
       export_json_to_csv data stat_map
         {| answers := Some dir :: Some name :: rest; console := co;
            csv_files := cf; refused := rf |}
       = (Raise MarkupError,
          {| answers := rest; console := co; csv_files := cf; refused := rf |})).
Proof.
  intros Hdir Hname Hrefused.
  unfold export_json_to_csv, get_output_directory, get_csv_file_path.
  assert (Hpath : Py.truthy (Py.path_join dir (name +:+ ".csv")) = true).
  { apply truthy_path_join, truthy_append_r. done. }
  apply truthy_nonempty in Hdir, Hname.
  split; intros text Hline;
    run; rewrite Hdir; run; rewrite Hdir; run; rewrite Hname; run; rewrite Hpath; run;
    unfold write_csv; run; rewrite Hrefused; run; rewrite Hline; run;
    [by destruct rest | done].
Qed.

Lemma export_failure_reported_witness :
  export_json_to_csv (R := Sample.terminal) (ModuleItem Sample.sharp_precision) None
    {| answers := [Some "/proc"; Some "out"; None]; console := [];
       csv_files := ∅; refused := {[ "/proc/out.csv" := "Permission denied" ]} |}
  = (Ok tt,
     {| answers := [];
        console := [Printed "Failed to export data to CSV: Permission denied"];
        csv_files := ∅; refused := {[ "/proc/out.csv" := "Permission denied" ]} |}).
Proof.
  destruct (export_failure_reported (R := Sample.terminal)
              (ModuleItem Sample.sharp_precision) None "/proc" "out"
              "Permission denied" [None] [] ∅ {[ "/proc/out.csv" := "Permission denied" ]})
    as [Hprinted _].
  - done.
  - done.
  - by vm_compute.
  - apply Hprinted. by vm_compute.
Defined.

(** X15.  Exporting a module from its display: the screen gets the table
    with a blank row after each stat row, as rich renders it; the file gets
    the name row, a blank row, the headers and the stat rows without blanks,
    and the stat-name map plays no part.  The file is written whatever rich
    makes of the line that reports it; where it renders, the export ends
    well with that line printed. *)
Theorem module_display_then_export {R : Rich} (m : module_record) (shown : list Table)
    (dir name : string) (rest : list (option string)) (co : list output)
    (cf : gmap string (list (list string))) (rf : gmap string string) :
  mapM render_table [create_module_stats_table m] = Some shown →
  dir ≠ "" → name ≠ "" → rf !! Py.path_join dir (name +:+ ".csv") = None →
  ∃ r s',
    display_module_info m
      {| answers := Some "Output to CSV" :: Some dir :: Some name :: rest;
         console := co; csv_files := cf; refused := rf |}
    = (r, s')
    ∧ csv_files s'
      = <[Py.path_join dir (name +:+ ".csv")
          := [ ["Module Name"; module_name m]; []; ["Level"; "Capacity"; "Value"] ]
             ++ (module_stat_row <$> module_stat m)]> cf
    ∧ (r = Ok tt ∨ r = Raise MarkupError)
    ∧ (∀ line,
         render ("Data successfully exported to "
                 +:+ Py.path_join dir (name +:+ ".csv") +:+ "." +:+ newline)
         = Rendered line →
         r = Ok tt
         ∧ console s' = co ++ [Shown shown; Printed line]
         ∧ answers s' = tail rest).
Proof.
  intros Hshown Hdir Hname Hfree. unfold display_module_info.
  erewrite bind_ok by (by apply show_rendered).
  cbn [answers console csv_files refused].
  erewrite bind_ok by (apply select_offered; apply (bool_decide_unpack _); by vm_compute).
  cbv beta iota. rewrite decide_True by done.
  destruct (export_writes_rows (ModuleItem m) None dir name rest
              (co ++ [Shown shown]) cf rf Hdir Hname Hfree)
    as [r [s' [Hrun [Hfiles [_ [_ [Hr Hline]]]]]]].
  exists r, s'. split; [exact Hrun|].
  split; [by rewrite Hfiles, prepare_csv_rows_module|].
  split; [exact Hr|].
  intros line Hrendered. destruct (Hline line Hrendered) as [-> [-> ->]].
  split; [done|]. split; [by rewrite <- app_assoc | done].
Qed.

Lemma module_display_then_export_witness :
  csv_files
    (display_module_info (R := Sample.terminal) Sample.sharp_precision
       (Sample.blank_session [Some "Output to CSV"; Some "/tmp"; Some "sharp"])).2
    !! "/tmp/sharp.csv"
  = Some [ ["Module Name"; "Sharp Precision Shot"]; [];
           ["Level"; "Capacity"; "Value"];
           ["0"; "6"; "Fire rate +1%"];
           ["1"; "7"; "Fire rate +2%"] ].
Proof.
  unfold Sample.blank_session.
  destruct (module_display_then_export (R := Sample.terminal) Sample.sharp_precision
              [create_module_stats_table Sample.sharp_precision]
              "/tmp" "sharp" [] [] ∅ ∅)
    as [r [s' [Hrun [Hfiles _]]]].
  - by vm_compute.
  - done.
  - done.
  - apply lookup_empty.
  - rewrite Hrun. cbn [snd]. rewrite Hfiles. by rewrite lookup_insert_eq.
Defined.

(** A closing tag that closes nothing, typed as the file name: the file is
    written, the line that reports it is refused, the handler's line quotes
    the tag and is refused in turn, and [MarkupError] leaves the export
    before the operator is asked to press enter. *)
Example export_markup_in_file_name :
  display_module_info (R := Sample.terminal) Sample.sharp_precision
    (Sample.blank_session [Some "Output to CSV"; Some "/tmp"; Some "[/x]"; None])
  = (Raise MarkupError,
     {| answers := [None];
        console := [Shown [create_module_stats_table Sample.sharp_precision]];
        csv_files := {[ "/tmp/[/x].csv"
                        := prepare_csv_rows (ModuleItem Sample.sharp_precision) None ]};
        refused := ∅ |}).
Proof. by vm_compute. Qed.

(** The same tag in a module's name: the table is not shown and the display
    ends there. *)
Example display_markup_in_name :
  display_module_info (R := Sample.terminal)
    {| module_name := "[/x]"; module_stat := [] |}
    (Sample.blank_session [Some "Output to CSV"; Some "/tmp"; Some "out"])
  = (Raise MarkupError,
     Sample.blank_session [Some "Output to CSV"; Some "/tmp"; Some "out"]).
Proof. by vm_compute. Qed.

(** ** What the session steps leave alone *)

Section Tame.
Context {A B : Type}.

Lemma tame_ret (a : A) : tame (mret a).
Proof. intros s. by cbn. Qed.

Lemma tame_raise (e : exn) : tame (raise e : M A).
Proof. intros s. by cbn. Qed.

Lemma tame_bind (m : M A) (k : A → M B) :
  tame m → (∀ a, tame (k a)) → tame (m ≫= k).
Proof.
  intros Hm Hk s. specialize (Hm s). unfold mbind, session_bind.
  destruct (m s) as [[a|e] s1]; [|exact Hm].
  specialize (Hk a s1). cbn [snd] in Hm. destruct Hm as [Ha [Hc Hr]].
  destruct Hk as [Ha' [Hc' Hr']]. split; [by etrans|]. split; [by etrans | congruence].
Qed.

End Tame.

Lemma tame_ask : tame ask.
Proof.
  intros [[|a rest] co cf rf]; cbn; [done|].
  split; [by apply suffix_cons_r | done].
Qed.

Lemma tame_emit (o : output) : tame (emit o).
Proof. intros s. cbn. split; [done|]. split; [by apply prefix_app_r | done]. Qed.

Lemma tame_write_csv (path : string) (rows : list (list string)) :
  tame (write_csv path rows).
Proof. intros s. unfold write_csv. by destruct (refused s !! path). Qed.

Ltac tame_step :=
  first
    [ apply tame_bind; [|intros ?]
    | apply tame_ret | apply tame_raise | apply tame_ask | apply tame_emit
    | apply tame_write_csv
    | match goal with
      | |- tame (match ?x with _ => _ end) => destruct x
      | |- tame (let '(_, _) := ?p in _) => destruct p
      end ].

Lemma tame_select (choices : list string) : tame (select choices).
Proof. unfold select. repeat tame_step. Qed.

Lemma tame_export {R : Rich} (data : item) (stat_map : option (gmap string string)) :
  tame (export_json_to_csv data stat_map).
Proof.
  unfold export_json_to_csv, get_output_directory, get_csv_file_path,
    console_print, console_print_or_message.
  repeat tame_step.
Qed.

Lemma tame_display_weapon {R : Rich} (w : weapon) (stat_map : gmap string string) :
  tame (display_weapon_info w stat_map).
Proof.
  unfold display_weapon_info, parse_range, show.
  repeat first [apply tame_select | apply tame_export | tame_step].
Qed.

Lemma tame_display_module {R : Rich} (m : module_record) : tame (display_module_info m).
Proof.
  unfold display_module_info, show.
  repeat first [apply tame_select | apply tame_export | tame_step].
Qed.

Lemma tame_handle_weapons {U : Py.Unicode} {R : Rich} (weapons : list weapon)
    (stat_map : gmap string string) (weapon_names : list string) :
  tame (handle_search_weapons weapons stat_map weapon_names).
Proof.
  unfold handle_search_weapons, lift_search, next_named, print.
  repeat first [apply tame_select | apply tame_display_weapon | tame_step].
Qed.

Lemma tame_handle_modules {U : Py.Unicode} {R : Rich} (modules : list module_record)
    (module_names : list string) :
  tame (handle_search_modules modules module_names).
Proof.
  unfold handle_search_modules, lift_search, next_named, print.
  repeat first [apply tame_select | apply tame_display_module | tame_step].
Qed.

Lemma export_one_file {R : Rich} (data : item) (stat_map : option (gmap string string))
    (s : session) :
  csv_files (export_json_to_csv data stat_map s).2 = csv_files s
  ∨ ∃ path,
      csv_files (export_json_to_csv data stat_map s).2
      = <[path := prepare_csv_rows data stat_map]> (csv_files s).
Proof.
  destruct s as [ans co cf rf].
  unfold export_json_to_csv, get_output_directory, get_csv_file_path.
  destruct ans as [|[dir|] ans]; run;
    try (left; by destruct (render "Invalid directory. Returning to main menu.")).
  destruct (Py.truthy dir) eqn:Hdir; run; rewrite ?Hdir; run;
    try (left; by destruct (render "Invalid directory. Returning to main menu.")).
  destruct ans as [|[name|] ans]; run;
    try (left; by destruct (render "Invalid file name. Returning to main menu.")).
  destruct (Py.truthy name) eqn:Hname; run; rewrite ?Hname; run;
    try (left; by destruct (render "Invalid file name. Returning to main menu.")).
  destruct (Py.truthy (Py.path_join dir (name +:+ ".csv"))) eqn:Hpath; run;
    rewrite ?Hpath; run; [|by left].
  unfold write_csv. run.
  destruct (rf !! Py.path_join dir (name +:+ ".csv")) as [error|] eqn:Hrf; run.
  - left. destruct (render ("Failed to export data to CSV: " +:+ error)); run;
      [by destruct ans | done].
  - right. exists (Py.path_join dir (name +:+ ".csv")).
    destruct (render ("Data successfully exported to "
                      +:+ Py.path_join dir (name +:+ ".csv") +:+ "." +:+ newline))
      as [shown|message]; run; [by destruct ans|].
    destruct (render ("Failed to export data to CSV: " +:+ message)); run;
      [by destruct ans | done].
Qed.

(** X16.  Whatever the operator answers and however the export ends, it only
    uses up answers, only adds lines to the console, and changes the exported
    files at one path at most, where it puts the rows of
    [prepare_csv_rows]. *)
Theorem export_is_contained {R : Rich} (data : item)
    (stat_map : option (gmap string string)) (s : session) :
  answers (export_json_to_csv data stat_map s).2 `suffix_of` answers s
  ∧ console s `prefix_of` console (export_json_to_csv data stat_map s).2
  ∧ refused (export_json_to_csv data stat_map s).2 = refused s
  ∧ (csv_files (export_json_to_csv data stat_map s).2 = csv_files s
     ∨ ∃ path,
         csv_files (export_json_to_csv data stat_map s).2
         = <[path := prepare_csv_rows data stat_map]> (csv_files s)).
Proof.
  destruct (tame_export data stat_map s) as [Ha [Hc Hr]].
  split; [exact Ha|]. split; [exact Hc|]. split; [exact Hr|]. apply export_one_file.
Qed.

(** ** The cache: failures and repeated loads *)

(** X18.  A fetch that fails leaves every cached file as it was.  When the
    transfer fails, the status is an error status or the body does not
    parse, the fetch raises before it touches the store, which stays as it
    is.  When the records have arrived and the cache path is a directory, the
    fetch raises [IsADirectoryError] from the open, after the directories
    were made. *)
Theorem failed_fetch_writes_nothing {A} `{Json A} (remote : string → option response)
    (url cache_file : string) (st : store) :
  (remote url = None →
   fetch_and_cache_json (A := A) remote url cache_file st = (Raise ConnectionError, st))
  ∧ (∀ response, remote url = Some response →
       400 ≤ status_code response < 600 →
       fetch_and_cache_json (A := A) remote url cache_file st
       = (Raise (HTTPError (status_code response)), st))
  ∧ (∀ response, remote url = Some response →
       ¬ (400 ≤ status_code response < 600) →
       json_loads (A := A) (body response) = None →
       fetch_and_cache_json (A := A) remote url cache_file st
       = (Raise JSONDecodeError, st))
  ∧ (∀ data : A, fetched remote url data →
       is_dir st cache_file = true →
       ∃ e st', fetch_and_cache_json remote url cache_file st = (Raise e, st')
                ∧ files st' = files st
                ∧ (Py.truthy (Py.dirname cache_file) = true →
                   existsb (is_file st)
                     (ancestors (S (String.length (Py.dirname cache_file)))
                        (Py.dirname cache_file)) = false →
                   e = IsADirectoryError))
  ∧ (∀ (data : A) e st', fetched remote url data →
       fetch_and_cache_json remote url cache_file st = (Raise e, st') →
       files st' = files st).
Proof.
  split; [|split; [|split; [|split]]].
  - intros Hget. unfold fetch_and_cache_json. by rewrite Hget.
  - intros response Hget [H1 H2]. unfold fetch_and_cache_json. rewrite Hget.
    apply Z.leb_le in H1. apply Z.ltb_lt in H2. by rewrite H1, H2.
  - intros response Hget Hstatus Hjson. unfold fetch_and_cache_json. rewrite Hget.
    destruct ((400 <=? status_code response) && (status_code response <? 600)) eqn:Hs.
    + apply andb_true_iff in Hs as [H1 H2]. apply Z.leb_le in H1. apply Z.ltb_lt in H2.
      by destruct Hstatus.
    + by rewrite Hjson.
  - intros data Hfetched Hdir. rewrite (fetch_success remote _ _ data) by done.
    unfold cache_write_ops. cbn [app run_ops run_op].
    destruct (makedirs (Py.dirname cache_file) st) as [r1 st1] eqn:Hmk.
    pose proof Hmk as Hmk'.
    apply makedirs_inv in Hmk as [[-> [Hfree [Hname ->]]] | [e [-> ->]]].
    + assert (Hopen : open_w cache_file
                        {| files := files st;
                           dirs := list_to_set
                                     (ancestors (S (String.length (Py.dirname cache_file)))
                                        (Py.dirname cache_file)) ∪ dirs st |}
                      = (Raise IsADirectoryError,
                         {| files := files st;
                            dirs := list_to_set
                                      (ancestors (S (String.length (Py.dirname cache_file)))
                                         (Py.dirname cache_file)) ∪ dirs st |})).
      { unfold open_w.
        assert (Hstill : is_dir {| files := files st;
                                   dirs := list_to_set
                                      (ancestors (S (String.length (Py.dirname cache_file)))
                                         (Py.dirname cache_file)) ∪ dirs st |}
                           cache_file = true).
        { unfold is_dir in *. cbn [dirs]. apply bool_decide_eq_true.
          apply bool_decide_eq_true in Hdir. by apply elem_of_union_r. }
        by rewrite Hstill. }
      rewrite Hopen. do 2 eexists. split; [reflexivity|]. by split.
    + do 2 eexists. split; [reflexivity|]. split; [done|].
      intros Hname Hfree. unfold makedirs in Hmk'. rewrite Hname in Hmk'.
      cbn [negb] in Hmk'. rewrite Hfree in Hmk'.
      destruct (is_file st (Py.dirname cache_file)) eqn:Hfile; [|discriminate Hmk'].
      assert (Hne : Py.dirname cache_file ≠ "")
        by (intros Hempty; by rewrite Hempty in Hname).
      pose proof (existsb_false_elem _ _ _ Hfree (ancestors_self _ Hne)). congruence.
  - intros data e st' Hfetched Hrun.
    destruct (fetch_caches remote _ _ data _ _ _ Hfetched Hrun)
      as [[Hok _] | [e' [_ Hfiles]]]; [discriminate Hok | exact Hfiles].
Qed.

Lemma failed_fetch_writes_nothing_witness :
  fetch_and_cache_json (H := empty_array_json weapon) Scenario.not_found
    WEAPON_JSON_URL (CACHE_FILE Sample.cache_dir) Sample.cached_machine
  = (Raise (HTTPError 404), Sample.cached_machine)
  ∧ ∃ e st',
      fetch_and_cache_json (H := empty_array_json weapon) Sample.empty_catalog
        WEAPON_JSON_URL (CACHE_FILE Sample.cache_dir)
        {| files := ∅; dirs := {[ CACHE_FILE Sample.cache_dir ]} |}
      = (Raise e, st')
      ∧ files st' = ∅.
Proof.
  split.
  - destruct (failed_fetch_writes_nothing (H := empty_array_json weapon)
                Scenario.not_found WEAPON_JSON_URL (CACHE_FILE Sample.cache_dir)
                Sample.cached_machine) as [_ [Hstatus _]].
    apply (Hstatus {| status_code := 404; body := "Not Found" |});
      [reflexivity | cbn; lia].
  - destruct (failed_fetch_writes_nothing (H := empty_array_json weapon)
                Sample.empty_catalog WEAPON_JSON_URL (CACHE_FILE Sample.cache_dir)
                {| files := ∅; dirs := {[ CACHE_FILE Sample.cache_dir ]} |})
      as [_ [_ [_ [Hdir _]]]].
    destruct (Hdir []) as [e [st' [Hrun [Hfiles _]]]].
    + eexists. split; [reflexivity|]. split; [cbn; lia | reflexivity].
    + by vm_compute.
    + by exists e, st'.
Defined.

(** Once the directories are made and the file is open, the file is there
    and empty. *)
Lemma opened_is_empty (cache_file : string) (pieces : list string) (st st' : store) :
  run_ops (take 2 (cache_write_ops cache_file pieces)) st = (Ok tt, st') →
  files st' !! cache_file = Some "".
Proof.
  unfold cache_write_ops. cbn [app take run_ops run_op].
  destruct (makedirs (Py.dirname cache_file) st) as [r1 st1] eqn:Hmk.
  apply makedirs_inv in Hmk as [[-> [_ [_ ->]]] | [e [-> ->]]]; [|done].
  destruct (open_w cache_file _) as [r2 st2] eqn:Hop.
  apply open_w_inv in Hop as [[-> [_ ->]] | [e [-> ->]]]; [|done].
  intros [= <-]. cbn [files]. apply lookup_insert_eq.
Qed.

Section LoaderEdges.
Variable CACHE_DIR : string.
Variable remote : string → option response.
Context `{Json (list weapon)} `{Json (list StatItem.t)} `{Json (list module_record)}.

Lemma corrupt_file {A} `{Json A} (path text : string) (st : store) :
  files st !! path = Some text → json_loads (A := A) text = None →
  os_path_exists path st = true
  ∧ load_json_from_cache (A := A) path st = (Raise JSONDecodeError, st).
Proof.
  intros Hfile Hbad. unfold os_path_exists, load_json_from_cache.
  rewrite Hfile, Hbad. split; [|done]. by rewrite bool_decide_eq_true_2.
Qed.

(** X19.  A cache file that does not parse is fatal for its dataset: the
    loader raises [JSONDecodeError], leaves the file as it is and does not
    turn to the endpoint, whatever the endpoint would answer. *)
Theorem corrupt_cache_is_fatal (st : store) (text : string) :
  (files st !! CACHE_FILE CACHE_DIR = Some text →
   json_loads (A := list weapon) text = None →
   load_weapon_data CACHE_DIR remote st = (Raise JSONDecodeError, st))
  ∧ (files st !! STAT_CACHE_FILE CACHE_DIR = Some text →
     json_loads (A := list StatItem.t) text = None →
     load_stat_data CACHE_DIR remote st = (Raise JSONDecodeError, st))
  ∧ (files st !! MODULE_CACHE_FILE CACHE_DIR = Some text →
     json_loads (A := list module_record) text = None →
     load_module_data CACHE_DIR remote st = (Raise JSONDecodeError, st)).
Proof.
  repeat split; intros Hfile Hbad;
    destruct (corrupt_file _ _ _ Hfile Hbad) as [Hexists Hload];
    unfold load_weapon_data, load_stat_data, load_module_data;
    rewrite Hexists; cbn [negb]; by rewrite Hload.
Qed.

(** X20.  An interrupted cache write locks its dataset out: after the open
    and before the dump the file is empty, and from then on the loader
    raises [JSONDecodeError] instead of fetching again, for each of the
    three datasets and whatever was cached before.  The state is the one
    the first two steps of the write leave when the operating system has
    carried them out. *)
Theorem interrupted_write_blocks_load (st st' : store) (pieces : list string) :
  (run_ops (take 2 (cache_write_ops (CACHE_FILE CACHE_DIR) pieces)) st = (Ok tt, st') →
   st' = interrupted 2 (cache_write_ops (CACHE_FILE CACHE_DIR) pieces) st
   ∧ load_weapon_data CACHE_DIR remote st' = (Raise JSONDecodeError, st'))
  ∧ (run_ops (take 2 (cache_write_ops (STAT_CACHE_FILE CACHE_DIR) pieces)) st = (Ok tt, st') →
     st' = interrupted 2 (cache_write_ops (STAT_CACHE_FILE CACHE_DIR) pieces) st
     ∧ load_stat_data CACHE_DIR remote st' = (Raise JSONDecodeError, st'))
  ∧ (run_ops (take 2 (cache_write_ops (MODULE_CACHE_FILE CACHE_DIR) pieces)) st
     = (Ok tt, st') →
     st' = interrupted 2 (cache_write_ops (MODULE_CACHE_FILE CACHE_DIR) pieces) st
     ∧ load_module_data CACHE_DIR remote st' = (Raise JSONDecodeError, st')).
Proof.
  split; [|split]; intros Hsteps.
  - split; [unfold interrupted; by rewrite Hsteps|].
    destruct (corrupt_file (A := list weapon) _ "" st' (opened_is_empty _ _ _ _ Hsteps)
                json_loads_empty) as [Hexists Hload].
    unfold load_weapon_data. rewrite Hexists. exact Hload.
  - split; [unfold interrupted; by rewrite Hsteps|].
    destruct (corrupt_file (A := list StatItem.t) _ "" st' (opened_is_empty _ _ _ _ Hsteps)
                json_loads_empty) as [Hexists Hload].
    unfold load_stat_data. rewrite Hexists. cbn [negb]. by rewrite Hload.
  - split; [unfold interrupted; by rewrite Hsteps|].
    destruct (corrupt_file (A := list module_record) _ "" st'
                (opened_is_empty _ _ _ _ Hsteps) json_loads_empty) as [Hexists Hload].
    unfold load_module_data. rewrite Hexists. exact Hload.
Qed.

Lemma reload {A} `{Json A} (url path : string) (data : A) (st st' : store) :
  (if negb (os_path_exists path st)
   then fetch_and_cache_json remote url path st
   else load_json_from_cache path st) = (Ok data, st') →
  json_loads (json_dumps data) = Some data →
  os_path_exists path st' = true
  ∧ load_json_from_cache path st' = (Ok data, st').
Proof.
  intros Hload Hround. destruct (os_path_exists path st) eqn:Hexists; cbn [negb] in Hload.
  - unfold load_json_from_cache in Hload.
    destruct (files st !! path) as [text|] eqn:Hfile; [|done].
    destruct (json_loads text) as [data'|] eqn:Hjson; [|done].
    injection Hload as -> <-. split; [done|].
    unfold load_json_from_cache. by rewrite Hfile, Hjson.
  - unfold fetch_and_cache_json in Hload.
    destruct (remote url) as [response|]; [|done].
    destruct ((400 <=? status_code response) && (status_code response <? 600)); [done|].
    destruct (json_loads (body response)) as [data'|]; [|done].
    destruct (run_ops _ st) as [r1 st1] eqn:Hrun.
    apply cache_write_inv in Hrun as [[-> [Hfiles _]] | [e [-> _]]]; [|done].
    pose proof (f_equal fst Hload) as Hdata. pose proof (f_equal snd Hload) as Hst.
    cbn [fst snd] in Hdata, Hst. injection Hdata as ->. subst st1.
    assert (Hfile : files st' !! path = Some (json_dumps data)).
    { rewrite Hfiles. apply lookup_insert_eq. }
    split.
    + unfold os_path_exists. rewrite Hfile. by rewrite bool_decide_eq_true_2.
    + unfold load_json_from_cache. by rewrite Hfile, Hround.
Qed.

(** X21.  A load that succeeded need not be paid for twice: when the
    records survive the round trip through their JSON text, loading again
    returns the same records from the cache and changes nothing, even with
    an endpoint that has become unreachable in the meantime.  Shown for the
    weapon and the module dataset. *)
Theorem second_load_reads_cache (st st' : store) :
  (∀ data, load_weapon_data CACHE_DIR remote st = (Ok data, st') →
     json_loads (json_dumps data) = Some data →
     ∀ remote', load_weapon_data CACHE_DIR remote' st' = (Ok data, st'))
  ∧ (∀ data, load_module_data CACHE_DIR remote st = (Ok data, st') →
       json_loads (json_dumps data) = Some data →
       ∀ remote', load_module_data CACHE_DIR remote' st' = (Ok data, st')).
Proof.
  split; intros data Hload Hround remote';
    destruct (reload _ _ _ _ _ Hload Hround) as [Hexists Hagain];
    unfold load_weapon_data, load_module_data; rewrite Hexists; exact Hagain.
Qed.
End LoaderEdges.

Lemma corrupt_cache_is_fatal_witness :
  load_weapon_data (H := empty_array_json weapon) Sample.cache_dir Sample.empty_catalog
    {| files := {[ CACHE_FILE Sample.cache_dir := "[{" ]}; dirs := {[ Sample.cache_dir ]} |}
  = (Raise JSONDecodeError,
     {| files := {[ CACHE_FILE Sample.cache_dir := "[{" ]}; dirs := {[ Sample.cache_dir ]} |}).
Proof.
  destruct (corrupt_cache_is_fatal Sample.cache_dir Sample.empty_catalog
              (H := empty_array_json weapon) (H0 := empty_array_json StatItem.t)
              (H1 := empty_array_json module_record)
              {| files := {[ CACHE_FILE Sample.cache_dir := "[{" ]};
                 dirs := {[ Sample.cache_dir ]} |} "[{") as [Hw _].
  apply Hw; by vm_compute.
Defined.

Lemma second_load_reads_cache_witness :
  ∃ st',
    load_weapon_data (H := empty_array_json weapon) Sample.cache_dir Sample.empty_catalog
      Sample.fresh_machine = (Ok [], st')
    ∧ load_weapon_data (H := empty_array_json weapon) Sample.cache_dir Scenario.offline st'
      = (Ok [], st').
Proof.
  eexists. split; [reflexivity|].
  destruct (second_load_reads_cache Sample.cache_dir Sample.empty_catalog
              (H := empty_array_json weapon) (H1 := empty_array_json module_record)
              Sample.fresh_machine
              (run_ops (cache_write_ops (CACHE_FILE Sample.cache_dir) ["[]"])
                       Sample.fresh_machine).2) as [Hw _].
  apply (Hw []); reflexivity.
Defined.

Lemma interrupted_write_blocks_load_witness :
  load_weapon_data (H := empty_array_json weapon) Sample.cache_dir Sample.empty_catalog
    (interrupted 2 (cache_write_ops (CACHE_FILE Sample.cache_dir) ["[]"])
       Sample.cached_machine)
  = (Raise JSONDecodeError,
     interrupted 2 (cache_write_ops (CACHE_FILE Sample.cache_dir) ["[]"])
       Sample.cached_machine).
Proof.
  destruct (interrupted_write_blocks_load Sample.cache_dir Sample.empty_catalog
              (H := empty_array_json weapon) (H0 := empty_array_json StatItem.t)
              (H1 := empty_array_json module_record)
              Sample.cached_machine
              (interrupted 2 (cache_write_ops (CACHE_FILE Sample.cache_dir) ["[]"])
                 Sample.cached_machine) ["[]"]) as [Hw _].
  destruct Hw as [_ Hload]; [by vm_compute | exact Hload].
Defined.
(** ** Paths: the directory of a cache file *)

Lemma upto_last_slash_join (x y : string) :
  Py.upto_last_slash (x +:+ "/" +:+ y) = x +:+ "/" +:+ Py.upto_last_slash y.
Proof.
  induction x as [|c x IH].
  - change (Py.upto_last_slash (String "/" y) = String "/" (Py.upto_last_slash y)).
    cbn [Py.upto_last_slash]. by destruct (Py.upto_last_slash y).
  - change (Py.upto_last_slash (String c (x +:+ "/" +:+ y))
            = String c (x +:+ "/" +:+ Py.upto_last_slash y)).
    cbn [Py.upto_last_slash]. rewrite IH. by destruct x.
Qed.

Lemma all_slashes_snoc (stem : string) (c : ascii) (tail : string) :
  c ≠ "/"%char → Py.all_slashes (stem +:+ String c tail) = false.
Proof.
  intros Hc. apply Ascii.eqb_neq in Hc. induction stem as [|a stem IH].
  - change (Py.all_slashes (String c tail) = false).
    cbn [Py.all_slashes]. by rewrite Hc.
  - change (Py.all_slashes (String a (stem +:+ String c tail)) = false).
    cbn [Py.all_slashes]. rewrite IH. apply andb_false_r.
Qed.

Lemma rstrip_slashes_snoc (stem : string) (c : ascii) :
  c ≠ "/"%char →
  Py.rstrip_slashes (stem +:+ String c "/") = stem +:+ String c "".
Proof.
  intros Hc. apply Ascii.eqb_neq in Hc. induction stem as [|a stem IH].
  - change (Py.rstrip_slashes (String c (String "/" "")) = String c "").
    cbn [Py.rstrip_slashes]. change (("/" =? "/")%char) with true. cbv iota.
    by rewrite Hc.
  - change (Py.rstrip_slashes (String a (stem +:+ String c "/"))
            = String a (stem +:+ String c "")).
    cbn [Py.rstrip_slashes]. rewrite IH. by destruct stem.
Qed.

Lemma rev_app_snoc (stem : string) (c : ascii) (acc : string) :
  String.rev_app (stem +:+ String c "") acc = String c (String.rev_app stem acc).
Proof.
  revert acc. induction stem as [|a stem IH]; intros acc; [done|].
  change (String.rev_app (stem +:+ String c "") (String a acc)
          = String c (String.rev_app stem (String a acc))).
  apply IH.
Qed.

Lemma rev_snoc (stem : string) (c : ascii) :
  String.rev (stem +:+ String c "") = String c (String.rev stem).
Proof. apply rev_app_snoc. Qed.

Lemma path_join_plain (stem : string) (c : ascii) (name : string) :
  c ≠ "/"%char → String.prefix "/" name = false →
  Py.path_join (stem +:+ String c "") name = stem +:+ String c ("/" +:+ name).
Proof.
  intros Hc Hname. unfold Py.path_join. rewrite Hname, rev_snoc.
  assert (Htruthy : Py.truthy (stem +:+ String c "") = true) by by destruct stem.
  rewrite Htruthy. cbn [negb orb String.prefix].
  destruct (ascii_dec "/" c) as [<-|_]; [done|].
  rewrite string_app_assoc. done.
Qed.

Lemma dirname_join (stem : string) (c : ascii) (name : string) :
  c ≠ "/"%char → String.prefix "/" name = false → Py.upto_last_slash name = "" →
  Py.dirname (Py.path_join (stem +:+ String c "") name) = stem +:+ String c "".
Proof.
  intros Hc Hname Hplain. rewrite path_join_plain by done. unfold Py.dirname.
  assert (Hsplit : stem +:+ String c ("/" +:+ name) = (stem +:+ String c "") +:+ "/" +:+ name).
  { by rewrite string_app_assoc. }
  rewrite Hsplit, upto_last_slash_join, Hplain.
  assert (Hhead : (stem +:+ String c "") +:+ "/" +:+ "" = stem +:+ String c "/").
  { by rewrite string_app_assoc. }
  rewrite Hhead. rewrite (all_slashes_snoc stem c "/" Hc).
  assert (Htruthy : Py.truthy (stem +:+ String c "/") = true) by by destruct stem.
  rewrite Htruthy. cbn [negb andb]. by apply rstrip_slashes_snoc.
Qed.

(** Writing one cache file leaves another one of the same directory
    writable. *)
Lemma writable_after_write (st : store) (written other text : string) :
  writable st written = true → writable st other = true →
  Py.dirname written = Py.dirname other →
  writable {| files := <[written := text]> (files st);
              dirs := list_to_set (ancestors (S (String.length (Py.dirname written)))
                                             (Py.dirname written))
                      ∪ dirs st |} other = true.
Proof.
  unfold writable. rewrite !andb_true_iff, !negb_true_iff.
  intros [[[_ _] _] Hself] [[[Hname Hfree] Hdir] Hother] Hsame.
  rewrite Hsame in *. apply bool_decide_eq_false in Hself, Hother.
  split; [split; [split|]|].
  - done.
  - apply not_true_is_false. intros Hex.
    apply existsb_exists in Hex as [a [Hin Hfile]]. apply list_elem_of_In in Hin.
    unfold is_file in Hfile. cbn [files] in Hfile. apply bool_decide_eq_true in Hfile.
    rewrite lookup_insert_ne in Hfile by (by intros ->).
    pose proof (existsb_false_elem _ _ _ Hfree Hin) as Hno.
    unfold is_file in Hno. apply bool_decide_eq_false in Hno. done.
  - unfold is_dir in *. cbn [dirs]. apply bool_decide_eq_false in Hdir.
    apply bool_decide_eq_false_2. rewrite elem_of_union, elem_of_list_to_set. tauto.
  - by apply bool_decide_eq_false_2.
Qed.

(** ** Refreshing, loading and the menu loop *)

Lemma prog_bind_ok {A B} (p : Prog A) (k : A → Prog B) (st st' : machine) (a : A) :
  p st = (Ok a, st') → (p ≫= k) st = k a st'.
Proof. intros Hp. unfold mbind, prog_bind. by rewrite Hp. Qed.

Lemma prog_bind_raise {A B} (p : Prog A) (k : A → Prog B) (st st' : machine) (e : exn) :
  p st = (Raise e, st') → (p ≫= k) st = (Raise e, st').
Proof. intros Hp. unfold mbind, prog_bind. by rewrite Hp. Qed.

Lemma in_store_eq {A} (f : store → result A * store) (r : result A) (d : store) (st : machine) :
  f (store_of st) = (r, d) →
  in_store f st
  = (r, {| session_of := session_of st; store_of := d; commands := commands st |}).
Proof. intros Hf. unfold in_store. by rewrite Hf. Qed.

Lemma in_session_eq {A} (m : M A) (r : result A) (s : session) (st : machine) :
  m (session_of st) = (r, s) →
  in_session m st
  = (r, {| session_of := s; store_of := store_of st; commands := commands st |}).
Proof. intros Hm. unfold in_session. by rewrite Hm. Qed.

Lemma string_app_inj (d a b : string) : d +:+ a = d +:+ b → a = b.
Proof.
  induction d as [|c d IH]; [done|].
  change (String c (d +:+ a) = String c (d +:+ b) → a = b).
  intros Heq. injection Heq as Heq. by apply IH.
Qed.

Lemma path_join_inj (d a b : string) :
  String.prefix "/" a = false → String.prefix "/" b = false →
  Py.path_join d a = Py.path_join d b → a = b.
Proof.
  intros Ha Hb. unfold Py.path_join. rewrite Ha, Hb.
  destruct (negb (Py.truthy d) || String.prefix "/" (String.rev d)).
  - apply string_app_inj.
  - intros Heq. apply string_app_inj in Heq. by apply (string_app_inj "/") in Heq.
Qed.

Lemma cache_files_distinct (CACHE_DIR : string) :
  CACHE_FILE CACHE_DIR ≠ STAT_CACHE_FILE CACHE_DIR
  ∧ CACHE_FILE CACHE_DIR ≠ MODULE_CACHE_FILE CACHE_DIR
  ∧ STAT_CACHE_FILE CACHE_DIR ≠ MODULE_CACHE_FILE CACHE_DIR.
Proof.
  unfold CACHE_FILE, STAT_CACHE_FILE, MODULE_CACHE_FILE.
  repeat split; intros Heq; by apply path_join_inj in Heq.
Qed.

Section ProgramFacts.
Variable CACHE_DIR : string.
Variable remote : string → option response.
Variable os_name : string.
Context `{Json (list weapon)} `{Json (list StatItem.t)} `{Json (list module_record)}.
Context {U : Py.Unicode} {R : Rich}.

(** X22.  When the endpoint serves the three datasets and the three cache
    files can be written, under a cache directory whose path does not end in
    a slash, a refresh rewrites the three cache files with the fetched
    records' text, whatever they held and whether they existed or not,
    touches no other file, prints its two lines and waits for enter. *)
Theorem refresh_overwrites_all (stem : string) (c : ascii) (ws : list weapon)
    (ss : list StatItem.t) (ms : list module_record) (st : machine) :
  CACHE_DIR = stem +:+ String c "" → c ≠ "/"%char →
  writable (store_of st) (CACHE_FILE CACHE_DIR) = true →
  writable (store_of st) (STAT_CACHE_FILE CACHE_DIR) = true →
  writable (store_of st) (MODULE_CACHE_FILE CACHE_DIR) = true →
  fetched remote WEAPON_JSON_URL ws →
  fetched remote STAT_JSON_URL ss →
  fetched remote MODULE_JSON_URL ms →
  ∃ st',
    refresh_cache CACHE_DIR remote st = (Ok tt, st')
    ∧ files (store_of st')
      = <[MODULE_CACHE_FILE CACHE_DIR := json_dumps ms]>
          (<[STAT_CACHE_FILE CACHE_DIR := json_dumps ss]>
             (<[CACHE_FILE CACHE_DIR := json_dumps ws]> (files (store_of st))))
    ∧ files (store_of st') !! CACHE_FILE CACHE_DIR = Some (json_dumps ws)
    ∧ files (store_of st') !! STAT_CACHE_FILE CACHE_DIR = Some (json_dumps ss)
    ∧ files (store_of st') !! MODULE_CACHE_FILE CACHE_DIR = Some (json_dumps ms)
    ∧ console (session_of st')
      = console (session_of st)
        ++ [Printed "Refreshing cache..."; Printed ("Cache refreshed." +:+ newline)]
    ∧ answers (session_of st') = tail (answers (session_of st))
    ∧ commands st' = commands st.
Proof.
  intros Hstem Hc Hw Hs Hm Hws Hss Hms.
  destruct (cache_files_distinct CACHE_DIR) as [Hws_ss [Hws_ms Hss_ms]].
  assert (Hdw : Py.dirname (CACHE_FILE CACHE_DIR) = CACHE_DIR)
    by (rewrite Hstem; by apply dirname_join).
  assert (Hds : Py.dirname (STAT_CACHE_FILE CACHE_DIR) = CACHE_DIR)
    by (rewrite Hstem; by apply dirname_join).
  assert (Hdm : Py.dirname (MODULE_CACHE_FILE CACHE_DIR) = CACHE_DIR)
    by (rewrite Hstem; by apply dirname_join).
  pose proof (writable_after_write _ _ _ (json_dumps ws) Hw Hs (eq_trans Hdw (eq_sym Hds)))
    as Hs1.
  pose proof (writable_after_write _ _ _ (json_dumps ws) Hw Hm (eq_trans Hdw (eq_sym Hdm)))
    as Hm1.
  pose proof (writable_after_write _ _ _ (json_dumps ss) Hs1 Hm1 (eq_trans Hds (eq_sym Hdm)))
    as Hm2.
  unfold refresh_cache.
  erewrite prog_bind_ok by (apply in_session_eq; reflexivity).
  erewrite prog_bind_ok by (apply in_store_eq, (fetch_writes remote _ _ ws _ Hws Hw)).
  erewrite prog_bind_ok by (apply in_store_eq; cbn [store_of];
                            apply (fetch_writes remote _ _ ss _ Hss Hs1)).
  erewrite prog_bind_ok by (apply in_store_eq; cbn [store_of];
                            apply (fetch_writes remote _ _ ms _ Hms Hm2)).
  erewrite prog_bind_ok by (apply in_session_eq; reflexivity).
  cbn [session_of store_of commands files dirs].
  destruct st as [[ans co cf rf] d cmds]. cbn [session_of store_of commands answers console].
  destruct ans as [|a ans].
  - eexists. split; [reflexivity|]. cbn [store_of session_of files console answers commands].
    split; [done|]. split; [by rewrite !lookup_insert_ne, lookup_insert_eq by done|].
    split; [by rewrite lookup_insert_ne, lookup_insert_eq by done|].
    split; [by rewrite lookup_insert_eq|]. split; [by rewrite <- app_assoc | done].
  - eexists. split; [reflexivity|]. cbn [store_of session_of files console answers commands].
    split; [done|]. split; [by rewrite !lookup_insert_ne, lookup_insert_eq by done|].
    split; [by rewrite lookup_insert_ne, lookup_insert_eq by done|].
    split; [by rewrite lookup_insert_eq|]. split; [by rewrite <- app_assoc | done].
Qed.

(** X23.  A refresh is not all or nothing: when the weapon dataset is
    fetched, its cache file can be written and the stat endpoint cannot be
    reached, the refresh ends with [ConnectionError] after the weapon cache
    has been rewritten; the stat and module caches are as before, "Cache
    refreshed." is not printed and no answer is used up. *)
Theorem refresh_stops_midway (ws : list weapon) (st : machine) :
  writable (store_of st) (CACHE_FILE CACHE_DIR) = true →
  fetched remote WEAPON_JSON_URL ws →
  remote STAT_JSON_URL = None →
  ∃ st',
    refresh_cache CACHE_DIR remote st = (Raise ConnectionError, st')
    ∧ files (store_of st')
      = <[CACHE_FILE CACHE_DIR := json_dumps ws]> (files (store_of st))
    ∧ files (store_of st') !! STAT_CACHE_FILE CACHE_DIR
      = files (store_of st) !! STAT_CACHE_FILE CACHE_DIR
    ∧ files (store_of st') !! MODULE_CACHE_FILE CACHE_DIR
      = files (store_of st) !! MODULE_CACHE_FILE CACHE_DIR
    ∧ console (session_of st')
      = console (session_of st) ++ [Printed "Refreshing cache..."]
    ∧ answers (session_of st') = answers (session_of st).
Proof.
  intros Hw Hws Hdown.
  destruct (cache_files_distinct CACHE_DIR) as [Hws_ss [Hws_ms Hss_ms]].
  unfold refresh_cache.
  erewrite prog_bind_ok by (apply in_session_eq; reflexivity).
  erewrite prog_bind_ok by (apply in_store_eq, (fetch_writes remote _ _ ws _ Hws Hw)).
  erewrite prog_bind_raise; cycle 1.
  { apply in_store_eq. unfold fetch_and_cache_json. by rewrite Hdown. }
  eexists. split; [reflexivity|]. cbn [store_of session_of files console answers].
  split; [done|]. split; [by rewrite lookup_insert_ne|].
  split; [by rewrite lookup_insert_ne | done].
Qed.

(** X24.  When the weapon dataset cannot be loaded, the program stops
    there: [main] ends with the loader's exception after printing "Loading
    data..." only; no other dataset is loaded, the screen is not cleared and
    no answer of the operator is used up. *)
Theorem startup_failure_is_fatal (fuel : nat) (st : machine) (e : exn) (d : store) :
  load_weapon_data CACHE_DIR remote (store_of st) = (Raise e, d) →
  main CACHE_DIR remote os_name fuel st
  = (Raise e,
     {| session_of :=
          {| answers := answers (session_of st);
             console := console (session_of st) ++ [Printed "Loading data..."];
             csv_files := csv_files (session_of st);
             refused := refused (session_of st) |};
        store_of := d;
        commands := commands st |}).
Proof.
  destruct st as [[ans co cf rf] d0 cmds]. cbn [session_of store_of commands].
  cbn [answers console csv_files refused]. intros Hload. unfold main, load_data.
  erewrite prog_bind_raise; [reflexivity|].
  erewrite prog_bind_ok by (apply in_session_eq; reflexivity).
  erewrite prog_bind_raise; [reflexivity|].
  unfold in_store. cbn [session_of store_of commands]. by rewrite Hload.
Qed.
End ProgramFacts.

Lemma refresh_overwrites_all_witness :
  ∃ st',
    refresh_cache (H := empty_array_json weapon) (H0 := empty_array_json StatItem.t)
      (H1 := empty_array_json module_record) Sample.cache_dir Sample.empty_catalog
      (Scenario.boot Sample.fresh_machine [None])
    = (Ok tt, st')
    ∧ files (store_of st') !! STAT_CACHE_FILE Sample.cache_dir = Some "[]".
Proof.
  destruct (refresh_overwrites_all Sample.cache_dir Sample.empty_catalog
              (H := empty_array_json weapon) (H0 := empty_array_json StatItem.t)
              (H1 := empty_array_json module_record)
              "/home/operator/.config/dev_tfd_searc" "h" [] [] []
              (Scenario.boot Sample.fresh_machine [None]))
    as [st' [Hrun [_ [_ [Hstat _]]]]].
  - reflexivity.
  - done.
  - by vm_compute.
  - by vm_compute.
  - by vm_compute.
  - eexists. split; [reflexivity|]. split; [cbn; lia | reflexivity].
  - eexists. split; [reflexivity|]. split; [cbn; lia | reflexivity].
  - eexists. split; [reflexivity|]. split; [cbn; lia | reflexivity].
  - exists st'. split; [exact Hrun | exact Hstat].
Defined.

Lemma refresh_stops_midway_witness :
  ∃ st',
    refresh_cache (H := empty_array_json weapon) (H0 := empty_array_json StatItem.t)
      (H1 := empty_array_json module_record) Sample.cache_dir Scenario.weapons_only
      (Scenario.boot Sample.fresh_machine [None])
    = (Raise ConnectionError, st')
    ∧ files (store_of st') !! STAT_CACHE_FILE Sample.cache_dir = None.
Proof.
  destruct (refresh_stops_midway Sample.cache_dir Scenario.weapons_only
              (H := empty_array_json weapon) (H0 := empty_array_json StatItem.t)
              (H1 := empty_array_json module_record) []
              (Scenario.boot Sample.fresh_machine [None]))
    as [st' [Hrun [_ [Hstat _]]]].
  - by vm_compute.
  - eexists. split; [reflexivity|]. split; [cbn; lia | reflexivity].
  - reflexivity.
  - exists st'. split; [exact Hrun|]. rewrite Hstat. apply lookup_empty.
Defined.

Lemma startup_failure_is_fatal_witness :
  main (H := empty_array_json weapon) (H0 := empty_array_json StatItem.t)
    (H1 := empty_array_json module_record) (U := Sample.ascii) (R := Sample.terminal)
    Sample.cache_dir Scenario.offline "posix" 5
    (Scenario.boot Sample.fresh_machine [Some "Search Weapons"])
  = (Raise ConnectionError,
     {| session_of :=
          {| answers := [Some "Search Weapons"];
             console := [Printed "Loading data..."];
             csv_files := ∅; refused := ∅ |};
        store_of := Sample.fresh_machine;
        commands := [] |}).
Proof.
  apply (startup_failure_is_fatal Sample.cache_dir Scenario.offline "posix"
           (H := empty_array_json weapon) (H0 := empty_array_json StatItem.t)
           (H1 := empty_array_json module_record)
           (U := Sample.ascii) (R := Sample.terminal) 5
           (Scenario.boot Sample.fresh_machine [Some "Search Weapons"])
           ConnectionError Sample.fresh_machine).
  reflexivity.
Defined.

(** ** The menu loop *)

Section Frugal.
Context {A B : Type}.

Lemma frugal_ret (a : A) : frugal (mret a : Prog A).
Proof. intros st. done. Qed.

Lemma frugal_bind (p : Prog A) (k : A → Prog B) :
  frugal p → (∀ a, frugal (k a)) → frugal (p ≫= k).
Proof.
  intros Hp Hk st. specialize (Hp st). unfold mbind, prog_bind.
  destruct (p st) as [[a|e] st1]; [|exact Hp].
  specialize (Hk a st1). cbn [snd] in Hp. by etrans.
Qed.

Lemma frugal_in_session (m : M A) : tame m → frugal (in_session m).
Proof.
  intros Hm st. unfold in_session. destruct (Hm (session_of st)) as [Ha _].
  by destruct (m (session_of st)).
Qed.

Lemma frugal_in_store (f : store → result A * store) : frugal (in_store f).
Proof. intros st. unfold in_store. by destruct (f (store_of st)). Qed.
End Frugal.

Section MainFacts.
Variable CACHE_DIR : string.
Variable remote : string → option response.
Variable os_name : string.
Context `{Json (list weapon)} `{Json (list StatItem.t)} `{Json (list module_record)}.
Context {U : Py.Unicode} {R : Rich}.

Lemma frugal_refresh : frugal (refresh_cache CACHE_DIR remote).
Proof.
  unfold refresh_cache, print.
  repeat first [ apply frugal_bind; [|intros ?] | apply frugal_in_store
               | apply frugal_in_session; first [apply tame_emit | apply tame_ask]
               | apply frugal_ret ].
Qed.

Lemma frugal_load_data : frugal (load_data CACHE_DIR remote).
Proof.
  unfold load_data, print.
  repeat first [ apply frugal_bind; [|intros ?] | apply frugal_in_store
               | apply frugal_in_session; apply tame_emit
               | apply frugal_ret ].
Qed.

Lemma frugal_handle_refresh : frugal (handle_refresh_cache CACHE_DIR remote).
Proof.
  unfold handle_refresh_cache. apply frugal_bind; [apply frugal_refresh|].
  intros _. apply frugal_load_data.
Qed.

Lemma menu_step (fuel : nat) (data : Catalog.t) (st : machine) :
  ∃ picked : option string,
    (head (answers (session_of st)) = Some picked ∨ picked = None)
    ∧ main_loop CACHE_DIR remote os_name (S fuel) data st
      = (let st1 :=
           {| session_of :=
                {| answers := tail (answers (session_of st));
                   console := console (session_of st);
                   csv_files := csv_files (session_of st);
                   refused := refused (session_of st) |};
              store_of := store_of st;
              commands := commands st
                          ++ [if decide (os_name = "nt") then "cls" else "clear"] |} in
         match picked with
         | None => (in_session (print "Exiting.") ;; mret true) st1
         | Some choice =>
             if decide (choice = "Exit") then (in_session (print "Exiting.") ;; mret true) st1
             else if decide (choice = "Refresh Cache") then
               (data ← handle_refresh_cache CACHE_DIR remote ;
                main_loop CACHE_DIR remote os_name fuel data) st1
             else if decide (choice = "Search Weapons") then
               (in_session (handle_search_weapons (Catalog.weapons data)
                              (Catalog.stat_map data) (Catalog.weapon_names data)) ;;
                main_loop CACHE_DIR remote os_name fuel data) st1
             else if decide (choice = "Search Modules") then
               (in_session (handle_search_modules (Catalog.modules data)
                              (Catalog.module_names data)) ;;
                main_loop CACHE_DIR remote os_name fuel data) st1
             else main_loop CACHE_DIR remote os_name fuel data st1
         end).
Proof.
  destruct st as [[ans co cf rf] d cmds]. cbn [main_loop].
  erewrite prog_bind_ok by reflexivity.
  cbn [session_of store_of commands answers console csv_files refused].
  destruct ans as [|a ans].
  - exists None. split; [by right|]. by erewrite prog_bind_ok by reflexivity.
  - destruct (select_any ["Search Weapons"; "Search Modules"; "Refresh Cache"; "Exit"]
                a ans co cf rf) as [picked [Hselect Hpicked]].
    exists picked. split; [destruct Hpicked as [-> | ->]; auto|].
    unfold mbind at 1, prog_bind at 1, in_session at 1.
    cbn [session_of store_of commands]. rewrite Hselect. cbv zeta.
    cbn [tail]. destruct picked as [choice|]; [|reflexivity].
    by repeat destruct (decide (choice = _)).
Qed.

Lemma main_loop_ends (fuel : nat) :
  ∀ (data : Catalog.t) (st : machine),
    (length (answers (session_of st)) < fuel)%nat →
    (main_loop CACHE_DIR remote os_name fuel data st).1 ≠ Ok false.
Proof.
  induction fuel as [|fuel IH]; intros data st Hfuel; [lia|].
  destruct (menu_step fuel data st) as [picked [Hpicked ->]]. cbv zeta.
  set (st1 := {| session_of := _; store_of := store_of st; commands := _ |}).
  assert (Hst1 : (length (answers (session_of st1)) < fuel
                  ∨ (picked = None ∧ answers (session_of st) = []))%nat).
  { subst st1. cbn [session_of answers].
    destruct (answers (session_of st)) as [|a ans]; cbn [tail length] in *.
    - right. split; [|done]. by destruct Hpicked.
    - left. lia. }
  assert (Hnext : ∀ (p : Prog unit) (data' : Catalog.t),
            frugal p → (length (answers (session_of st1)) < fuel)%nat →
            ((p ;; main_loop CACHE_DIR remote os_name fuel data') st1).1 ≠ Ok false).
  { intros p data' Hp Hlen. unfold mbind, prog_bind. specialize (Hp st1).
    destruct (p st1) as [[[]|err] st2]; [|done]. apply IH.
    apply suffix_length in Hp. cbn [snd] in Hp. lia. }
  destruct picked as [choice|]; [|done].
  destruct Hst1 as [Hlen | [? _]]; [|done].
  destruct (decide (choice = "Exit")); [done|].
  destruct (decide (choice = "Refresh Cache")).
  - unfold mbind, prog_bind. pose proof (frugal_handle_refresh st1) as Hp.
    destruct (handle_refresh_cache CACHE_DIR remote st1) as [[data'|err] st2]; [|done].
    apply IH. apply suffix_length in Hp. cbn [snd] in Hp. lia.
  - destruct (decide (choice = "Search Weapons")).
    { apply Hnext; [|done]. apply frugal_in_session, tame_handle_weapons. }
    destruct (decide (choice = "Search Modules")).
    { apply Hnext; [|done]. apply frugal_in_session, tame_handle_modules. }
    by apply IH.
Qed.

(** X25.  The menu loop comes to an end on every script of answers: every
    round that goes on has used up an answer, so with more fuel than there
    are answers [main] never runs out of it; it ends with the loop left or
    with an exception. *)
Theorem main_terminates (fuel : nat) (st : machine) :
  (length (answers (session_of st)) < fuel)%nat →
  (main CACHE_DIR remote os_name fuel st).1 = Ok true
  ∨ ∃ e, (main CACHE_DIR remote os_name fuel st).1 = Raise e.
Proof.
  intros Hfuel.
  assert (Hne : (main CACHE_DIR remote os_name fuel st).1 ≠ Ok false).
  { unfold main, mbind, prog_bind. pose proof (frugal_load_data st) as Hp.
    destruct (load_data CACHE_DIR remote st) as [[data|e] st1]; [|done].
    apply main_loop_ends. apply suffix_length in Hp. cbn [snd] in Hp. lia. }
  destruct (main CACHE_DIR remote os_name fuel st).1 as [[]|e]; [by left | done | right].
  by exists e.
Qed.

(** X26.  At the menu, "Exit" or a cancelled prompt ends the loop: the
    screen is cleared once, with [cls] on Windows and [clear] elsewhere,
    "Exiting." is printed, and neither the files nor the rest of the
    operator's answers are touched. *)
Theorem menu_exit_leaves (fuel : nat) (data : Catalog.t) (answer : option string)
    (rest : list (option string)) (co : list output)
    (cf : gmap string (list (list string))) (rf : gmap string string)
    (d : store) (cmds : list string) :
  answer = None ∨ answer = Some "Exit" →
  main_loop CACHE_DIR remote os_name (S fuel) data
    {| session_of := {| answers := answer :: rest; console := co;
                        csv_files := cf; refused := rf |};
       store_of := d; commands := cmds |}
  = (Ok true,
     {| session_of := {| answers := rest; console := co ++ [Printed "Exiting."];
                         csv_files := cf; refused := rf |};
        store_of := d;
        commands := cmds ++ [if decide (os_name = "nt") then "cls" else "clear"] |}).
Proof.
  intros Hanswer. cbn [main_loop]. erewrite prog_bind_ok by reflexivity.
  destruct Hanswer as [-> | ->].
  - by erewrite prog_bind_ok by reflexivity.
  - erewrite prog_bind_ok; cycle 1.
    { apply in_session_eq. apply select_offered. apply (bool_decide_unpack _). by vm_compute. }
    cbv beta iota. rewrite decide_True by done. reflexivity.
Qed.
End MainFacts.

Lemma main_terminates_witness :
  (main (H := empty_array_json weapon) (H0 := empty_array_json StatItem.t)
     (H1 := empty_array_json module_record) (U := Sample.ascii) (R := Sample.terminal)
     Sample.cache_dir Sample.empty_catalog "posix" 4
     (Scenario.boot Scenario.warm_machine
        [Some "Search Weapons"; Some "cage"; Some "Exit"])).1
  = Ok true.
Proof.
  destruct (main_terminates Sample.cache_dir Sample.empty_catalog "posix"
              (H := empty_array_json weapon) (H0 := empty_array_json StatItem.t)
              (H1 := empty_array_json module_record)
              (U := Sample.ascii) (R := Sample.terminal) 4
              (Scenario.boot Scenario.warm_machine
                 [Some "Search Weapons"; Some "cage"; Some "Exit"])) as [Hok | [e He]].
  - cbn. lia.
  - exact Hok.
  - exfalso. vm_compute in He. discriminate He.
Defined.

Lemma menu_exit_leaves_witness :
  main_loop (H := empty_array_json weapon) (H0 := empty_array_json StatItem.t)
    (H1 := empty_array_json module_record) (U := Sample.ascii) (R := Sample.terminal)
    Sample.cache_dir Sample.empty_catalog "nt" 1
    {| Catalog.weapons := []; Catalog.stat_map := ∅; Catalog.modules := [];
       Catalog.weapon_names := []; Catalog.module_names := [] |}
    (Scenario.boot Sample.fresh_machine [Some "Exit"; Some "Search Weapons"])
  = (Ok true,
     {| session_of := {| answers := [Some "Search Weapons"];
                         console := [Printed "Exiting."];
                         csv_files := ∅; refused := ∅ |};
        store_of := Sample.fresh_machine;
        commands := ["cls"] |}).
Proof.
  apply (menu_exit_leaves Sample.cache_dir Sample.empty_catalog "nt"
           (H := empty_array_json weapon) (H0 := empty_array_json StatItem.t)
           (H1 := empty_array_json module_record)
           (U := Sample.ascii) (R := Sample.terminal) 0
           {| Catalog.weapons := []; Catalog.stat_map := ∅; Catalog.modules := [];
              Catalog.weapon_names := []; Catalog.module_names := [] |}
           (Some "Exit") [Some "Search Weapons"] [] ∅ ∅ Sample.fresh_machine []).
  by right.
Defined.

(** ** Tables and rows: shapes, windows, the missing map *)

(** X27.  Without a stat-name map, and likewise with an empty one, the CSV
    rows of a weapon are the four identity rows and a blank row and no more,
    whatever base stats and firearm-attack levels the weapon has. *)
Theorem csv_rows_without_map (w : weapon) :
  prepare_csv_rows (WeaponItem w) None
  = [ ["Weapon ID"; weapon_id w];
      ["Weapon Type"; weapon_type w];
      ["Weapon Tier"; weapon_tier w];
      ["Rounds Type"; weapon_rounds_type w];
      [] ]
  ∧ prepare_csv_rows (WeaponItem w) (Some ∅) = prepare_csv_rows (WeaponItem w) None.
Proof.
  split; [reflexivity|].
  rewrite !prepare_csv_rows_weapon_falsy; auto.
Qed.

(** X28.  Every row handed to a table has as many cells as the table has
    columns: two in the base-stats table, three in the firearm-attack table
    and three in the module table, blank rows included. *)
Theorem table_rows_fit_columns (w : weapon) (m : module_record)
    (stat_map : gmap string string) (start_level end_level : Z) :
  Forall (fun row => length row = length (columns (create_base_stats_table w stat_map)))
         (rows (create_base_stats_table w stat_map))
  ∧ Forall (fun row =>
              length row
              = length (columns (create_firearm_attack_table w stat_map
                                   start_level end_level)))
           (rows (create_firearm_attack_table w stat_map start_level end_level))
  ∧ Forall (fun row => length row = length (columns (create_module_stats_table m)))
           (rows (create_module_stats_table m)).
Proof.
  split; [|split].
  - rewrite base_table_rows. unfold create_base_stats_table. cbv zeta.
    rewrite foldl_add_row. cbn [columns add_row add_column new_table List.app].
    apply Forall_app. split; [by repeat constructor|].
    apply Forall_fmap, Forall_forall. by intros stat _.
  - rewrite firearm_table_rows. unfold create_firearm_attack_table. cbv zeta.
    rewrite firearm_loop. cbn [columns add_row add_column new_table List.app].
    apply Forall_concat, Forall_fmap, Forall_forall. intros li _.
    apply Forall_fmap, Forall_forall. by intros fa _.
  - unfold create_module_stats_table. cbv zeta. rewrite module_loop.
    cbn [rows columns add_row add_column new_table List.app].
    apply Forall_concat, Forall_fmap, Forall_forall. intros stat _.
    by repeat constructor.
Qed.

Lemma perm_pull {A} (xs r ys : list A) : xs ++ (r ++ ys) ≡ₚ r ++ (xs ++ ys).
Proof. by rewrite !(assoc_L (++)), (comm (++) xs r). Qed.

Lemma windows_rows_cons (stat_map : gmap string string) (li : level_info)
    (l : list level_info) :
  1 ≤ level li ≤ 160 →
  windows_rows stat_map (li :: l) ≡ₚ firearm_rows stat_map li ++ windows_rows stat_map l.
Proof.
  intros Hlevel. unfold windows_rows, attack_ranges.
  cbn [fmap list_fmap]. rewrite !filter_cons.
  repeat (destruct (decide (in_window _ _ li)) as [?|?]);
    unfold in_window in *; try (exfalso; lia);
    cbn [fmap list_fmap concat]; rewrite <- ?app_assoc;
    rewrite ?(perm_pull _ (firearm_rows stat_map li)); reflexivity.
Qed.

Lemma windows_rows_perm (stat_map : gmap string string) (l : list level_info) :
  Forall (fun li => 1 ≤ level li ≤ 160) l →
  windows_rows stat_map l ≡ₚ concat (firearm_rows stat_map <$> l).
Proof.
  induction 1 as [|li l Hli _ IH]; [done|].
  rewrite windows_rows_cons by done. cbn [fmap list_fmap concat].
  apply Permutation_app_head, IH.
Qed.

(** X29.  The five windows cut the progression without loss and without
    overlap: for a weapon whose levels all lie in 1..160, the rows of the
    five firearm-attack tables taken together are the unwindowed rows, each
    exactly once, up to the order in which the windows are gone through.  A
    weapon whose levels all lie in one window shows there what the export
    writes. *)
Theorem windows_cover_progression (w : weapon) (stat_map : gmap string string) :
  Forall (fun li => 1 ≤ level li ≤ 160) (firearm_atk w) →
  concat (rows <$> window_tables w stat_map) ≡ₚ full_range_rows stat_map w
  ∧ (∀ start_level end_level,
       Forall (in_window start_level end_level) (firearm_atk w) →
       rows (create_firearm_attack_table w stat_map start_level end_level)
       = full_range_rows stat_map w).
Proof.
  intros Hlevels. split.
  - assert (Hrows : concat (rows <$> window_tables w stat_map)
                    = windows_rows stat_map (firearm_atk w)).
    { unfold window_tables, windows_rows, attack_ranges. cbn [fmap list_fmap].
      by rewrite !firearm_table_rows. }
    rewrite Hrows. by apply windows_rows_perm.
  - intros start_level end_level Hall. rewrite firearm_table_rows. unfold full_range_rows.
    f_equal. f_equal. clear Hlevels. induction Hall as [|li l Hli _ IH]; [done|].
    rewrite filter_cons, decide_True by done. by rewrite IH.
Qed.

Lemma windows_cover_progression_witness :
  Forall (fun li => 1 ≤ level li ≤ 160) (firearm_atk Sample.thunder_cage)
  ∧ concat (rows <$> window_tables Sample.thunder_cage Sample.stat_map)
    ≡ₚ full_range_rows Sample.stat_map Sample.thunder_cage.
Proof.
  assert (Hlevels : Forall (fun li => 1 ≤ level li ≤ 160)
                           (firearm_atk Sample.thunder_cage)).
  { repeat constructor; cbn; lia. }
  split; [exact Hlevels|].
  by destruct (windows_cover_progression Sample.thunder_cage Sample.stat_map Hlevels).
Defined.
(** ** Paths: where the cache directory ends up *)

(** X30.  For a cache directory whose path does not end in a slash, the
    directory of each of the three cache files is the cache directory
    itself, and a fetch that delivers records to a cache file that can be
    written leaves that directory in place: the cache is created under
    [get_cache_dir], not beside it. *)
Theorem cache_directory_created {A} `{Json A} (remote : string → option response)
    (stem : string) (c : ascii) (url : string) (data : A) (st : store) :
  c ≠ "/"%char →
  fetched remote url data →
  let CACHE_DIR := stem +:+ String c "" in
  Py.dirname (CACHE_FILE CACHE_DIR) = CACHE_DIR
  ∧ Py.dirname (STAT_CACHE_FILE CACHE_DIR) = CACHE_DIR
  ∧ Py.dirname (MODULE_CACHE_FILE CACHE_DIR) = CACHE_DIR
  ∧ (writable st (CACHE_FILE CACHE_DIR) = true →
     CACHE_DIR ∈ dirs (fetch_and_cache_json remote url (CACHE_FILE CACHE_DIR) st).2)
  ∧ (writable st (STAT_CACHE_FILE CACHE_DIR) = true →
     CACHE_DIR ∈ dirs (fetch_and_cache_json remote url (STAT_CACHE_FILE CACHE_DIR) st).2)
  ∧ (writable st (MODULE_CACHE_FILE CACHE_DIR) = true →
     CACHE_DIR ∈ dirs (fetch_and_cache_json remote url (MODULE_CACHE_FILE CACHE_DIR) st).2).
Proof.
  intros Hc Hfetched CACHE_DIR.
  assert (Hw : Py.dirname (CACHE_FILE CACHE_DIR) = CACHE_DIR) by by apply dirname_join.
  assert (Hs : Py.dirname (STAT_CACHE_FILE CACHE_DIR) = CACHE_DIR) by by apply dirname_join.
  assert (Hm : Py.dirname (MODULE_CACHE_FILE CACHE_DIR) = CACHE_DIR) by by apply dirname_join.
  assert (Hne : CACHE_DIR ≠ "") by (subst CACHE_DIR; by destruct stem).
  split; [done|]. split; [done|]. split; [done|].
  split; [|split]; intros Hwritable;
    rewrite (fetch_writes remote _ _ data _ Hfetched Hwritable); cbn [snd dirs];
    rewrite ?Hw, ?Hs, ?Hm; apply elem_of_union_l, elem_of_list_to_set;
    by apply ancestors_self.
Qed.

Lemma cache_directory_created_witness :
  Py.dirname (CACHE_FILE "/home/operator/.config/dev_tfd_search")
  = "/home/operator/.config/dev_tfd_search"
  ∧ "/home/operator/.config/dev_tfd_search"
    ∈ dirs (fetch_and_cache_json (H := empty_array_json weapon) Sample.empty_catalog
              WEAPON_JSON_URL (CACHE_FILE "/home/operator/.config/dev_tfd_search")
              Sample.fresh_machine).2.
Proof.
  destruct (cache_directory_created (H := empty_array_json weapon) Sample.empty_catalog
              "/home/operator/.config/dev_tfd_searc" "h" WEAPON_JSON_URL []
              Sample.fresh_machine) as [Hdir [_ [_ [Hin _]]]].
  - done.
  - eexists. split; [reflexivity|]. split; [cbn; lia | reflexivity].
  - split; [exact Hdir|]. apply Hin. by vm_compute.
Defined.
